(** * Consistency checker of the Financial-Narrative repository

    A shallow embedding of [src/consistency_checker.py]: claim extraction
    ([extract_factual_claims]), claim verification
    ([verify_claim_against_data], [create_financial_summary]) and report
    aggregation ([check_narrative_consistency], [compute_consistency_score]).

    Modelling conventions.
    - Text is a [string] of code points below 256, one [ascii] per code
      point; the classes [\d] and [\s] and [str.lower] are those of Python
      on that range.
    - A Python float or a numpy float64 is a [binary64]: a primitive
      floating-point number of Rocq, that is an IEEE 754 binary64 value
      with its infinities, its signed zeros and NaN.  Every operation
      rounds to nearest, ties to even, as the processor does.  A numeric
      column of a frame is a column of float64.
    - An exception is a value of [exn]; code that may raise returns
      [exn + A], with [inl] for a raised exception.
    - [print] appends a line to the standard output, which is passed
      explicitly.
    - The sentence tokenizer of NLTK and the construction of its sentiment
      analyzer, which raises when the lexicon is not installed, are
      parameters of the development. *)

From Stdlib Require Import String Ascii List Bool ZArith Lia.
From Stdlib Require Import DecimalString Floats.
From stdpp Require Import gmap strings.
Import ListNotations.

Set Default Proof Using "Type".
Set Warnings "-inexact-float".

Open Scope string_scope.
Open Scope list_scope.

(** ** Characters and strings *)

Module Text.

(** [\d] on code points below 256. *)
Definition is_digit (c : ascii) : bool :=
  (Ascii.leb "0" c && Ascii.leb c "9")%bool.

(** [\s] on code points below 256: tab to carriage return, the four
    separators 28 to 31, space, NEL (133) and the no-break space (160). *)
Definition is_space (c : ascii) : bool :=
  let n := nat_of_ascii c in
  ((9 <=? n) && (n <=? 13) || (28 <=? n) && (n <=? 32)
   || (n =? 133) || (n =? 160))%nat%bool.

Definition is_char (a : ascii) (c : ascii) : bool := Ascii.eqb a c.

(** [str.lower] on one code point: A to Z, and the upper-case letters of
    Latin-1 (192 to 222 without the multiplication sign 215). *)
Definition lower_char (c : ascii) : ascii :=
  let n := nat_of_ascii c in
  if ((65 <=? n) && (n <=? 90)
      || (192 <=? n) && (n <=? 222) && negb (n =? 215))%nat%bool
  then ascii_of_nat (n + 32) else c.

Fixpoint lower (s : string) : string :=
  match s with
  | EmptyString => EmptyString
  | String c s' => String (lower_char c) (lower s')
  end.

(** [s.startswith(p)] *)
Definition startswith (s p : string) : bool := String.prefix p s.

(** [sub in s] *)
Fixpoint str_in (sub s : string) : bool :=
  String.prefix sub s ||
  match s with
  | EmptyString => false
  | String _ s' => str_in sub s'
  end.

(** [any(keyword in text for keyword in keywords)] *)
Definition any_in (keywords : list string) (text : string) : bool :=
  existsb (fun keyword => str_in keyword text) keywords.

(** The first [n] characters of [s]. *)
Fixpoint take_str (n : nat) (s : string) : string :=
  match n, s with
  | S k, String c s' => String c (take_str k s')
  | _, _ => EmptyString
  end.

(** The text consumed between a position [s] and a later position [rest]
    of the same string. *)
Definition consumed (s rest : string) : string :=
  take_str (String.length s - String.length rest) s.

End Text.

(** ** Regular expressions

    The fragment of [re] the source uses: a character class, a sequence, a
    greedy optional part, a greedy repetition of a class, a counted
    repetition and a capturing group.  [run r s] lists the ways [r] matches
    at the start of [s], in the order a backtracking matcher tries them;
    each is the captured groups and the text left after the match. *)

Module Re.
Import Text.

Inductive regex : Type :=
| Cls (p : ascii -> bool)
| Cat (r1 r2 : regex)
| Opt (r : regex)
| Star (p : ascii -> bool)
| Rep (n : nat) (p : ascii -> bool)
| Group (r : regex).

(** [p+] *)
Definition Plus (p : ascii -> bool) : regex := Cat (Cls p) (Star p).

Definition alt := (list string * string)%type.

Fixpoint run_star (p : ascii -> bool) (s : string) : list alt :=
  match s with
  | String c s' => if p c then run_star p s' ++ [([], s)] else [([], s)]
  | EmptyString => [([], s)]
  end.

Fixpoint run_rep (n : nat) (p : ascii -> bool) (s : string) : list alt :=
  match n with
  | O => [([], s)]
  | S k =>
      match s with
      | String c s' => if p c then run_rep k p s' else []
      | EmptyString => []
      end
  end.

Fixpoint run (r : regex) (s : string) : list alt :=
  match r with
  | Cls p =>
      match s with
      | String c s' => if p c then [([], s')] else []
      | EmptyString => []
      end
  | Cat r1 r2 =>
      flat_map (fun a1 : alt =>
                  map (fun a2 : alt => (fst a1 ++ fst a2, snd a2))
                      (run r2 (snd a1)))
               (run r1 s)
  | Opt r1 => run r1 s ++ [([], s)]
  | Star p => run_star p s
  | Rep n p => run_rep n p s
  | Group r1 =>
      map (fun a : alt => (consumed s (snd a) :: fst a, snd a)) (run r1 s)
  end.

(** [pattern.match(s)]: the first alternative. *)
Definition match_at (r : regex) (s : string) : option alt :=
  hd_error (run r s).

(** [pattern.search(s)] as a truth value: a match at some position. *)
Fixpoint search (r : regex) (s : string) : bool :=
  match match_at r s with
  | Some _ => true
  | None =>
      match s with
      | String _ s' => search r s'
      | EmptyString => false
      end
  end.

(** What [findall] lists for one match: the group when the pattern has one
    group, the whole match when it has none. *)
Definition item (s : string) (a : alt) : string :=
  match fst a with
  | [] => consumed s (snd a)
  | g :: _ => g
  end.

(** [re.findall(pattern, s)].  The scan moves left to right; [skip] counts
    the characters of the last match that are still to be passed over. *)
Fixpoint findall_from (r : regex) (skip : nat) (s : string) : list string :=
  match skip with
  | S k =>
      match s with
      | String _ s' => findall_from r k s'
      | EmptyString => []
      end
  | O =>
      match match_at r s with
      | Some a =>
          item s a ::
          match s with
          | String _ s' =>
              findall_from r (String.length s - String.length (snd a) - 1) s'
          | EmptyString => []
          end
      | None =>
          match s with
          | String _ s' => findall_from r 0 s'
          | EmptyString => []
          end
      end
  end.

Definition findall (r : regex) (s : string) : list string :=
  findall_from r 0 s.

(** [\d+(?:\.\d+)?] *)
Definition number_body : regex :=
  Cat (Plus is_digit) (Opt (Cat (Cls (is_char ".")) (Plus is_digit))).

(** [price_pattern = \$?\d+(?:\.\d+)?] *)
Definition price_pattern : regex :=
  Cat (Opt (Cls (is_char "$"))) number_body.

(** [percentage_pattern = \d+(?:\.\d+)?\s*\%] *)
Definition percentage_pattern : regex :=
  Cat number_body (Cat (Star is_space) (Cls (is_char "%"))).

(** [date_pattern = \d{4}-\d{2}-\d{2}] *)
Definition date_pattern : regex :=
  Cat (Rep 4 is_digit)
      (Cat (Cls (is_char "-"))
           (Cat (Rep 2 is_digit)
                (Cat (Cls (is_char "-")) (Rep 2 is_digit)))).

(** [\$?(\d+(?:\.\d+)?)] *)
Definition numbers_regex : regex :=
  Cat (Opt (Cls (is_char "$"))) (Group number_body).

(** [(\d+(?:\.\d+)?)\s*\%] *)
Definition percentages_regex : regex :=
  Cat (Group number_body) (Cat (Star is_space) (Cls (is_char "%"))).

End Re.

Import Text Re.

(** ** Numbers *)

Module Num.

(** A binary64 value. *)
Abbreviation binary64 := PrimFloat.float.

(** An integer as an unrounded floating-point number. *)
Definition integer (z : Z) : spec_float :=
  match z with
  | Z0 => S754_zero false
  | Zpos p => S754_finite false p 0
  | Zneg p => S754_finite true p 0
  end.

(** The binary64 value nearest to the fraction [n/d], ties to even, and an
    infinity beyond the largest finite value: the quotient is rounded
    once. *)
Definition nearest (n : Z) (d : positive) : binary64 :=
  SF2Prim (SFdiv prec emax (integer n) (integer (Zpos d))).

(** An unrounded floating-point number has the sign [s]: it is finite
    and not zero, or infinite, with that sign. *)
Definition signed (s : bool) (r : spec_float) : Prop :=
  match r with
  | S754_finite s' _ _ | S754_infinity s' => s' = s
  | _ => False
  end.

(** A Python int converted to a float, as [/] does with its divisor. *)
Definition of_nat (n : nat) : binary64 := nearest (Z.of_nat n) 1.

(** [pd.isna] on a number. *)
Definition isna (a : binary64) : bool := PrimFloat.is_nan a.

(** [Series.min()]: the least value that is not NaN; NaN when there is
    none.  Of values that compare equal (zeros of both signs) the first is
    kept; the comparisons of the rules do not tell them apart. *)
Fixpoint series_min (l : list binary64) : binary64 :=
  match l with
  | [] => PrimFloat.nan
  | x :: l' =>
      let m := series_min l' in
      if isna x then m else if isna m then x
      else if (x <=? m)%float then x else m
  end.

(** [Series.max()] *)
Fixpoint series_max (l : list binary64) : binary64 :=
  match l with
  | [] => PrimFloat.nan
  | x :: l' =>
      let m := series_max l' in
      if isna x then m else if isna m then x
      else if (m <=? x)%float then x else m
  end.

(** [Series.mean()] is kept as the column it is the mean of: pandas adds
    the values in an order of its own, and no rule reads the result. *)
Inductive mean_value : Type :=
| MeanOf (column : list binary64).

Definition series_mean (l : list binary64) : mean_value := MeanOf l.

End Num.

Import Num.

(** ** Exceptions, parsing and dates *)

Module Py.

(** The exceptions the modelled code can meet. *)
Inductive exn : Type :=
| KeyError (key : string)      (* a column that the frame does not have *)
| IndexError                   (* [iloc] on an empty column *)
| ValueError                   (* [float] of a bad numeral, [strftime] of NaT *)
| LookupError (resource : string)  (* a resource NLTK does not find *)
| TokenizerError               (* raised by the sentence tokenizer *)
| Exception (cause : exn).     (* [raise Exception(...)] with [str(cause)] *)

Abbreviation result := (sum exn).

#[global] Instance result_ret : MRet result := λ A x, inr x.
#[global] Instance result_bind : MBind result :=
  λ A B f m, match m with inl e => inl e | inr x => f x end.

Definition raise {A : Type} (e : exn) : result A := inl e.

(** The value of a run of decimal digits, [None] if another character
    occurs. *)
Fixpoint digits_value (s : string) (acc : N) : option N :=
  match s with
  | EmptyString => Some acc
  | String c s' =>
      if is_digit c
      then digits_value s' (acc * 10 + (N_of_ascii c - 48))%N
      else None
  end.

(** The text before the first point, and the text after it if there is
    one. *)
Fixpoint split_point (s : string) : string * option string :=
  match s with
  | EmptyString => (EmptyString, None)
  | String c s' =>
      if Ascii.eqb c "."
      then (EmptyString, Some s')
      else let p := split_point s' in (String c (fst p), snd p)
  end.

Fixpoint pow10 (k : nat) : positive :=
  match k with
  | O => 1%positive
  | S k' => (10 * pow10 k')%positive
  end.

(** [float(text)] on a plain decimal numeral: digits with at most one
    point and at least one digit.  The result is the binary64 value
    nearest to the number written, an infinity when it is too large.  The
    other spellings Python accepts (sign, exponent, blanks, [inf], [nan])
    never come out of the patterns of this file; they are reported as
    [ValueError] here. *)
Definition float (text : string) : result binary64 :=
  let p := split_point text in
  let frac := match snd p with Some f => f | None => EmptyString end in
  if ((String.length (fst p) + String.length frac =? 0)%nat)
  then raise ValueError
  else
    match digits_value (fst p) 0, digits_value frac 0 with
    | Some i, Some f =>
        let d := pow10 (String.length frac) in
        mret (nearest (Z.of_N i * Zpos d + Z.of_N f) d)
    | _, _ => raise ValueError
    end.

(** A calendar day; the time of day of a timestamp plays no part in the
    code, which only formats it with [%Y-%m-%d]. *)
Record date : Type := mkdate { year : nat; month : nat; day : nat }.

Definition leap_year (y : nat) : bool :=
  ((y mod 4 =? 0) && negb (y mod 100 =? 0) || (y mod 400 =? 0))%nat.

Definition days_in_month (y m : nat) : nat :=
  match m with
  | 2 => if leap_year y then 29 else 28
  | 4 | 6 | 9 | 11 => 30
  | _ => 31
  end.

(** The days Python has a date for: years 1 to 9999. *)
Definition valid_date (d : date) : bool :=
  ((1 <=? year d) && (year d <? 10 * 1000) && (1 <=? month d)
   && (month d <=? 12)
   && (1 <=? day d) && (day d <=? days_in_month (year d) (month d)))%nat.

Definition date_leb (a b : date) : bool :=
  ((year a <? year b)
   || (year a =? year b) &&
      ((month a <? month b) || (month a =? month b) && (day a <=? day b)))%nat.

Definition date_eqb (a b : date) : bool :=
  ((year a =? year b) && (month a =? month b) && (day a =? day b))%nat.

(** [Series.min()] and [Series.max()] of a column of timestamps, where
    [None] is NaT: NaT entries are skipped, and the result is NaT when
    nothing is left. *)
Fixpoint dates_min (l : list (option date)) : option date :=
  match l with
  | [] => None
  | None :: l' => dates_min l'
  | Some d :: l' =>
      match dates_min l' with
      | None => Some d
      | Some m => Some (if date_leb d m then d else m)
      end
  end.

Fixpoint dates_max (l : list (option date)) : option date :=
  match l with
  | [] => None
  | None :: l' => dates_max l'
  | Some d :: l' =>
      match dates_max l' with
      | None => Some d
      | Some m => Some (if date_leb m d then d else m)
      end
  end.

Fixpoint zeros (n : nat) : string :=
  match n with
  | O => EmptyString
  | S k => String "0" (zeros k)
  end.

(** A natural number in decimal. *)
Definition decimal (n : nat) : string :=
  NilEmpty.string_of_uint (Nat.to_uint n).

(** A natural number in decimal, padded with zeros to [width] digits. *)
Definition padded (width n : nat) : string :=
  (zeros (width - String.length (decimal n)) ++ decimal n)%string.

(** [timestamp.strftime('%Y-%m-%d')]; NaT raises.  The month and the day
    have two digits.  The year is written by the C library, which on
    Linux does not pad it: a year below 1000 has fewer than four
    digits. *)
Definition strftime (t : option date) : result string :=
  match t with
  | None => raise ValueError
  | Some d =>
      mret (decimal (year d) ++ "-" ++ padded 2 (month d) ++ "-"
            ++ padded 2 (day d))%string
  end.

(** [series.iloc[0]] and [series.iloc[-1]] *)
Definition iloc_first {A : Type} (l : list A) : result A :=
  match l with
  | [] => raise IndexError
  | x :: _ => mret x
  end.

Definition iloc_last {A : Type} (l : list A) : result A :=
  match List.rev l with
  | [] => raise IndexError
  | x :: _ => mret x
  end.

End Py.

Import Py.

(** ** The data frame *)

Module Frame.

(** A pandas frame as the checker uses it: the number of rows, the [Date]
    column of timestamps ([None] is NaT) when the frame has one, and the
    numeric columns by name. *)
Record DataFrame : Type := mkframe {
  df_len : nat;
  df_Date : option (list (option date));
  df_columns : gmap string (list binary64)
}.

(** Every column has [df_len] entries, as in any pandas frame. *)
Definition well_formed (df : DataFrame) : bool :=
  match df_Date df with
  | Some dates => (length dates =? df_len df)%nat
  | None => true
  end &&
  forallb (fun kv : string * list binary64 =>
             (length (snd kv) =? df_len df)%nat)
          (map_to_list (df_columns df)).

(** Every timestamp of the frame is a day of the calendar. *)
Definition valid_dates (df : DataFrame) : bool :=
  match df_Date df with
  | Some dates =>
      forallb (fun t => match t with Some d => valid_date d | None => true end)
              dates
  | None => true
  end.

(** [financial_data['Date']] *)
Definition getitem_Date (df : DataFrame) : result (list (option date)) :=
  match df_Date df with
  | Some dates => mret dates
  | None => raise (KeyError "Date")
  end.

(** [financial_data[name]] for a numeric column *)
Definition getitem (df : DataFrame) (name : string)
  : result (list binary64) :=
  match df_columns df !! name with
  | Some column => mret column
  | None => raise (KeyError name)
  end.

(** [name in financial_data.columns] for a numeric column *)
Definition has_column (df : DataFrame) (name : string) : bool :=
  match df_columns df !! name with
  | Some _ => true
  | None => false
  end.

(** [column[mask]]: the entries of the rows the mask keeps. *)
Fixpoint select {A : Type} (mask : list bool) (column : list A) : list A :=
  match mask, column with
  | b :: mask', x :: column' =>
      if b then x :: select mask' column' else select mask' column'
  | _, _ => []
  end.

(** [financial_data['Date'] == latest_date]; NaT equals nothing. *)
Definition date_is (latest : option date) (d : option date) : bool :=
  match d, latest with
  | Some a, Some b => date_eqb a b
  | _, _ => false
  end.

(** The lines [create_financial_summary] joins, with the values each one
    prints. *)
Inductive SummaryLine : Type :=
| DateRangeLine (start_date end_date : string)
| PriceRangeLine (low high : binary64)
| LatestCloseLine (latest_date : string) (close : binary64)
| PriceChangeLine (absolute_change percent_change : binary64)
| AverageVolumeLine (avg_volume : mean_value)
| MaximumVolumeLine (max_volume : binary64)
| MA20Line (last_ma20 : binary64)
| MA50Line (last_ma50 : binary64)
| VolatilityLine (percent : binary64).

Definition create_financial_summary (financial_data : DataFrame)
  : result (list SummaryLine) :=
  (* Date range *)
  dates ← getitem_Date financial_data;
  start_date ← strftime (dates_min dates);
  dates ← getitem_Date financial_data;
  end_date ← strftime (dates_max dates);
  let summary := [DateRangeLine start_date end_date] in
  (* Price range *)
  low ← getitem financial_data "Low";
  high ← getitem financial_data "High";
  let summary :=
    summary ++ [PriceRangeLine (series_min low) (series_max high)] in
  (* Latest prices *)
  dates ← getitem_Date financial_data;
  let latest_date := dates_max dates in
  dates ← getitem_Date financial_data;
  let mask := map (date_is latest_date) dates in
  latest ← strftime latest_date;
  close ← getitem financial_data "Close";
  latest_close ← iloc_first (select mask close);
  let summary := summary ++ [LatestCloseLine latest latest_close] in
  (* Price changes *)
  summary ←
    (if (1 <? df_len financial_data)%nat then
       close ← getitem financial_data "Close";
       first_close ← iloc_first close;
       close ← getitem financial_data "Close";
       last_close ← iloc_last close;
       let absolute_change := (last_close - first_close)%float in
       let percent_change := (absolute_change / first_close * 100)%float in
       mret (summary ++ [PriceChangeLine absolute_change percent_change])
     else mret summary);
  (* Volume *)
  volume ← getitem financial_data "Volume";
  let avg_volume := series_mean volume in
  volume ← getitem financial_data "Volume";
  let max_volume := series_max volume in
  let summary :=
    summary ++ [AverageVolumeLine avg_volume; MaximumVolumeLine max_volume] in
  (* Moving averages *)
  summary ←
    (if has_column financial_data "MA_20" && has_column financial_data "MA_50"
     then
       ma20 ← getitem financial_data "MA_20";
       last_ma20 ← iloc_last ma20;
       ma50 ← getitem financial_data "MA_50";
       last_ma50 ← iloc_last ma50;
       if negb (isna last_ma20) && negb (isna last_ma50)
       then mret (summary ++ [MA20Line last_ma20; MA50Line last_ma50])
       else mret summary
     else mret summary);
  (* Volatility *)
  summary ←
    (if has_column financial_data "Volatility_20d" then
       vol ← getitem financial_data "Volatility_20d";
       last_volatility ← iloc_last vol;
       if negb (isna last_volatility)
       then mret (summary ++ [VolatilityLine (last_volatility * 100)%float])
       else mret summary
     else mret summary);
  mret summary.

(** The metrics [verify_claim_against_data] extracts from the frame
    (its lines 171 to 198). *)
Record Metrics : Type := mkmetrics {
  start_date : string;
  end_date : string;
  first_close : binary64;
  last_close : binary64;
  price_change : binary64;
  price_change_pct : binary64;
  price_min : binary64;
  price_max : binary64;
  avg_volume : mean_value;
  max_volume : binary64;
  ma_20 : option binary64;
  ma_50 : option binary64;
  volatility : option binary64
}.

(** [column.iloc[-1] if not pd.isna(column.iloc[-1]) else None], with the
    value scaled by [scale]. *)
Definition last_unless_na (scale : binary64 -> binary64)
    (column : list binary64) : result (option binary64) :=
  last ← iloc_last column;
  if negb (isna last)
  then (last ← iloc_last column; mret (Some (scale last)))
  else mret None.

Definition key_metrics (financial_data : DataFrame) : result Metrics :=
  (* Date range *)
  dates ← getitem_Date financial_data;
  start_date ← strftime (dates_min dates);
  dates ← getitem_Date financial_data;
  end_date ← strftime (dates_max dates);
  (* Price data *)
  close ← getitem financial_data "Close";
  first_close ← iloc_first close;
  close ← getitem financial_data "Close";
  last_close ← iloc_last close;
  let price_change := (last_close - first_close)%float in
  let price_change_pct := (price_change / first_close * 100)%float in
  low ← getitem financial_data "Low";
  let price_min := series_min low in
  high ← getitem financial_data "High";
  let price_max := series_max high in
  (* Volume data *)
  volume ← getitem financial_data "Volume";
  let avg_volume := series_mean volume in
  volume ← getitem financial_data "Volume";
  let max_volume := series_max volume in
  (* Moving averages if available *)
  mas ←
    (if has_column financial_data "MA_20" && has_column financial_data "MA_50"
     then
       ma20 ← getitem financial_data "MA_20";
       ma_20 ← last_unless_na (fun x => x) ma20;
       ma50 ← getitem financial_data "MA_50";
       ma_50 ← last_unless_na (fun x => x) ma50;
       mret (ma_20, ma_50)
     else mret (None, None));
  (* Volatility if available *)
  volatility ←
    (if has_column financial_data "Volatility_20d" then
       vol ← getitem financial_data "Volatility_20d";
       last_unless_na (fun x => (x * 100)%float) vol
     else mret None);
  mret (mkmetrics start_date end_date first_close last_close price_change
          price_change_pct price_min price_max avg_volume max_volume
          (fst mas) (snd mas) volatility).

End Frame.

Import Frame.

(** ** Claims, verification results and reports *)

Module Checker.

Record Claim : Type := mkclaim {
  claim_text : string;
  claim_type : string
}.

(** The explanation of a verification result: which sentence of the
    source it is, with the values the sentence embeds. *)
Inductive Explanation : Type :=
| NoDataPoints
| PriceWithin (num_value price_min price_max : binary64)
| PriceClose (num_value price_min price_max : binary64)
| PriceOutside (num_value price_min price_max : binary64)
| PercentageMatches (pct_value observed : binary64)
| PercentageClose (pct_value observed : binary64)
| PercentageDifferent (pct_value observed : binary64)
| DateWithin (date start_date end_date : string)
| DateOutside (date start_date end_date : string)
| TrendMatches (price_change_pct : binary64)
| TrendContradicts (price_change_pct : binary64)
| VolatilityConsistent (volatility : binary64)
| VolatilityContradicts (volatility : binary64)
| SentimentMatches
| SentimentContradicts
| ErrorDuringVerification (e : exn).

Record VerificationResult : Type := mkresult {
  checked_text : string;          (* key "claim_text" *)
  checked_type : string;          (* key "claim_type" *)
  consistency_score : binary64;
  verification_result : string;
  explanation : Explanation
}.

(** The three variables a rule assigns. *)
Definition finding := (binary64 * string * Explanation)%type.

(** The values of a report. *)
Inductive value : Type :=
| Float (x : binary64)
| Int (n : Z)
| Checks (l : list VerificationResult).

(** A line printed on the standard output. *)
Inductive printed : Type :=
| ErrorExtracting (e : exn)
| ErrorVerifying (e : exn).

Definition stdout := list printed.

(** The analyzer [SentimentIntensityAnalyzer()] gives, as the function
    [text -> polarity_scores(text)['compound']]. *)
Definition analyzer : Type := string -> binary64.

(** The claim types of the source, in the order of its tests. *)
Definition claim_types : list string :=
  ["price_claim"; "price_trend_claim"; "percentage_claim";
   "percentage_trend_claim"; "date_specific_claim"; "trend_claim";
   "volatility_claim"; "comparison_claim"].

Definition trend_keywords : list string :=
  ["increased"; "decreased"; "risen"; "fell"; "grew"; "declined"; "improved";
   "deteriorated"; "higher"; "lower"; "upward"; "downward"; "bullish";
   "bearish"; "outperformed"; "underperformed"].

Definition volatility_keywords : list string :=
  ["volatile"; "stability"; "fluctuation"; "variability"; "deviation"].

Definition comparison_keywords : list string :=
  ["compared to"; "relative to"; "versus"; "against"; "outperformed";
   "underperformed"; "better than"; "worse than"; "higher than";
   "lower than"].

Definition uptrend_words : list string :=
  ["increase"; "increased"; "rise"; "risen"; "grew"; "growth"; "upward";
   "higher"; "up"; "bullish"].

Definition downtrend_words : list string :=
  ["decrease"; "decreased"; "fall"; "fell"; "decline"; "declined";
   "downward"; "lower"; "down"; "bearish"].

Definition high_volatility_words : list string :=
  ["high"; "significant"; "increased"; "substantial"].

Definition low_volatility_words : list string :=
  ["low"; "decreased"; "minimal"; "limited"; "reduced"].

(** *** Extraction *)

(** The body of the loop over the sentences: the claim a sentence gives,
    if it gives one. *)
Definition claim_of_sentence (sentence : string) : option Claim :=
  (* Skip sentences in headers *)
  if startswith sentence "#" || startswith sentence "##"
     || startswith sentence "###" then None
  (* Skip disclaimer or notes *)
  else if str_in "disclaimer" (lower sentence)
          || str_in "note:" (lower sentence) then None
  (* Check for price mentions *)
  else if search price_pattern sentence then
    Some (mkclaim sentence
            (if any_in trend_keywords (lower sentence)
             then "price_trend_claim" else "price_claim"))
  (* Check for percentage mentions *)
  else if search percentage_pattern sentence then
    Some (mkclaim sentence
            (if any_in trend_keywords (lower sentence)
             then "percentage_trend_claim" else "percentage_claim"))
  (* Check for date-specific claims *)
  else if search date_pattern sentence then
    Some (mkclaim sentence "date_specific_claim")
  (* Check for trend statements *)
  else if any_in trend_keywords (lower sentence) then
    Some (mkclaim sentence "trend_claim")
  (* Check for volatility statements *)
  else if any_in volatility_keywords (lower sentence) then
    Some (mkclaim sentence "volatility_claim")
  (* Check for comparative statements *)
  else if any_in comparison_keywords (lower sentence) then
    Some (mkclaim sentence "comparison_claim")
  else None.

(** [for sentence in sentences: ... claims.append(...)] *)
Fixpoint collect_claims (sentences : list string) (claims : list Claim)
  : list Claim :=
  match sentences with
  | [] => claims
  | sentence :: rest =>
      match claim_of_sentence sentence with
      | Some claim => collect_claims rest (claims ++ [claim])
      | None => collect_claims rest claims
      end
  end.

(** *** Verification rules *)

Definition default_finding : finding :=
  (0.5%float, "unverified", NoDataPoints).

(** [for number in extracted_numbers: ...] of the price rule; the two
    accepting cases leave the loop. *)
Fixpoint price_loop (price_min price_max : binary64) (numbers : list string)
    (current : finding) : result finding :=
  match numbers with
  | [] => mret current
  | number :: rest =>
      num_value ← float number;
      if (price_min * 0.9 <=? num_value)%float
         && (num_value <=? price_max * 1.1)%float
      then mret (0.9%float, "verified",
                 PriceWithin num_value price_min price_max)
      else if (price_min * 0.7 <=? num_value)%float
              && (num_value <=? price_max * 1.3)%float
      then mret (0.7%float, "partially verified",
                 PriceClose num_value price_min price_max)
      else price_loop price_min price_max rest
             (0.2%float, "contradicted",
              PriceOutside num_value price_min price_max)
  end.

(** [for percentage in extracted_percentages: ...] *)
Fixpoint percentage_loop (price_change_pct : binary64)
    (percentages : list string) (current : finding) : result finding :=
  match percentages with
  | [] => mret current
  | percentage :: rest =>
      pct_value ← float percentage;
      if (abs (pct_value - abs price_change_pct) <=? 2)%float
      then mret (0.95%float, "verified",
                 PercentageMatches pct_value (abs price_change_pct))
      else if (abs (pct_value - abs price_change_pct) <=? 5)%float
      then mret (0.7%float, "partially verified",
                 PercentageClose pct_value (abs price_change_pct))
      else percentage_loop price_change_pct rest
             (0.3%float, "contradicted",
              PercentageDifferent pct_value (abs price_change_pct))
  end.

(** [for date in dates_in_claim: ...]; [>=] and [<=] compare strings. *)
Fixpoint date_loop (start_date end_date : string) (dates : list string)
    (current : finding) : finding :=
  match dates with
  | [] => current
  | date :: rest =>
      if String.leb start_date date && String.leb date end_date
      then (0.9%float, "verified", DateWithin date start_date end_date)
      else date_loop start_date end_date rest
             (0.1%float, "contradicted",
              DateOutside date start_date end_date)
  end.

Definition trend_rule (claim_text : string) (m : Metrics) : finding :=
  let is_uptrend_claim := any_in uptrend_words (lower claim_text) in
  let is_downtrend_claim := any_in downtrend_words (lower claim_text) in
  let actual_uptrend := (0 <? price_change m)%float in
  if is_uptrend_claim && actual_uptrend
     || is_downtrend_claim && negb actual_uptrend
  then (0.9%float, "verified", TrendMatches (price_change_pct m))
  else (0.1%float, "contradicted", TrendContradicts (price_change_pct m)).

Definition volatility_rule (claim_text : string) (m : Metrics) : finding :=
  let is_high_volatility_claim :=
    any_in high_volatility_words (lower claim_text) in
  let is_low_volatility_claim :=
    any_in low_volatility_words (lower claim_text) in
  match volatility m with
  | Some volatility =>
      let high_volatility_threshold := 2%float in
      if is_high_volatility_claim
         && (high_volatility_threshold <? volatility)%float
         || is_low_volatility_claim
            && (volatility <=? high_volatility_threshold)%float
      then (0.9%float, "verified", VolatilityConsistent volatility)
      else (0.2%float, "contradicted", VolatilityContradicts volatility)
  | None => default_finding
  end.

Definition comparison_rule (compound : binary64) (m : Metrics) : finding :=
  let is_positive_claim := (0.1 <? compound)%float in
  let is_negative_claim := (compound <? - 0.1)%float in
  let is_positive_actual := (0 <? price_change_pct m)%float in
  if is_positive_claim && is_positive_actual
     || is_negative_claim && negb is_positive_actual
  then (0.7%float, "partially verified", SentimentMatches)
  else (0.3%float, "partially contradicted", SentimentContradicts).


(** [sum(check['consistency_score'] for check in consistency_checks)]:
    the scores are added one by one from the left, each addition rounded
    (the [sum] of CPython up to version 3.11; later versions compensate
    the rounding errors). *)
Definition sum_scores (consistency_checks : list VerificationResult)
  : binary64 :=
  fold_left PrimFloat.add (map consistency_score consistency_checks) 0%float.

Section WithNLTK.

(** [nltk.tokenize.sent_tokenize], which may raise. *)
Variable sent_tokenize : string -> result (list string).

(** [SentimentIntensityAnalyzer()], which raises [LookupError] when the
    lexicon is not installed. *)
Variable SentimentIntensityAnalyzer : result analyzer.

(** The [try] block of [extract_factual_claims]. *)
Definition extract_body (narrative : string) : result (list Claim) :=
  sentences ← sent_tokenize narrative;
  let claims := collect_claims sentences [] in
  mret (firstn 15 claims).

Definition extract_factual_claims (narrative : string) (out : stdout)
  : list Claim * stdout :=
  match extract_body narrative with
  | inr claims => (claims, out)
  | inl e => ([], out ++ [ErrorExtracting e])
  end.

(** The rules of [verify_claim_against_data] (its lines 200 to 322). *)
Definition apply_rules (sia : analyzer) (claim_text claim_type : string)
    (m : Metrics) : result finding :=
  let extracted_numbers := findall numbers_regex claim_text in
  let extracted_percentages := findall percentages_regex claim_text in
  if (claim_type =? "price_claim") || (claim_type =? "price_trend_claim")
  then price_loop (price_min m) (price_max m) extracted_numbers
         default_finding
  else if (claim_type =? "percentage_claim")
          || (claim_type =? "percentage_trend_claim")
  then percentage_loop (price_change_pct m) extracted_percentages
         default_finding
  else if claim_type =? "date_specific_claim"
  then
    let dates_in_claim := findall date_pattern claim_text in
    mret (date_loop (start_date m) (end_date m) dates_in_claim
            default_finding)
  else if claim_type =? "trend_claim"
  then mret (trend_rule claim_text m)
  else if claim_type =? "volatility_claim"
  then mret (volatility_rule claim_text m)
  else if claim_type =? "comparison_claim"
  then mret (comparison_rule (sia claim_text) m)
  else mret default_finding.

(** The [try] block of [verify_claim_against_data]. *)
Definition verify_body (claim : Claim) (financial_data : DataFrame)
  : result VerificationResult :=
  let claim_text := claim_text claim in
  let claim_type := claim_type claim in
  (* Initialize sentiment analyzer for detecting sentiment *)
  sia ← SentimentIntensityAnalyzer;
  (* Create financial summary for comparison *)
  financial_summary ← create_financial_summary financial_data;
  (* Extract key financial data metrics *)
  m ← key_metrics financial_data;
  f ← apply_rules sia claim_text claim_type m;
  mret (mkresult claim_text claim_type (fst (fst f)) (snd (fst f)) (snd f)).

Definition verify_claim_against_data (claim : Claim)
    (financial_data : DataFrame) (out : stdout)
  : VerificationResult * stdout :=
  match verify_body claim financial_data with
  | inr verification => (verification, out)
  | inl e =>
      (mkresult (claim_text claim) (claim_type claim) 0%float "error"
         (ErrorDuringVerification e),
       out ++ [ErrorVerifying e])
  end.

(** [for claim in factual_claims: consistency_checks.append(...)] *)
Fixpoint verify_claims (factual_claims : list Claim)
    (financial_data : DataFrame)
    (consistency_checks : list VerificationResult) (out : stdout)
  : list VerificationResult * stdout :=
  match factual_claims with
  | [] => (consistency_checks, out)
  | claim :: rest =>
      let v := verify_claim_against_data claim financial_data out in
      verify_claims rest financial_data (consistency_checks ++ [fst v])
        (snd v)
  end.

(** [try: ... except Exception as e: raise Exception(...)] *)
Definition reraise {A : Type} (body : result A) : result A :=
  match body with
  | inr x => inr x
  | inl e => inl (Exception e)
  end.

Definition check_narrative_consistency (narrative : string)
    (financial_data : DataFrame) (out : stdout)
  : result (gmap string value * binary64) * stdout :=
  let extracted := extract_factual_claims narrative out in
  let factual_claims := fst extracted in
  let verified :=
    verify_claims factual_claims financial_data [] (snd extracted) in
  let consistency_checks := fst verified in
  let consistency_score :=
    match consistency_checks with
    | [] => 0%float
    | _ => (sum_scores consistency_checks
            / of_nat (length consistency_checks))%float
    end in
  let consistency_report : gmap string value :=
    <["overall_score" := Float consistency_score]>
      (<["checked_claims" := Int (Z.of_nat (length consistency_checks))]>
         (<["claim_checks" := Checks consistency_checks]> ∅)) in
  (reraise (mret (consistency_report, consistency_score)), snd verified).

End WithNLTK.

End Checker.

Import Checker.

(** ** The language of a pattern *)

Module Lang.

Fixpoint all_chars (p : ascii -> bool) (w : string) : bool :=
  match w with
  | EmptyString => true
  | String c w' => p c && all_chars p w'
  end.

(** [lang r w]: the whole of [w] is a match of [r]. *)
Fixpoint lang (r : regex) (w : string) : Prop :=
  match r with
  | Cls p => exists c, w = String c EmptyString /\ p c = true
  | Cat r1 r2 =>
      exists u v, w = (u ++ v)%string /\ lang r1 u /\ lang r2 v
  | Opt r1 => w = EmptyString \/ lang r1 w
  | Star p => all_chars p w = true
  | Rep n p => String.length w = n /\ all_chars p w = true
  | Group r1 => lang r1 w
  end.

(** A pattern without a capturing group. *)
Fixpoint groupless (r : regex) : bool :=
  match r with
  | Cls _ | Star _ | Rep _ _ => true
  | Cat r1 r2 => groupless r1 && groupless r2
  | Opt r1 => groupless r1
  | Group _ => false
  end.

End Lang.

Import Lang.

(** ** What the rules compute, stated on their own

    The outcome of each rule as a function of the values found in the
    claim, written without the loops of the source; the theorems below
    compare the source with them. *)

Module Expected.

(** The score and the verdict of a verification result. *)
Definition outcome (r : VerificationResult) : binary64 * string :=
  (consistency_score r, verification_result r).

(** The result of the [except] branch of [verify_claim_against_data]. *)
Definition error_result (claim : Claim) (e : exn) : VerificationResult :=
  mkresult (claim_text claim) (claim_type claim) 0%float "error"
    (ErrorDuringVerification e).

(** What the [try] block of [verify_claim_against_data] evaluates before
    it reads the metrics and applies its rules: the analyzer, then the
    summary. *)
Definition preamble (SentimentIntensityAnalyzer : result analyzer)
    (df : DataFrame) : result (analyzer * list SummaryLine) :=
  sia ← SentimentIntensityAnalyzer;
  summary ← create_financial_summary df;
  mret (sia, summary).


(** [price_min * 0.9 <= v <= price_max * 1.1], the products rounded. *)
Definition narrow_band (price_min price_max v : binary64) : bool :=
  (price_min * 0.9 <=? v)%float && (v <=? price_max * 1.1)%float.

(** [price_min * 0.7 <= v <= price_max * 1.3], the products rounded. *)
Definition wide_band (price_min price_max v : binary64) : bool :=
  (price_min * 0.7 <=? v)%float && (v <=? price_max * 1.3)%float.

(** The price rule: the first value inside one of the bands decides;
    without one, the claim is contradicted if it has a value at all. *)
Definition price_verdict (price_min price_max : binary64)
    (values : list binary64) : binary64 * string :=
  match List.find (fun v => narrow_band price_min price_max v
                            || wide_band price_min price_max v) values with
  | Some v =>
      if narrow_band price_min price_max v then (0.9%float, "verified")
      else (0.7%float, "partially verified")
  | None =>
      match values with
      | [] => (0.5%float, "unverified")
      | _ => (0.2%float, "contradicted")
      end
  end.

(** [abs(v - abs(price_change_pct))], the difference rounded. *)
Definition pct_gap (price_change_pct v : binary64) : binary64 :=
  abs (v - abs price_change_pct)%float.

(** The percentage rule: the first value within 5 points decides. *)
Definition percentage_verdict (price_change_pct : binary64)
    (values : list binary64) : binary64 * string :=
  match List.find (fun v => (pct_gap price_change_pct v <=? 5)%float)
                  values with
  | Some v =>
      if (pct_gap price_change_pct v <=? 2)%float
      then (0.95%float, "verified")
      else (0.7%float, "partially verified")
  | None =>
      match values with
      | [] => (0.5%float, "unverified")
      | _ => (0.3%float, "contradicted")
      end
  end.

(** [start_date <= date <= end_date] on strings. *)
Definition in_period (start_date end_date date : string) : bool :=
  String.leb start_date date && String.leb date end_date.

(** The date rule: verified as soon as one date is in the period. *)
Definition date_verdict (start_date end_date : string) (dates : list string)
  : binary64 * string :=
  if existsb (in_period start_date end_date) dates
  then (0.9%float, "verified")
  else match dates with
       | [] => (0.5%float, "unverified")
       | _ => (0.1%float, "contradicted")
       end.

(** The trend rule on the first and the last close: a claimed rise with
    [last_close > first_close], or a claimed fall without it. *)
Definition trend_verdict (claim_text : string)
    (first_close last_close : binary64) : binary64 * string :=
  let claimed_up := any_in uptrend_words (lower claim_text) in
  let claimed_down := any_in downtrend_words (lower claim_text) in
  if claimed_up && (first_close <? last_close)%float
     || claimed_down && negb (first_close <? last_close)%float
  then (0.9%float, "verified") else (0.1%float, "contradicted").

(** A sentence the extractor must leave out. *)
Definition excluded (sentence : string) : bool :=
  startswith sentence "#"
  || str_in "disclaimer" (lower sentence)
  || str_in "note:" (lower sentence).

End Expected.

Import Expected.

(** ** Concrete inputs *)

Module Examples.

(** The tokenizer on a narrative that is a single sentence. *)
Definition one_sentence (narrative : string) : result (list string) :=
  inr [narrative].



(** An analyzer that finds every text neutral. *)
Definition neutral : analyzer := fun text => 0%float.

(** The analyzer is built: the lexicon is installed. *)
Definition lexicon_installed : result analyzer := inr neutral.


Definition frame (dates : list (option date))
    (low high close volume : list binary64) : DataFrame :=
  mkframe (length dates) (Some dates)
    (<["Low" := low]> (<["High" := high]> (<["Close" := close]>
       (<["Volume" := volume]> ∅)))).

Definition year_2022 : list (option date) :=
  [Some (mkdate 2022 1 1); Some (mkdate 2022 12 31)].

Definition year_2023 : list (option date) :=
  [Some (mkdate 2023 1 1); Some (mkdate 2023 12 31)].

(** Prices between 140 and 160 over 2022. *)
Definition frame_2022 : DataFrame :=
  frame year_2022 [140; 145]%float [155; 160]%float [150; 152]%float
    [1000; 1200]%float.

(** The same prices over 2023. *)
Definition frame_2023 : DataFrame :=
  frame year_2023 [140; 145]%float [155; 160]%float [150; 152]%float
    [1000; 1200]%float.

(** A close that rises from 100 to 110.5: a change of 10.5 percent. *)
Definition frame_rise : DataFrame :=
  frame year_2022 [98; 108]%float [102; 112]%float [100; 110.5]%float
    [1000; 1200]%float.

(** A close that falls from 152 to 150. *)
Definition frame_fall : DataFrame :=
  frame year_2022 [140; 145]%float [155; 160]%float [152; 150]%float
    [1000; 1200]%float.

(** A close that ends where it started. *)
Definition frame_flat : DataFrame :=
  frame year_2022 [140; 145]%float [155; 160]%float [150; 150]%float
    [1000; 1200]%float.

(** The prices of [frame_2022] over the year 999. *)
Definition frame_999 : DataFrame :=
  frame [Some (mkdate 999 1 1); Some (mkdate 999 12 31)]
    [140; 145]%float [155; 160]%float [150; 152]%float [1000; 1200]%float.

(** Prices between 13 and 16. *)
Definition frame_low_13 : DataFrame :=
  frame year_2022 [13; 14]%float [15; 16]%float [14; 15]%float
    [1000; 1200]%float.

(** A close that rises from 100 to 107. *)
Definition frame_seven : DataFrame :=
  frame year_2022 [98; 105]%float [102; 109]%float [100; 107]%float
    [1000; 1200]%float.

(** [frame_2022] without its [Volume] column. *)
Definition frame_without_volume : DataFrame :=
  mkframe 2 (Some year_2022)
    (<["Low" := [140; 145]%float]> (<["High" := [155; 160]%float]>
       (<["Close" := [150; 152]%float]> ∅))).

Definition price_sentence : string := "The price of $150.00 was recorded.".
Definition two_prices_sentence : string :=
  "The price moved from $1000 to $150.".
Definition percentage_sentence : string := "The stock increased by 12%.".
Definition two_percentages_sentence : string :=
  "The stock gained 40% in spring and 12% over the year.".
Definition date_sentence : string := "On 2022-06-15, the stock surged.".
Definition two_dates_sentence : string :=
  "Between 2021-12-31 and 2022-06-15 the stock surged.".
Definition downward_sentence : string :=
  "The stock showed a significant downward trend.".

Definition early_date_sentence : string := "On 0999-06-15, the stock surged.".
Definition low_price_sentence : string := "The price touched 11.7 dollars.".
Definition five_percent_sentence : string := "The stock gained 5%.".


End Examples.

Import Examples.

(** ** The consumers of the report

    [create_consistency_gauge] of [src/visualization.py], and
    [highlight_inconsistencies] and [truncate_text] of [src/utils.py]. *)

Module Display.

(** The data of the gauge figure that depend on the arguments; the other
    settings of the figure are constants.  The bounds of the steps that
    the source writes as integers are written as the floats they
    equal. *)
Record Gauge : Type := mkgauge {
  gauge_value : binary64;               (* value *)
  delta_reference : binary64;           (* delta["reference"] *)
  bar_color : string;                   (* gauge["bar"]["color"] *)
  steps : list (binary64 * binary64 * string);
                                        (* gauge["steps"]: range, color *)
  threshold_value : binary64;           (* gauge["threshold"]["value"] *)
  annotation : string                   (* the text of the annotation *)
}.

(** The [threshold=0.85] of the signature. *)
Definition default_threshold : binary64 := 0.85%float.

(** The colour and the level [create_consistency_gauge] picks. *)
Definition gauge_level (consistency_score threshold : binary64)
  : string * string :=
  if (0.9 <=? consistency_score)%float then ("green", "Excellent")
  else if (0.75 <=? consistency_score)%float then ("lightgreen", "Good")
  else if (threshold <=? consistency_score)%float
  then ("yellow", "Acceptable")
  else if (0.5 <=? consistency_score)%float then ("orange", "Questionable")
  else ("red", "Poor").

Definition create_consistency_gauge (consistency_score threshold : binary64)
  : Gauge :=
  let color := fst (gauge_level consistency_score threshold) in
  let level := snd (gauge_level consistency_score threshold) in
  mkgauge (consistency_score * 100)%float (threshold * 100)%float color
    [(0%float, 50%float, "red");
     (50%float, (threshold * 100)%float, "orange");
     ((threshold * 100)%float, 90%float, "lightgreen");
     (90%float, 100%float, "green")]
    (threshold * 100)%float
    ("Level: " ++ level)%string.

(** [text[:k]], where a negative [k] counts from the end. *)
Definition slice_to (k : Z) (text : string) : string :=
  if (0 <=? k)%Z then take_str (Z.to_nat k) text
  else take_str (String.length text - Z.to_nat (- k)) text.

(** The [max_length=1000] of the signature. *)
Definition default_max_length : Z := 1000%Z.

Definition truncate_text (text : string) (max_length : Z) : string :=
  if (Z.of_nat (String.length text) <=? max_length)%Z then text
  else (slice_to max_length text ++ "...")%string.

(** [s.replace(old, new)] for a non-empty [old]: the occurrences are taken
    from the left and do not overlap; [skip] counts the characters of the
    last occurrence that are still to be passed over. *)
Fixpoint replace_from (old new : string) (skip : nat) (s : string) : string :=
  match skip with
  | S k =>
      match s with
      | String _ s' => replace_from old new k s'
      | EmptyString => EmptyString
      end
  | O =>
      match s with
      | EmptyString => EmptyString
      | String c s' =>
          if String.prefix old s
          then (new ++ replace_from old new (String.length old - 1) s')%string
          else String c (replace_from old new 0 s')
      end
  end.

(** [s.replace("", new)]: [new] before every character and at the end. *)
Fixpoint intersperse (new s : string) : string :=
  match s with
  | EmptyString => new
  | String c s' => (new ++ String c (intersperse new s'))%string
  end.

(** [s.replace(old, new)] *)
Definition replace (old new s : string) : string :=
  match old with
  | EmptyString => intersperse new s
  | _ => replace_from old new 0 s
  end.

(** The double quote, as a string. *)
Definition dq : string := String "034"%char EmptyString.

(** [get_highlight_color], the inner function of
    [highlight_inconsistencies]. *)
Definition get_highlight_color (score : binary64) : string :=
  if (score <? 0.5)%float then "#FFCCCC"
  else if (score <? 0.75)%float then "#FFFFCC"
  else "#CCFFCC".

(** [sorted(checks, key=score)] for scores without NaN: the sort is
    stable and compares the keys with [<], so the result is the one of
    insertion from the right, each element going before the first one
    whose score is not smaller.  With a NaN among the keys the order
    Python returns depends on how its sort merges, and is not the one
    given here. *)
Fixpoint insert_by_score (r : VerificationResult)
    (l : list VerificationResult) : list VerificationResult :=
  match l with
  | [] => [r]
  | x :: l' =>
      if (consistency_score x <? consistency_score r)%float
      then x :: insert_by_score r l'
      else r :: x :: l'
  end.

Fixpoint sorted_by_score (l : list VerificationResult)
  : list VerificationResult :=
  match l with
  | [] => []
  | r :: l' => insert_by_score r (sorted_by_score l')
  end.

(** What [sorted] raises on a value that is not a list. *)
Inductive type_error : Type := NotIterable.

Section Rendering.

(** [f"{score:.2f}"] *)
Variable format_2f : binary64 -> string.

(** The text of an explanation. *)
Variable explanation_text : Explanation -> string.

(** The body of the loop of [highlight_inconsistencies].  The entries of
    [claim_checks] are the records the checker builds, so the defaults of
    [claim.get] play no part; [re.escape] is called and its result is not
    used. *)
Definition highlight_claim (highlighted_narrative : string)
    (claim : VerificationResult) : string :=
  let claim_text := checked_text claim in
  let score := consistency_score claim in
  let verification := verification_result claim in
  let explanation := explanation_text (explanation claim) in
  if negb (claim_text =? "") && (score <? 0.9)%float then
    let highlight_color := get_highlight_color score in
    let tooltip :=
      ("Score: " ++ format_2f score ++ ", Result: " ++ verification
       ++ ", Explanation: " ++ explanation)%string in
    let highlighted_claim :=
      ("<span title=" ++ dq ++ tooltip ++ dq ++ " style=" ++ dq
       ++ "background-color: " ++ highlight_color ++ ";" ++ dq ++ ">"
       ++ claim_text ++ "</span>")%string in
    replace claim_text highlighted_claim highlighted_narrative
  else highlighted_narrative.

Definition highlight_inconsistencies (narrative : string)
    (consistency_report : option (gmap string value))
  : type_error + string :=
  match consistency_report with
  | None => inr narrative
  | Some report =>
      if bool_decide (report = ∅) then inr narrative
      else
        match report !! "claim_checks" with
        | None => inr narrative
        | Some (Checks claim_checks) =>
            let sorted_claims := sorted_by_score claim_checks in
            let highlighted_narrative :=
              fold_left highlight_claim sorted_claims narrative in
            inr ("<p>" ++ highlighted_narrative ++ "</p>")%string
        | Some _ => inl NotIterable
        end
  end.

End Rendering.

End Display.

Import Display.

(** ** Further notions and inputs *)

Module Cases.

(** The outcomes the rules of [verify_claim_against_data] can give. *)
Definition rule_outcomes : list (binary64 * string) :=
  [(0.5%float, "unverified"); (0.9%float, "verified");
   (0.7%float, "partially verified"); (0.2%float, "contradicted");
   (0.95%float, "verified"); (0.3%float, "contradicted");
   (0.1%float, "contradicted"); (0.3%float, "partially contradicted")].

(** The outcomes [verify_claim_against_data] can give. *)
Definition all_outcomes : list (binary64 * string) :=
  rule_outcomes ++ [(0%float, "error")].

(** The outcomes of the price rule once a numeric token is present. *)
Definition price_outcomes : list (binary64 * string) :=
  [(0.9%float, "verified"); (0.7%float, "partially verified");
   (0.2%float, "contradicted")].

(** The claim types the extractor can give. *)
Definition extracted_types : list string :=
  ["price_claim"; "price_trend_claim"; "trend_claim"; "volatility_claim";
   "comparison_claim"].

(** The first of the columns Low, High, Close and Volume that the frame
    does not have. *)
Definition first_missing (df : DataFrame) : option string :=
  List.find (fun name => negb (has_column df name))
    ["Low"; "High"; "Close"; "Volume"].

(** A character of the text is a digit. *)
Fixpoint has_digit (s : string) : bool :=
  match s with
  | EmptyString => false
  | String c s' => is_digit c || has_digit s'
  end.

(** The sentences that give a claim. *)
Definition qualifying (sentences : list string) : list string :=
  List.filter
    (fun sentence =>
       match claim_of_sentence sentence with
       | Some _ => true
       | None => false
       end)
    sentences.

(** The last value of the column Volatility_20d, in percent, when the
    frame has the column and the value is a number. *)
Definition last_volatility (df : DataFrame) : option binary64 :=
  match df_columns df !! "Volatility_20d" with
  | Some column =>
      match List.rev column with
      | v :: _ => if isna v then None else Some (v * 100)%float
      | [] => None
      end
  | None => None
  end.

(** The volatility rule on that value: 2 percent separates high from
    low. *)
Definition volatility_verdict (claim_text : string) (vol : option binary64)
  : binary64 * string :=
  match vol with
  | None => (0.5%float, "unverified")
  | Some v =>
      if any_in high_volatility_words (lower claim_text) && (2 <? v)%float
         || any_in low_volatility_words (lower claim_text) && (v <=? 2)%float
      then (0.9%float, "verified") else (0.2%float, "contradicted")
  end.

(** The two outcomes of the comparison rule. *)
Definition comparison_outcomes : list (binary64 * string) :=
  [(0.7%float, "partially verified"); (0.3%float, "partially contradicted")].

(** What [highlight_inconsistencies] does with a check, by its verdict:
    no highlight, or the colour of the highlight. *)
Definition colour_of_verdict (verdict : string) : option string :=
  if verdict =? "verified" then None
  else if (verdict =? "unverified") || (verdict =? "partially verified")
  then Some "#FFFFCC"
  else Some "#FFCCCC".

(** The tooltip of a check: its score, its verdict and its
    explanation. *)
Definition tooltip (format_2f : binary64 -> string)
    (explanation_text : Explanation -> string) (r : VerificationResult)
  : string :=
  ("Score: " ++ format_2f (consistency_score r) ++ ", Result: "
   ++ verification_result r ++ ", Explanation: "
   ++ explanation_text (explanation r))%string.

(** The claim text of a check inside a span of the given colour, with
    the tooltip of the check. *)
Definition span (format_2f : binary64 -> string)
    (explanation_text : Explanation -> string) (colour : string)
    (r : VerificationResult) : string :=
  ("<span title=" ++ dq ++ tooltip format_2f explanation_text r ++ dq
   ++ " style=" ++ dq ++ "background-color: " ++ colour ++ ";" ++ dq ++ ">"
   ++ checked_text r ++ "</span>")%string.

(** A frame with the five columns and no row. *)
Definition frame_empty : DataFrame := frame [] [] [] [] [].

(** [frame_2022] with a volatility column: 1.5 percent on the last day. *)
Definition frame_calm : DataFrame :=
  mkframe 2 (Some year_2022)
    (<["Volatility_20d" := [nan; 0.015]%float]> (df_columns frame_2022)).

(** Renderings for the tooltips of the examples. *)
Definition plain_score (score : binary64) : string := "0.20".
Definition plain_explanation (e : Explanation) : string := "outside".

(** A check whose text is no part of [price_sentence]. *)
Definition stray_check : VerificationResult :=
  mkresult "A sentence that is not there." "price_claim" 0.2 "contradicted"
    NoDataPoints.

(** A report with one verified check. *)
Definition verified_report : gmap string value :=
  <["overall_score" := Float 0.9]>
    (<["checked_claims" := Int 1]>
       (<["claim_checks" :=
            Checks [mkresult price_sentence "price_claim" 0.9 "verified"
                      (PriceWithin 150 140 160)]]> ∅)).

Definition volatility_sentence : string := "Trading showed low volatile days.".
Definition comparison_sentence : string := "Returns versus the index.".
Definition mixed_trend_sentence : string :=
  "The close moved higher, then lower.".
Definition year_sentence : string := "The year 2022 was eventful.".

End Cases.

Import Cases.

(** ** The sums of scores

    A report has at most fifteen checks, each with one of eight scores, so
    the values that [sum] returns for it can be listed; what holds of all
    the listed values holds of every report. *)

Module Reach.

(** The scores of [all_outcomes], and those of [rule_outcomes]. *)
Definition all_scores : list binary64 :=
  [0; 0.1; 0.2; 0.3; 0.5; 0.7; 0.9; 0.95]%float.


(** The union of two lists of sums: an element that is the head of both
    is kept once. *)
Fixpoint merge (l1 : list binary64) : list binary64 -> list binary64 :=
  fix merge_aux (l2 : list binary64) : list binary64 :=
    match l1, l2 with
    | [], _ => l2
    | _, [] => l1
    | x :: l1', y :: l2' =>
        if PrimFloat.Leibniz.eqb x y then x :: merge l1' l2'
        else if (x <? y)%float then x :: merge l1' l2
        else y :: merge_aux l2'
    end.

(** The sums [s + x] for [s] in [sums] and [x] in [scores]. *)
Definition step (scores sums : list binary64) : list binary64 :=
  fold_right (fun x acc => merge (map (fun s => (s + x)%float) sums) acc)
             [] scores.

(** The values [sum] can return for [n] scores of the list [scores]. *)
Fixpoint sums (scores : list binary64) (n : nat) : list binary64 :=
  match n with
  | O => [0%float]
  | S k => step scores (sums scores k)
  end.

(** [ok n (float(n)) s] for every sum [s] of [n] to [n + k] scores, given
    the sums of [n] scores. *)
Fixpoint checked (scores : list binary64)
    (ok : nat -> binary64 -> binary64 -> bool) (k n : nat)
    (current : list binary64) : bool :=
  forallb (ok n (of_nat n)) current &&
  match k with
  | O => true
  | S k' => checked scores ok k' (S n) (step scores current)
  end.

Definition is_zero (x : binary64) : bool := PrimFloat.Leibniz.eqb x 0.

(** What is checked of a sum [s] of [n] scores of any kind, [d] being the
    number of scores as a float: the mean lies between 0 and 1 and the
    percentage between 0 and 100; the mean is zero exactly when the sum
    is; and a further score makes the sum zero only when the sum and the
    score are zero. *)
Definition mean_ok (n : nat) (d s : binary64) : bool :=
  match n with
  | O => true
  | _ =>
      let mean := (s / d)%float in
      (0 <=? mean)%float && (mean <=? 1)%float
      && (0 <=? mean * 100)%float && (mean * 100 <=? 100)%float
      && implb (is_zero mean) (is_zero s) && implb (is_zero s) (is_zero mean)
  end
  && forallb (fun x => implb (is_zero (s + x)) (is_zero s && is_zero x))
             all_scores.


End Reach.

Import Reach.

(** ** Properties of binary64 values *)

#[local] Arguments String.append : simpl nomatch.

Section Order.

Lemma SFcompare_antisym (x y : spec_float) :
  SFcompare y x =
  match SFcompare x y with Some c => Some (CompOpp c) | None => None end.
Proof.
  destruct x as [sx|sx| |sx mx ex], y as [sy|sy| |sy my ey]; simpl;
    try reflexivity;
    repeat match goal with s : bool |- _ => destruct s end;
    try reflexivity;
    rewrite (Z.compare_antisym ex ey);
    destruct (ex ?= ey)%Z; simpl; try reflexivity;
    change (Pos.compare_cont Eq) with Pos.compare;
    rewrite (Pos.compare_antisym mx my);
    now rewrite ?CompOpp_involutive.
Qed.

Lemma SFleb_trans (x y z : spec_float) :
  SFleb x y = true -> SFleb y z = true -> SFleb x z = true.
Proof.
  unfold SFleb, SFcompare.
  destruct x as [sx|sx| |sx mx ex], y as [sy|sy| |sy my ey],
    z as [sz|sz| |sz mz ez];
    repeat match goal with s : bool |- _ => destruct s end;
    try discriminate; try reflexivity;
    change (Pos.compare_cont Eq) with Pos.compare;
    destruct (Z.compare_spec ex ey), (Z.compare_spec ey ez),
      (Z.compare_spec ex ez);
    try discriminate; try reflexivity; try lia;
    destruct (Pos.compare_spec mx my), (Pos.compare_spec my mz),
      (Pos.compare_spec mx mz);
    simpl; try discriminate; try reflexivity; lia.
Qed.

Lemma SFcompare_refl (x : spec_float) :
  SFcompare x x = match x with S754_nan => None | _ => Some Eq end.
Proof.
  destruct x as [s|s| |s m e]; simpl; try reflexivity; destruct s;
    try reflexivity;
    change (Pos.compare_cont Eq) with Pos.compare;
    now rewrite Z.compare_refl, Pos.compare_refl.
Qed.

Lemma SFcompare_defined (x y : spec_float) :
  SFcompare x x <> None -> SFcompare y y <> None -> SFcompare x y <> None.
Proof. destruct x, y; simpl; congruence. Qed.

(** [<=] and [<] on binary64 values. *)
Lemma leb_ltb_false (x y : binary64) :
  (x <=? y)%float = true -> (y <? x)%float = false.
Proof.
  rewrite leb_spec, ltb_spec. unfold SFleb, SFltb.
  rewrite (SFcompare_antisym (Prim2SF x) (Prim2SF y)).
  now destruct (SFcompare (Prim2SF x) (Prim2SF y)) as [[| |]|].
Qed.

Lemma ltb_leb_false (x y : binary64) :
  (x <? y)%float = true -> (y <=? x)%float = false.
Proof.
  rewrite leb_spec, ltb_spec. unfold SFleb, SFltb.
  rewrite (SFcompare_antisym (Prim2SF x) (Prim2SF y)).
  now destruct (SFcompare (Prim2SF x) (Prim2SF y)) as [[| |]|].
Qed.

Lemma ltb_leb (x y : binary64) :
  (x <? y)%float = true -> (x <=? y)%float = true.
Proof.
  rewrite leb_spec, ltb_spec. unfold SFleb, SFltb.
  now destruct (SFcompare (Prim2SF x) (Prim2SF y)) as [[| |]|].
Qed.

Lemma leb_trans (x y z : binary64) :
  (x <=? y)%float = true -> (y <=? z)%float = true ->
  (x <=? z)%float = true.
Proof. rewrite !leb_spec. apply SFleb_trans. Qed.

(** A value that is compared with success is not NaN. *)
Lemma leb_defined (x y : binary64) :
  (x <=? y)%float = true ->
  (x <=? x)%float = true /\ (y <=? y)%float = true.
Proof.
  rewrite !leb_spec. unfold SFleb. rewrite !SFcompare_refl.
  destruct (Prim2SF x), (Prim2SF y); simpl; try discriminate; auto.
Qed.

(** Two values that are not NaN are comparable. *)
Lemma leb_total (x y : binary64) :
  (x <=? x)%float = true -> (y <=? y)%float = true ->
  (x <=? y)%float = false -> (y <? x)%float = true.
Proof.
  rewrite !leb_spec, ltb_spec. unfold SFleb, SFltb. intros Hx Hy.
  rewrite (SFcompare_antisym (Prim2SF x) (Prim2SF y)).
  pose proof (SFcompare_defined (Prim2SF x) (Prim2SF y)) as Hd.
  destruct (SFcompare (Prim2SF x) (Prim2SF y)) as [[| |]|];
    try discriminate; try reflexivity.
  intros _. exfalso. apply Hd; [|  |reflexivity].
  - now destruct (SFcompare (Prim2SF x) (Prim2SF x)).
  - now destruct (SFcompare (Prim2SF y) (Prim2SF y)).
Qed.

(** Two float literals that differ. *)
Lemma differ (x y : binary64) :
  PrimFloat.Leibniz.eqb x y = false -> x <> y.
Proof.
  intros H Heq. apply FloatAxioms.Leibniz.eqb_spec in Heq. congruence.
Qed.

End Order.

Section Rounding.

Lemma digits2_bounds (p : positive) :
  (2 ^ (Zpos (digits2_pos p) - 1) <= Zpos p < 2 ^ Zpos (digits2_pos p))%Z.
Proof.
  induction p as [p IH|p IH|]; cbn [digits2_pos].
  - rewrite Pos2Z.inj_succ.
    replace (Z.succ (Zpos (digits2_pos p)) - 1)%Z
      with (Z.succ (Zpos (digits2_pos p) - 1))%Z by lia.
    rewrite !Z.pow_succ_r by lia. lia.
  - rewrite Pos2Z.inj_succ.
    replace (Z.succ (Zpos (digits2_pos p)) - 1)%Z
      with (Z.succ (Zpos (digits2_pos p) - 1))%Z by lia.
    rewrite !Z.pow_succ_r by lia. lia.
  - simpl. lia.
Qed.

Lemma shr_1_m (mrs : shr_record) :
  (0 <= shr_m mrs)%Z -> shr_m (shr_1 mrs) = (shr_m mrs / 2)%Z.
Proof.
  destruct mrs as [m r s]. cbn [shr_m]. intros Hm.
  rewrite <- Z.div2_div.
  destruct m as [|[p|p|]|p]; try reflexivity. lia.
Qed.

Lemma iter_shr_1_m (n : positive) (mrs : shr_record) :
  (0 <= shr_m mrs)%Z ->
  shr_m (SpecFloat.iter_pos shr_1 n mrs) = (shr_m mrs / 2 ^ Zpos n)%Z.
Proof.
  revert mrs. induction n as [n IH|n IH|]; intros mrs Hm;
    cbn [SpecFloat.iter_pos].
  - assert (0 < 2 ^ Zpos n)%Z as Hp by (apply Z.pow_pos_nonneg; lia).
    assert (2 ^ Zpos n~1 = 2 * 2 ^ Zpos n * 2 ^ Zpos n)%Z as ->.
    { rewrite Pos2Z.inj_xI.
      replace (2 * Zpos n + 1)%Z with (1 + Zpos n + Zpos n)%Z by lia.
      now rewrite !Z.pow_add_r by lia. }
    assert (0 <= shr_m (shr_1 mrs))%Z as H1
      by (rewrite shr_1_m by lia; apply Z.div_pos; lia).
    assert (0 <= shr_m (SpecFloat.iter_pos shr_1 n (shr_1 mrs)))%Z as H2
      by (rewrite IH by lia; apply Z.div_pos; lia).
    rewrite IH, IH, shr_1_m by lia.
    rewrite !Z.div_div by lia. f_equal. lia.
  - assert (0 < 2 ^ Zpos n)%Z as Hp by (apply Z.pow_pos_nonneg; lia).
    assert (2 ^ Zpos n~0 = 2 ^ Zpos n * 2 ^ Zpos n)%Z as ->.
    { replace (Zpos n~0) with (Zpos n + Zpos n)%Z by lia.
      now rewrite Z.pow_add_r by lia. }
    assert (0 <= shr_m (SpecFloat.iter_pos shr_1 n mrs))%Z as H2
      by (rewrite IH by lia; apply Z.div_pos; lia).
    rewrite IH, IH by lia. rewrite Z.div_div by lia. reflexivity.
  - rewrite shr_1_m by lia. reflexivity.
Qed.

Lemma shr_record_of_loc_m (m : Z) (l : location) :
  shr_m (shr_record_of_loc m l) = m.
Proof. now destruct l as [|[| |]]. Qed.

Lemma shr_fexp_positive (m : positive) (e : Z) (l : location) :
  (-1074 <= e)%Z ->
  (0 < shr_m (fst (shr_fexp prec emax (Zpos m) e l)))%Z /\
  (-1074 <= snd (shr_fexp prec emax (Zpos m) e l))%Z.
Proof.
  intros He. unfold shr_fexp, shr, Zdigits2.
  pose proof (digits2_bounds m) as Hd.
  set (d := Zpos (digits2_pos m)) in *.
  assert (1 <= d)%Z as Hd1 by (unfold d; lia).
  unfold fexp, SpecFloat.emin, emax, prec.
  destruct (Z.max (d + e - 53) (3 - 1024 - 53) - e)%Z as [|n|n] eqn:Hn;
    cbn [fst snd]; rewrite ?shr_record_of_loc_m; try lia.
  split; [|lia].
  rewrite iter_shr_1_m by (rewrite shr_record_of_loc_m; lia).
  rewrite shr_record_of_loc_m.
  assert (2 ^ Zpos n <= 2 ^ (d - 1))%Z as Hpow
    by (apply Z.pow_le_mono_r; lia).
  assert (0 < 2 ^ Zpos n)%Z as Hp by (apply Z.pow_pos_nonneg; lia).
  assert (1 <= Zpos m / 2 ^ Zpos n)%Z
    by (apply Z.div_le_lower_bound; lia).
  lia.
Qed.

Lemma round_nearest_even_positive (m : Z) (l : location) :
  (0 < m)%Z -> (0 < round_nearest_even m l)%Z.
Proof.
  intros Hm. destruct l as [|[| |]]; cbn [round_nearest_even]; try lia.
  destruct (Z.even m); lia.
Qed.

Lemma binary_round_aux_signed (s : bool) (m : positive) (e : Z)
    (l : location) :
  (-1074 <= e)%Z -> signed s (binary_round_aux prec emax s (Zpos m) e l).
Proof.
  intros He. unfold binary_round_aux.
  destruct (shr_fexp_positive m e l He) as [Hm1 He1].
  destruct (shr_fexp prec emax (Zpos m) e l) as [mrs1 e1].
  cbn [fst snd] in Hm1, He1.
  pose proof (round_nearest_even_positive (shr_m mrs1)
                (loc_of_shr_record mrs1) Hm1) as Hm2.
  destruct (round_nearest_even (shr_m mrs1) (loc_of_shr_record mrs1))
    as [|m2|m2]; try lia.
  destruct (shr_fexp_positive m2 e1 loc_Exact He1) as [Hm3 He3].
  destruct (shr_fexp prec emax (Zpos m2) e1 loc_Exact) as [mrs3 e3].
  cbn [fst snd] in Hm3, He3.
  destruct (shr_m mrs3) as [|m3|m3]; try lia.
  now destruct (e3 <=? emax - prec)%Z.
Qed.

Lemma binary_round_signed (s : bool) (m : positive) (e : Z) :
  (-1074 <= e)%Z -> signed s (binary_round prec emax s m e).
Proof.
  intros He. unfold binary_round, shl_align.
  unfold fexp at 1, SpecFloat.emin, emax at 1 2, prec at 1 2.
  destruct (Z.max (Zpos (digits2_pos m) + e - 53) (3 - 1024 - 53) - e)%Z
    as [|n|n] eqn:Hn; apply binary_round_aux_signed;
    unfold fexp, SpecFloat.emin, emax, prec; lia.
Qed.

End Rounding.

Section Difference.

Lemma iter_xO_value (m d : positive) :
  Zpos (Pos.iter xO m d) = (Zpos m * 2 ^ Zpos d)%Z.
Proof.
  induction d as [|d IH] using Pos.peano_ind.
  - simpl. lia.
  - rewrite Pos.iter_succ, Pos2Z.inj_xO, IH, Pos2Z.inj_succ.
    rewrite Z.pow_succ_r by lia. lia.
Qed.

Lemma shl_align_value (m : positive) (e e' : Z) :
  (e' <= e)%Z ->
  Zpos (fst (shl_align m e e')) = (Zpos m * 2 ^ (e - e'))%Z.
Proof.
  intros He. unfold shl_align.
  destruct (e' - e)%Z as [|d|d] eqn:Hd; cbn [fst]; try lia.
  - replace (e - e')%Z with 0%Z by lia. simpl. lia.
  - rewrite iter_xO_value. f_equal. f_equal. lia.
Qed.

(** What being a binary64 value means for a mantissa and its exponent. *)
Lemma bounded_canonical (m : positive) (e : Z) :
  bounded prec emax m e = true ->
  (-1074 <= e)%Z /\ (Zpos m < 2 ^ 53)%Z /\
  (-1074 < e -> 2 ^ 52 <= Zpos m)%Z.
Proof.
  unfold bounded, canonical_mantissa, fexp, SpecFloat.emin, emax, prec.
  intros H. apply andb_true_iff in H. destruct H as [H _].
  apply Z.eqb_eq in H.
  pose proof (digits2_bounds m) as Hd.
  set (d := Zpos (digits2_pos m)) in *.
  assert (1 <= d)%Z by (unfold d; lia).
  split; [lia|]. split.
  - assert (2 ^ d <= 2 ^ 53)%Z by (apply Z.pow_le_mono_r; lia). lia.
  - intros He. assert (d = 53)%Z as Hd53 by lia. rewrite Hd53 in Hd.
    exact (proj1 Hd).
Qed.

(** The order of two binary64 values is the sign of the difference of
    their mantissas, once aligned. *)
Lemma SFltb_aligned (sx sy : bool) (mx my : positive) (ex ey : Z) :
  bounded prec emax mx ex = true ->
  bounded prec emax my ey = true ->
  SFltb (S754_finite sy my ey) (S754_finite sx mx ex) =
  (0 <? cond_Zopp sx (Zpos (fst (shl_align mx ex (Z.min ex ey))))
        - cond_Zopp sy (Zpos (fst (shl_align my ey (Z.min ex ey)))))%Z.
Proof.
  intros Hx Hy.
  apply bounded_canonical in Hx. destruct Hx as (Hex & Hmx & Hnx).
  apply bounded_canonical in Hy. destruct Hy as (Hey & Hmy & Hny).
  rewrite !shl_align_value by lia.
  unfold SFltb, SFcompare. change (Pos.compare_cont Eq) with Pos.compare.
  assert (forall a b : Z, a < b -> 2 <= 2 ^ (b - a))%Z as Hpow.
  { intros a b Hab. change 2%Z with (2 ^ 1)%Z at 1.
    apply Z.pow_le_mono_r; lia. }
  destruct (Z.compare_spec ey ex) as [Heq|Hlt|Hgt].
  - subst ey. rewrite Z.min_id, Z.sub_diag. change (2 ^ 0)%Z with 1%Z.
    destruct sx, sy; cbn [cond_Zopp];
      destruct (Pos.compare_spec my mx); cbn [CompOpp];
      symmetry; (apply Z.ltb_lt || apply Z.ltb_ge); lia.
  - rewrite Z.min_r by lia. rewrite Z.sub_diag. change (2 ^ 0)%Z with 1%Z.
    pose proof (Hpow ey ex Hlt) as H2. specialize (Hnx ltac:(lia)).
    destruct sx, sy; cbn [cond_Zopp];
      symmetry; (apply Z.ltb_lt || apply Z.ltb_ge); nia.
  - rewrite Z.min_l by lia. rewrite Z.sub_diag. change (2 ^ 0)%Z with 1%Z.
    pose proof (Hpow ex ey Hgt) as H2. specialize (Hny ltac:(lia)).
    destruct sx, sy; cbn [cond_Zopp];
      symmetry; (apply Z.ltb_lt || apply Z.ltb_ge); nia.
Qed.

Lemma SFltb_zero_signed (s : bool) (r : spec_float) :
  signed s r -> SFltb (S754_zero false) r = negb s.
Proof. destruct r as [| | |]; simpl; try tauto; now intros ->; destruct s. Qed.

Lemma binary_normalize_sign (z e : Z) :
  (-1074 <= e)%Z ->
  SFltb (S754_zero false) (binary_normalize prec emax z e false) =
  (0 <? z)%Z.
Proof.
  intros He. destruct z as [|p|p]; cbn [binary_normalize].
  - reflexivity.
  - now rewrite (SFltb_zero_signed false) by now apply binary_round_signed.
  - now rewrite (SFltb_zero_signed true) by now apply binary_round_signed.
Qed.

(** A difference is positive exactly when its first operand is the
    larger: a subtraction does not round a difference to zero. *)
Lemma SFsub_positive (x y : spec_float) :
  valid_binary x = true -> valid_binary y = true ->
  SFltb (S754_zero false) (SFsub prec emax x y) = SFltb y x.
Proof.
  destruct x as [sx|sx| |sx mx ex], y as [sy|sy| |sy my ey];
    intros Hx Hy;
    try (repeat match goal with s : bool |- _ => destruct s end;
         reflexivity).
  cbn [valid_binary] in Hx, Hy. cbn [SFsub].
  rewrite (SFltb_aligned sx sy mx my ex ey Hx Hy).
  apply binary_normalize_sign.
  apply bounded_canonical in Hx, Hy. lia.
Qed.

Lemma sub_positive (a b : binary64) : (0 <? a - b)%float = (b <? a)%float.
Proof.
  rewrite !ltb_spec, sub_spec.
  change (Prim2SF 0) with (S754_zero false).
  apply SFsub_positive; apply Prim2SF_valid.
Qed.

End Difference.

(** ** The listed sums are all the sums *)

Section ReachFacts.

Lemma in_merge (l1 l2 : list binary64) (z : binary64) :
  In z (merge l1 l2) <-> In z l1 \/ In z l2.
Proof.
  revert l2. induction l1 as [|x l1 IH1]; intros l2.
  - destruct l2; simpl; tauto.
  - induction l2 as [|y l2 IH2]; [simpl; tauto|].
    cbn [merge]. fold (merge l1).
    destruct (PrimFloat.Leibniz.eqb x y) eqn:Heq.
    + apply FloatAxioms.Leibniz.eqb_spec in Heq. subst y.
      cbn [In]. rewrite IH1. tauto.
    + destruct (x <? y)%float.
      * cbn [In]. rewrite IH1. cbn [In]. tauto.
      * cbn [In]. cbn [merge] in IH2. fold (merge l1) in IH2.
        rewrite IH2. cbn [In]. tauto.
Qed.

Lemma in_step (scores sums : list binary64) (s x : binary64) :
  In s sums -> In x scores -> In (s + x)%float (step scores sums).
Proof.
  intros Hs. unfold step. induction scores as [|y scores IH]; [intros []|].
  cbn [fold_right]. rewrite in_merge. intros [->|Hx].
  - left. now apply (in_map (fun s => (s + x)%float)).
  - right. now apply IH.
Qed.

(** Every sum of scores of the list is listed. *)
Lemma sums_complete (scores l : list binary64) :
  List.Forall (fun x => In x scores) l ->
  In (fold_left PrimFloat.add l 0%float) (sums scores (length l)).
Proof.
  induction l as [|x l IH] using rev_ind; intros Hl.
  - now left.
  - apply List.Forall_app in Hl. destruct Hl as [Hl Hx].
    rewrite fold_left_app, length_app, Nat.add_1_r. cbn [fold_left sums].
    apply in_step; [now apply IH|]. now inversion Hx.
Qed.

Lemma checked_sums (scores : list binary64)
    (ok : nat -> binary64 -> binary64 -> bool) (k n j : nat) :
  checked scores ok k n (sums scores n) = true ->
  j <= k ->
  forall s, In s (sums scores (n + j)) ->
            ok (n + j) (of_nat (n + j)) s = true.
Proof.
  revert n j. induction k as [|k IH]; intros n j Hc Hj s Hs;
    cbn [checked] in Hc; apply andb_true_iff in Hc; destruct Hc as [H0 Hk].
  - replace j with 0 in * by lia. rewrite Nat.add_0_r in *.
    rewrite List.forallb_forall in H0. now apply H0.
  - destruct j as [|j].
    + rewrite Nat.add_0_r in *. rewrite List.forallb_forall in H0.
      now apply H0.
    + replace (n + S j) with (S n + j) in * by lia.
      apply (IH (S n) j); [exact Hk | lia | exact Hs].
Qed.

(** The sums of up to fifteen scores, of any kind and of the rules, pass
    their checks. *)
Lemma all_sums_checked : checked all_scores mean_ok 15 0 [0%float] = true.
Proof. vm_compute. reflexivity. Qed.


(** What the checks give for a list of at most fifteen scores. *)
Lemma sum_checked (scores : list binary64)
    (ok : nat -> binary64 -> binary64 -> bool) (l : list binary64) :
  checked scores ok 15 0 [0%float] = true ->
  List.Forall (fun x => In x scores) l ->
  length l <= 15 ->
  ok (length l) (of_nat (length l)) (fold_left PrimFloat.add l 0%float)
  = true.
Proof.
  intros Hc Hl Hn.
  apply (checked_sums scores ok 15 0 (length l) Hc Hn).
  now apply sums_complete.
Qed.

End ReachFacts.

(** ** Properties of the patterns *)

Section Strings.

Lemma append_nil_r (s : string) : (s ++ "")%string = s.
Proof. induction s as [|c s IH]; simpl; [reflexivity | now rewrite IH]. Qed.

Lemma append_assoc (a b c : string) :
  ((a ++ b) ++ c)%string = (a ++ (b ++ c))%string.
Proof. induction a as [|x a IH]; simpl; [reflexivity | now rewrite IH]. Qed.

Lemma length_append (a b : string) :
  String.length (a ++ b)%string = (String.length a + String.length b)%nat.
Proof. induction a as [|x a IH]; simpl; [reflexivity | now rewrite IH]. Qed.

Lemma take_str_append (a b : string) :
  take_str (String.length a) (a ++ b)%string = a.
Proof. induction a as [|x a IH]; simpl; [now destruct b | now rewrite IH]. Qed.

Lemma consumed_append (pre rest : string) :
  consumed (pre ++ rest)%string rest = pre.
Proof.
  unfold consumed. rewrite length_append.
  replace (String.length pre + String.length rest - String.length rest)%nat
    with (String.length pre) by lia.
  apply take_str_append.
Qed.

Lemma all_chars_append (p : ascii -> bool) (a b : string) :
  all_chars p (a ++ b)%string = all_chars p a && all_chars p b.
Proof.
  induction a as [|x a IH]; simpl; [reflexivity|].
  rewrite IH. now rewrite andb_assoc.
Qed.

End Strings.

Section RunSound.

Lemma run_star_sound (p : ascii -> bool) (s : string) (a : alt) :
  In a (run_star p s) ->
  fst a = [] /\ exists pre, s = (pre ++ snd a)%string /\ all_chars p pre = true.
Proof.
  revert a. induction s as [|c s IH]; intros a; simpl.
  - intros [<-|[]]. split; [reflexivity|]. now exists "".
  - destruct (p c) eqn:Hc.
    + rewrite in_app_iff. intros [H|[<-|[]]].
      * destruct (IH a H) as [Hg [pre [-> Hpre]]].
        split; [exact Hg|]. exists (String c pre). simpl.
        split; [reflexivity|]. now rewrite Hc, Hpre.
      * split; [reflexivity|]. now exists "".
    + intros [<-|[]]. split; [reflexivity|]. now exists "".
Qed.

Lemma run_rep_sound (n : nat) (p : ascii -> bool) (s : string) (a : alt) :
  In a (run_rep n p s) ->
  fst a = [] /\
  exists pre, s = (pre ++ snd a)%string /\
              String.length pre = n /\ all_chars p pre = true.
Proof.
  revert s a. induction n as [|n IH]; intros s a; simpl.
  - intros [<-|[]]. split; [reflexivity|]. now exists "".
  - destruct s as [|c s]; [intros []|].
    destruct (p c) eqn:Hc; [|intros []].
    intros H. destruct (IH s a H) as [Hg [pre [-> [Hn Hpre]]]].
    split; [exact Hg|]. exists (String c pre). simpl.
    repeat split; [now rewrite Hn | now rewrite Hc, Hpre].
Qed.

(** Every alternative of [run] leaves a suffix of the input, and what it
    consumed is in the language of the pattern. *)
Lemma run_sound (r : regex) (s : string) (a : alt) :
  In a (run r s) -> exists pre, s = (pre ++ snd a)%string /\ lang r pre.
Proof.
  revert s a. induction r as [p|r1 IH1 r2 IH2|r1 IH1|p|n p|r1 IH1];
    intros s a; simpl.
  - destruct s as [|c s]; [intros []|].
    destruct (p c) eqn:Hc; [|intros []].
    intros [<-|[]]. exists (String c ""). simpl. eauto.
  - rewrite in_flat_map. intros [a1 [H1 H2]].
    apply in_map_iff in H2. destruct H2 as [a2 [<- H2]]. simpl.
    destruct (IH1 _ _ H1) as [u [-> Hu]].
    destruct (IH2 _ _ H2) as [v [Hv Hv']].
    exists (u ++ v)%string. rewrite append_assoc, <- Hv. eauto 6.
  - rewrite in_app_iff. intros [H|[<-|[]]].
    + destruct (IH1 _ _ H) as [pre [-> Hpre]]. eauto.
    + exists "". simpl. auto.
  - intros H. destruct (run_star_sound _ _ _ H) as [_ [pre [-> Hpre]]]. eauto.
  - intros H. destruct (run_rep_sound _ _ _ _ H) as [_ [pre [-> Hpre]]]. eauto.
  - rewrite in_map_iff. intros [a1 [<- H]]. simpl. now apply IH1.
Qed.

(** A pattern without a group captures nothing. *)
Lemma run_groupless (r : regex) (s : string) (a : alt) :
  groupless r = true -> In a (run r s) -> fst a = [].
Proof.
  revert s a. induction r as [p|r1 IH1 r2 IH2|r1 IH1|p|n p|r1 IH1];
    intros s a; simpl; intros Hg.
  - destruct s as [|c s]; [intros []|].
    destruct (p c); [|intros []]. now intros [<-|[]].
  - apply andb_true_iff in Hg. destruct Hg as [Hg1 Hg2].
    rewrite in_flat_map. intros [a1 [H1 H2]].
    apply in_map_iff in H2. destruct H2 as [a2 [<- H2]]. simpl.
    now rewrite (IH1 _ _ Hg1 H1), (IH2 _ _ Hg2 H2).
  - rewrite in_app_iff. intros [H|[<-|[]]]; [eauto | reflexivity].
  - intros H. now destruct (run_star_sound _ _ _ H).
  - intros H. now destruct (run_rep_sound _ _ _ _ H).
  - discriminate.
Qed.

End RunSound.

Section Numerals.

Lemma digit_not_point (c : ascii) :
  is_digit c = true -> Ascii.eqb c "." = false.
Proof.
  unfold is_digit. destruct (Ascii.eqb_spec c "."); [|reflexivity].
  subst c. discriminate.
Qed.

Lemma digit_not_dollar (c : ascii) :
  is_digit c = true -> is_char "$" c = false.
Proof.
  unfold is_digit, is_char. destruct (Ascii.eqb_spec "$" c); [|reflexivity].
  subst c. discriminate.
Qed.

Lemma split_point_digits (u rest : string) :
  all_chars is_digit u = true ->
  split_point (u ++ rest) =
  ((u ++ fst (split_point rest))%string, snd (split_point rest)).
Proof.
  induction u as [|c u IH]; simpl.
  - intros _. now destruct (split_point rest).
  - intros H. apply andb_true_iff in H. destruct H as [Hc Hu].
    rewrite (digit_not_point c Hc), (IH Hu). reflexivity.
Qed.

Lemma digits_value_total (u : string) (acc : N) :
  all_chars is_digit u = true -> exists n, digits_value u acc = Some n.
Proof.
  revert acc. induction u as [|c u IH]; intros acc; simpl.
  - eauto.
  - intros H. apply andb_true_iff in H. destruct H as [-> Hu]. now apply IH.
Qed.

(** [float] accepts every match of [\d+(?:\.\d+)?]. *)
Lemma float_number_body (g : string) :
  lang number_body g -> exists v, float g = inr v.
Proof.
  intros (u & v & -> & (u1 & u2 & -> & (c & -> & Hc) & Hu2) & Hv).
  simpl in Hu2.
  assert (Hu : all_chars is_digit (String c u2) = true)
    by (simpl; now rewrite Hc, Hu2).
  change (String c "" ++ u2)%string with (String c u2).
  destruct Hv
    as [->|(d & w & -> & (c0 & -> & Hd)
            & (w1 & w2 & -> & (c1 & -> & Hc1) & Hw2))].
  - unfold float. rewrite (split_point_digits _ _ Hu). simpl fst. simpl snd.
    rewrite !append_nil_r.
    destruct (digits_value_total (String c u2) 0 Hu) as [n ->].
    simpl. eauto.
  - simpl in Hw2.
    assert (Hw : all_chars is_digit (String c1 w2) = true)
      by (simpl; now rewrite Hc1, Hw2).
    unfold is_char in Hd. apply Ascii.eqb_eq in Hd. subst c0.
    change ((String "." "" ++ String c1 "" ++ w2)%string)
      with (String "." (String c1 w2)).
    unfold float. rewrite (split_point_digits _ _ Hu).
    change (split_point (String "." (String c1 w2)))
      with (EmptyString, Some (String c1 w2)).
    simpl fst. simpl snd. rewrite !append_nil_r.
    destruct (digits_value_total (String c1 w2) 0 Hw) as [k ->].
    destruct (digits_value_total (String c u2) 0 Hu) as [n ->].
    simpl. eauto.
Qed.

End Numerals.

Section FindAll.

Lemma match_at_in (r : regex) (s : string) (a : alt) :
  match_at r s = Some a -> In a (run r s).
Proof.
  unfold match_at. destruct (run r s); simpl; [discriminate|].
  intros [= ->]. now left.
Qed.

(** Every item of [findall] is the item of a match at some position. *)
Lemma findall_from_items (r : regex) (s : string) (skip : nat) (tok : string) :
  In tok (findall_from r skip s) ->
  exists s' a, In a (run r s') /\ tok = item s' a.
Proof.
  revert skip. induction s as [|c s IH]; intros skip.
  - destruct skip; simpl; [|intros []].
    destruct (match_at r "") as [a|] eqn:Hm; simpl; [|intros []].
    intros [<-|[]]. eauto using match_at_in.
  - destruct skip; simpl; [|apply IH].
    destruct (match_at r (String c s)) as [a|] eqn:Hm; [|apply IH].
    intros [<-|H]; [eauto using match_at_in | eapply IH, H].
Qed.

Lemma run_capture_last (r0 r1 : regex) (s : string) (a : alt) :
  groupless r0 = true -> groupless r1 = true ->
  In a (run (Cat r0 (Group r1)) s) ->
  exists g, fst a = [g] /\ lang r1 g.
Proof.
  intros H0 H1. simpl. rewrite in_flat_map. intros [a0 [Ha0 Ha]].
  apply in_map_iff in Ha. destruct Ha as [a1 [<- Ha1]].
  apply in_map_iff in Ha1. destruct Ha1 as [a2 [<- Ha2]]. simpl.
  rewrite (run_groupless _ _ _ H0 Ha0), (run_groupless _ _ _ H1 Ha2).
  destruct (run_sound _ _ _ Ha2) as [pre [-> Hpre]].
  rewrite consumed_append. simpl. eauto.
Qed.

Lemma run_capture_first (r1 r2 : regex) (s : string) (a : alt) :
  groupless r1 = true -> groupless r2 = true ->
  In a (run (Cat (Group r1) r2) s) ->
  exists g, fst a = [g] /\ lang r1 g.
Proof.
  intros H1 H2. simpl. rewrite in_flat_map. intros [a1 [Ha1 Ha]].
  apply in_map_iff in Ha1. destruct Ha1 as [a0 [<- Ha0]].
  apply in_map_iff in Ha. destruct Ha as [a2 [<- Ha2]]. simpl in *.
  rewrite (run_groupless _ _ _ H1 Ha0), (run_groupless _ _ _ H2 Ha2).
  destruct (run_sound _ _ _ Ha0) as [pre [-> Hpre]].
  rewrite consumed_append. simpl. eauto.
Qed.

(** The numbers and the percentages [findall] extracts are numerals that
    [float] accepts. *)
Lemma extracted_numbers_float (claim_text tok : string) :
  In tok (findall numbers_regex claim_text) ->
  exists v, float tok = inr v.
Proof.
  intros H. apply findall_from_items in H. destruct H as (s' & a & Ha & ->).
  apply run_capture_last in Ha; [|reflexivity..].
  destruct Ha as [g [Hg Hl]]. unfold item. rewrite Hg.
  now apply float_number_body.
Qed.

Lemma extracted_percentages_float (claim_text tok : string) :
  In tok (findall percentages_regex claim_text) ->
  exists v, float tok = inr v.
Proof.
  intros H. apply findall_from_items in H. destruct H as (s' & a & Ha & ->).
  apply run_capture_first in Ha; [|reflexivity..].
  destruct Ha as [g [Hg Hl]]. unfold item. rewrite Hg.
  now apply float_number_body.
Qed.

End FindAll.

(** ** Exceptions in the frame code *)

Section Raising.

Lemma bind_inr {A B : Type} (m : result A) (f : A -> result B) (y : B) :
  mbind f m = inr y -> exists x, m = inr x /\ f x = inr y.
Proof. destruct m as [e|x]; simpl; [discriminate | eauto]. Qed.

Lemma bind_inl {A B : Type} (m : result A) (f : A -> result B) (e : exn) :
  m = inl e -> mbind f m = inl e.
Proof. now intros ->. Qed.


Lemma getitem_lookup (df : DataFrame) (name : string) (c : list binary64) :
  getitem df name = inr c -> df_columns df !! name = Some c.
Proof.
  unfold getitem. destruct (df_columns df !! name); now intros [= ->].
Qed.

Lemma getitem_Date_some (df : DataFrame) (dates : list (option date)) :
  getitem_Date df = inr dates -> df_Date df = Some dates.
Proof. unfold getitem_Date. destruct (df_Date df); now intros [= ->]. Qed.

End Raising.

(** Splits a hypothesis [x ← m; k = inr y] into [m = inr x] and the rest. *)
Ltac bind_inv H :=
  cbv zeta in H;
  repeat
    (let x := fresh "x" in
     let Hx := fresh "Hx" in
     apply bind_inr in H; destruct H as (x & Hx & H); cbv beta zeta in H).

Section FrameFacts.


(** The price change of the metrics is the last close minus the first. *)
Lemma key_metrics_price_change (df : DataFrame) (m : Metrics) :
  key_metrics df = inr m ->
  price_change m = (last_close m - first_close m)%float.
Proof.
  unfold key_metrics. intros H. bind_inv H.
  injection H as <-. reflexivity.
Qed.

(** Where the metrics of a frame come from. *)
Lemma key_metrics_columns (df : DataFrame) (m : Metrics) :
  key_metrics df = inr m ->
  exists dates close low high,
    df_Date df = Some dates /\
    df_columns df !! "Close" = Some close /\
    df_columns df !! "Low" = Some low /\
    df_columns df !! "High" = Some high /\
    strftime (dates_min dates) = inr (start_date m) /\
    strftime (dates_max dates) = inr (end_date m) /\
    iloc_first close = inr (first_close m) /\
    iloc_last close = inr (last_close m) /\
    price_min m = series_min low /\
    price_max m = series_max high /\
    price_change_pct m =
      ((last_close m - first_close m) / first_close m * 100)%float.
Proof.
  unfold key_metrics. intros H. bind_inv H. injection H as <-.
  repeat match goal with
         | Hd : getitem_Date df = inr _ |- _ =>
             apply getitem_Date_some in Hd
         | Hg : getitem df _ = inr _ |- _ => apply getitem_lookup in Hg
         end.
  repeat match goal with
         | H1 : ?a = Some ?x, H2 : ?a = Some ?y |- _ =>
             rewrite H1 in H2; injection H2 as <-
         end.
  cbn [start_date end_date first_close last_close price_min price_max
       price_change_pct].
  eauto 15.
Qed.

End FrameFacts.

(** ** The loops of the rules *)

Section Loops.

(** The values [float] gives for a list of tokens. *)
Lemma tokens_values (tokens : list string) :
  (forall tok, In tok tokens -> exists v, float tok = inr v) ->
  exists values, Forall2 (fun tok v => float tok = inr v) tokens values.
Proof.
  induction tokens as [|tok tokens IH]; intros H.
  - exists []. constructor.
  - destruct (H tok) as [v Hv]; [now left|].
    destruct IH as [values Hvalues]; [intros t Ht; apply H; now right|].
    exists (v :: values). now constructor.
Qed.

Lemma price_loop_verdict (price_min price_max : binary64)
    (tokens : list string) (values : list binary64) (current : finding) :
  Forall2 (fun tok v => float tok = inr v) tokens values ->
  exists f,
    price_loop price_min price_max tokens current = inr f /\
    fst f =
    match List.find (fun v => narrow_band price_min price_max v
                              || wide_band price_min price_max v) values with
    | Some v =>
        if narrow_band price_min price_max v then (0.9%float, "verified")
        else (0.7%float, "partially verified")
    | None =>
        match values with
        | [] => fst current
        | _ => (0.2%float, "contradicted")
        end
    end.
Proof.
  intros H. revert current.
  induction H as [|tok v tokens values Hv _ IH]; intros current;
    cbn [price_loop List.find].
  - eauto.
  - rewrite Hv. cbn [mbind result_bind].
    fold (narrow_band price_min price_max v).
    fold (wide_band price_min price_max v).
    destruct (narrow_band price_min price_max v) eqn:Hn; cbn [orb];
      rewrite ?Hn; [eexists; split; reflexivity|].
    destruct (wide_band price_min price_max v) eqn:Hw;
      rewrite ?Hn; [eexists; split; reflexivity|].
    destruct (IH (0.2%float, "contradicted",
                  PriceOutside v price_min price_max)) as [f [Hf Hout]].
    exists f. split; [exact Hf|]. rewrite Hout.
    destruct (List.find _ values); [reflexivity|].
    now destruct values.
Qed.

Lemma percentage_loop_verdict (price_change_pct : binary64)
    (tokens : list string) (values : list binary64) (current : finding) :
  Forall2 (fun tok v => float tok = inr v) tokens values ->
  exists f,
    percentage_loop price_change_pct tokens current = inr f /\
    fst f =
    match List.find (fun v => (pct_gap price_change_pct v <=? 5)%float)
                    values with
    | Some v =>
        if (pct_gap price_change_pct v <=? 2)%float
        then (0.95%float, "verified")
        else (0.7%float, "partially verified")
    | None =>
        match values with
        | [] => fst current
        | _ => (0.3%float, "contradicted")
        end
    end.
Proof.
  intros H. revert current.
  induction H as [|tok v tokens values Hv _ IH]; intros current;
    cbn [percentage_loop List.find].
  - eauto.
  - rewrite Hv. cbn [mbind result_bind]. fold (pct_gap price_change_pct v).
    destruct (pct_gap price_change_pct v <=? 2)%float eqn:H2.
    + assert ((pct_gap price_change_pct v <=? 5)%float = true) as ->
        by (apply (leb_trans _ 2 _); [exact H2 | reflexivity]).
      rewrite ?H2. eexists; split; reflexivity.
    + destruct (pct_gap price_change_pct v <=? 5)%float eqn:H5;
        rewrite ?H2; [eexists; split; reflexivity|].
      destruct (IH (0.3%float, "contradicted",
                    PercentageDifferent v (abs price_change_pct)))
        as [f [Hf Hout]].
      exists f. split; [exact Hf|]. rewrite Hout.
      destruct (List.find _ values); [reflexivity|].
      now destruct values.
Qed.

Lemma date_loop_verdict (start_date end_date : string)
    (dates : list string) (current : finding) :
  fst (date_loop start_date end_date dates current) =
  if existsb (in_period start_date end_date) dates
  then (0.9%float, "verified")
  else match dates with
       | [] => fst current
       | _ => (0.1%float, "contradicted")
       end.
Proof.
  revert current. induction dates as [|d dates IH]; intros current; simpl.
  - reflexivity.
  - fold (in_period start_date end_date d).
    destruct (in_period start_date end_date d); simpl; [reflexivity|].
    rewrite IH. destruct (existsb _ dates); [reflexivity|].
    now destruct dates.
Qed.

End Loops.

(** ** Verification of one claim *)

Section Verify.

Variable SentimentIntensityAnalyzer : result analyzer.

(** When the analyzer cannot be built or the frame code raises, the claim
    gets the error result. *)
Lemma verify_raises (claim : Claim) (df : DataFrame) (out : stdout) (e : exn) :
  preamble SentimentIntensityAnalyzer df = inl e ->
  verify_claim_against_data SentimentIntensityAnalyzer claim df out =
  (error_result claim e, out ++ [ErrorVerifying e]).
Proof.
  unfold preamble, verify_claim_against_data, verify_body. cbv zeta.
  destruct SentimentIntensityAnalyzer as [e0|sia];
    cbn [mbind result_bind]; [now intros [= ->]|].
  destruct (create_financial_summary df) as [e1|summary];
    cbn [mbind result_bind]; [now intros [= ->] | discriminate].
Qed.

(** When they do not, the result carries what the rules found. *)
Lemma verify_finding (claim : Claim) (df : DataFrame) (out : stdout)
    (sia : analyzer) (summary : list SummaryLine) (m : Metrics)
    (f : finding) :
  SentimentIntensityAnalyzer = inr sia ->
  create_financial_summary df = inr summary ->
  key_metrics df = inr m ->
  apply_rules sia (claim_text claim) (claim_type claim) m = inr f ->
  verify_claim_against_data SentimentIntensityAnalyzer claim df out =
  (mkresult (claim_text claim) (claim_type claim) (fst (fst f))
     (snd (fst f)) (snd f), out).
Proof.
  intros Ha Hs Hm Hf. unfold verify_claim_against_data, verify_body.
  cbv zeta. rewrite Ha. simpl. rewrite Hs. simpl. rewrite Hm. simpl.
  rewrite Hf. reflexivity.
Qed.

(** What was printed before plays no part in the result. *)
Lemma verify_stdout (claim : Claim) (df : DataFrame) (out out' : stdout) :
  fst (verify_claim_against_data SentimentIntensityAnalyzer claim df out) =
  fst (verify_claim_against_data SentimentIntensityAnalyzer claim df out').
Proof.
  unfold verify_claim_against_data.
  now destruct (verify_body SentimentIntensityAnalyzer claim df).
Qed.

End Verify.

(** ** Extraction *)

Section Searching.

Lemma run_star_last (p : ascii -> bool) (s : string) :
  In ([], s) (run_star p s).
Proof.
  destruct s as [|c s]; simpl; [now left|].
  destruct (p c); [apply in_or_app; right|]; now left.
Qed.

Lemma in_run_cat (r1 r2 : regex) (s : string) (a1 a2 : alt) :
  In a1 (run r1 s) -> In a2 (run r2 (snd a1)) ->
  In (fst a1 ++ fst a2, snd a2) (run (Cat r1 r2) s).
Proof.
  intros H1 H2. simpl. apply in_flat_map. exists a1. split; [exact H1|].
  apply in_map_iff. now exists a2.
Qed.

Lemma in_run_opt_skip (r : regex) (s : string) : In ([], s) (run (Opt r) s).
Proof. simpl. apply in_or_app. right. now left. Qed.

(** [price_pattern] matches wherever a digit stands. *)
Lemma price_pattern_at_digit (c : ascii) (rest : string) :
  is_digit c = true -> match_at price_pattern (String c rest) <> None.
Proof.
  intros Hc.
  assert (In ([], rest) (run price_pattern (String c rest))) as H.
  { apply (in_run_cat _ _ _ ([], String c rest) ([], rest));
      [apply in_run_opt_skip|].
    apply (in_run_cat _ _ _ ([], rest) ([], rest)); [|apply in_run_opt_skip].
    apply (in_run_cat _ _ _ ([], rest) ([], rest)); [|apply run_star_last].
    simpl. rewrite Hc. now left. }
  unfold match_at. now destruct (run price_pattern (String c rest)).
Qed.

(** A match of [percentage_pattern] starts with a digit. *)
Lemma percentage_pattern_starts (s : string) (a : alt) :
  match_at percentage_pattern s = Some a ->
  exists c rest, s = String c rest /\ is_digit c = true.
Proof.
  intros H. apply match_at_in, run_sound in H.
  destruct H as (pre & -> & u & v & -> & Hu & _).
  destruct Hu as (u1 & u2 & -> & (d & e & -> & (c & -> & Hc) & _) & _).
  simpl. eauto.
Qed.

(** A sentence with a percentage token has a number token. *)
Lemma search_percentage_price (s : string) :
  search percentage_pattern s = true -> search price_pattern s = true.
Proof.
  induction s as [|c s IH]; simpl.
  - destruct (match_at percentage_pattern "") as [a|] eqn:Hp; [|discriminate].
    apply percentage_pattern_starts in Hp.
    now destruct Hp as (c & rest & [=] & _).
  - destruct (match_at percentage_pattern (String c s)) as [a|] eqn:Hp.
    + intros _. apply percentage_pattern_starts in Hp.
      destruct Hp as (c' & rest & [= <- <-] & Hc).
      pose proof (price_pattern_at_digit c s Hc) as Hm.
      now destruct (match_at price_pattern (String c s)).
    + intros H. destruct (match_at price_pattern (String c s)); auto.
Qed.

End Searching.

Section Extraction.

(** What holds of the claim a sentence gives. *)
Lemma claim_of_sentence_spec (sentence : string) (claim : Claim) :
  claim_of_sentence sentence = Some claim ->
  claim_text claim = sentence /\
  In (claim_type claim) claim_types /\
  claim_type claim <> "percentage_claim" /\
  claim_type claim <> "percentage_trend_claim" /\
  excluded sentence = false /\
  sentence <> "".
Proof.
  intros H.
  assert (sentence <> "") as Hne.
  { intros ->. vm_compute in H. discriminate. }
  unfold claim_of_sentence in H.
  destruct (startswith sentence "#" || startswith sentence "##"
            || startswith sentence "###") eqn:Hh; [discriminate|].
  destruct (str_in "disclaimer" (lower sentence)
            || str_in "note:" (lower sentence)) eqn:Hd; [discriminate|].
  assert (excluded sentence = false) as Hex.
  { unfold excluded.
    apply orb_false_iff in Hh. destruct Hh as [Hh _].
    apply orb_false_iff in Hh. destruct Hh as [-> _].
    apply orb_false_iff in Hd. destruct Hd as [-> ->]. reflexivity. }
  destruct (search price_pattern sentence) eqn:Hprice.
  { destruct (any_in trend_keywords (lower sentence));
      injection H as <-; simpl; repeat split; try discriminate; auto 10. }
  destruct (search percentage_pattern sentence) eqn:Hpct.
  { apply search_percentage_price in Hpct. congruence. }
  repeat match type of H with
         | (if ?b then _ else _) = Some _ =>
             destruct b;
             [injection H as <-; simpl; repeat split; try discriminate;
              auto 10|]
         end.
  discriminate.
Qed.

(** The loop appends the claims of the sentences, in their order. *)
Lemma collect_claims_omap (sentences : list string) (claims : list Claim) :
  collect_claims sentences claims =
  claims ++ omap claim_of_sentence sentences.
Proof.
  revert claims. induction sentences as [|s sentences IH]; intros claims; simpl.
  - now rewrite app_nil_r.
  - destruct (claim_of_sentence s) as [c|]; rewrite IH; [|reflexivity].
    now rewrite <- app_assoc.
Qed.

Lemma omap_claims_in (sentences : list string) (claim : Claim) :
  In claim (omap claim_of_sentence sentences) ->
  exists sentence, In sentence sentences /\
                   claim_of_sentence sentence = Some claim.
Proof.
  induction sentences as [|s sentences IH]; simpl; [intros []|].
  destruct (claim_of_sentence s) as [c|] eqn:Hc.
  - intros [<-|H]; [eauto|]. destruct (IH H) as [s' [? ?]]. eauto.
  - intros H. destruct (IH H) as [s' [? ?]]. eauto.
Qed.

Lemma omap_claims_sublist (sentences : list string) :
  sublist (map claim_text (omap claim_of_sentence sentences)) sentences.
Proof.
  induction sentences as [|s sentences IH]; simpl; [constructor|].
  destruct (claim_of_sentence s) as [c|] eqn:Hc; simpl.
  - apply claim_of_sentence_spec in Hc. destruct Hc as [-> _].
    now constructor.
  - now constructor.
Qed.

Lemma firstn_sublist {A : Type} (n : nat) (l : list A) :
  sublist (firstn n l) l.
Proof.
  revert n. induction l as [|x l IH]; intros [|n]; simpl;
    try constructor; auto.
  apply sublist_nil_l.
Qed.

Lemma firstn_keeps {A : Type} (n : nat) (l : list A) (x : A) :
  In x (firstn n l) -> In x l.
Proof.
  revert n. induction l as [|y l IH]; intros [|n]; simpl; try tauto.
  intros [->|H]; eauto.
Qed.

End Extraction.

(** ** Aggregation *)

Section Aggregation.

Variable SentimentIntensityAnalyzer : result analyzer.

Lemma verify_claims_map (claims : list Claim) (df : DataFrame)
    (checks : list VerificationResult) (out : stdout) :
  fst (verify_claims SentimentIntensityAnalyzer claims df checks out) =
  checks ++
  map (fun claim =>
         fst (verify_claim_against_data SentimentIntensityAnalyzer claim
                df []))
      claims.
Proof.
  revert checks out.
  induction claims as [|c claims IH]; intros checks out; simpl.
  - now rewrite app_nil_r.
  - rewrite IH, <- app_assoc. simpl.
    now rewrite (verify_stdout SentimentIntensityAnalyzer c df out []).
Qed.

End Aggregation.

(** ** The rule a claim type selects *)

Section Dispatch.

Variable sia : analyzer.

Lemma apply_rules_price (claim_text claim_type : string) (m : Metrics) :
  claim_type = "price_claim" \/ claim_type = "price_trend_claim" ->
  apply_rules sia claim_text claim_type m =
  price_loop (price_min m) (price_max m)
    (findall numbers_regex claim_text) default_finding.
Proof. now intros [-> | ->]. Qed.

Lemma apply_rules_percentage (claim_text claim_type : string) (m : Metrics) :
  claim_type = "percentage_claim" \/ claim_type = "percentage_trend_claim" ->
  apply_rules sia claim_text claim_type m =
  percentage_loop (price_change_pct m)
    (findall percentages_regex claim_text) default_finding.
Proof. now intros [-> | ->]. Qed.

Lemma apply_rules_date (claim_text : string) (m : Metrics) :
  apply_rules sia claim_text "date_specific_claim" m =
  inr (date_loop (start_date m) (end_date m)
         (findall date_pattern claim_text) default_finding).
Proof. reflexivity. Qed.

Lemma apply_rules_trend (claim_text : string) (m : Metrics) :
  apply_rules sia claim_text "trend_claim" m =
  inr (trend_rule claim_text m).
Proof. reflexivity. Qed.

End Dispatch.

(** ** The report *)

Section Report.

Lemma report_lookups (overall checked checks : value) :
  let report : gmap string value :=
    <["overall_score" := overall]>
      (<["checked_claims" := checked]> (<["claim_checks" := checks]> ∅)) in
  report !! "overall_score" = Some overall /\
  report !! "checked_claims" = Some checked /\
  report !! "claim_checks" = Some checks.
Proof. cbv zeta. repeat split; now simplify_map_eq. Qed.

End Report.

(** Rewrites the three lookups in the report of the goal. *)
Ltac rewrite_report_lookups :=
  match goal with
  | |- context [<["overall_score" := ?a]> (<[_ := ?b]> (<[_ := ?c]> ∅))] =>
      destruct (report_lookups a b c) as (-> & -> & ->)
  end.

(** Rewrites the lookups of the report that occur in the goal. *)
Ltac rewrite_lookups :=
  match goal with
  | |- context [<["overall_score" := ?a]> (<[_ := ?b]> (<[_ := ?c]> ∅))] =>
      let H1 := fresh in
      let H2 := fresh in
      let H3 := fresh in
      destruct (report_lookups a b c) as (H1 & H2 & H3);
      rewrite ?H1, ?H2, ?H3; clear H1 H2 H3
  end.

(** ** When verification gives the error result *)

Section ErrorResult.

Lemma iloc_nonempty {A : Type} (l : list A) :
  l <> [] ->
  (exists a, iloc_first l = inr a) /\ (exists b, iloc_last l = inr b).
Proof.
  intros Hne. split.
  - destruct l as [|a l]; [congruence|]. simpl. eauto.
  - unfold iloc_last. destruct (List.rev l) as [|b l'] eqn:Hr; simpl; [|eauto].
    apply (f_equal (@List.rev A)) in Hr. rewrite rev_involutive in Hr.
    simpl in Hr. congruence.
Qed.

Lemma select_source_nonempty {A : Type} (mask : list bool) (column : list A)
    (v : A) :
  iloc_first (select mask column) = inr v -> column <> [].
Proof. destruct mask, column; simpl; discriminate. Qed.

Lemma last_unless_na_total (scale : binary64 -> binary64)
    (column : list binary64) (v : binary64) :
  iloc_last column = inr v ->
  last_unless_na scale column =
  inr (if negb (isna v) then Some (scale v) else None).
Proof.
  intros H. unfold last_unless_na. rewrite H. simpl.
  now destruct (negb (isna v)).
Qed.

(** Identifies the values of two evaluations of the same expression. *)
Ltac same_values :=
  repeat match goal with
         | H1 : ?a = inr ?x, H2 : ?a = inr ?y |- _ =>
             rewrite H1 in H2; injection H2 as <-
         end.

(** Once the summary is built, the metrics are computed without an
    exception. *)
Lemma summary_gives_metrics (df : DataFrame) (summary : list SummaryLine) :
  create_financial_summary df = inr summary ->
  exists m, key_metrics df = inr m.
Proof.
  unfold create_financial_summary. intros H. bind_inv H. same_values.
  match goal with
  | Hsel : iloc_first (select _ ?close) = inr _ |- _ =>
      apply select_source_nonempty, iloc_nonempty in Hsel;
      destruct Hsel as [[first Hfirst] [last Hlast]]
  end.
  unfold key_metrics.
  repeat
    match goal with
    | Hg : ?a = inr _ |- context [mbind _ ?a] =>
        rewrite Hg; cbn [mbind result_bind mret result_ret]
    | Hl : iloc_last ?col = inr _ |- context [last_unless_na ?scale ?col] =>
        rewrite (last_unless_na_total scale col _ Hl);
        cbn [mbind result_bind mret result_ret]
    | Hif : (if ?c then _ else _) = inr _ |- context [if ?c then _ else _] =>
        destruct c; [bind_inv Hif; same_values|];
        cbn [mbind result_bind mret result_ret]
    end;
    eauto.
Qed.

End ErrorResult.

(** ** The outcomes of the rules *)

Section RuleOutcomes.

Variable SentimentIntensityAnalyzer : result analyzer.

(** Closes a goal [In x l] for a literal [l]. *)
Ltac in_list := unfold rule_outcomes, price_outcomes; simpl; auto 12.

Lemma price_loop_outcome (price_min price_max : binary64)
    (tokens : list string) (current f : finding) :
  In (fst current) rule_outcomes ->
  price_loop price_min price_max tokens current = inr f ->
  In (fst f) rule_outcomes.
Proof.
  revert current. induction tokens as [|tok tokens IH]; intros current Hc;
    simpl.
  - now intros [= <-].
  - destruct (float tok) as [e|v]; simpl; [discriminate|].
    repeat match goal with
           | |- (if ?b then _ else _) = _ -> _ => destruct b
           end.
    + intros [= <-]. in_list.
    + intros [= <-]. in_list.
    + apply IH. in_list.
Qed.

Lemma percentage_loop_outcome (price_change_pct : binary64)
    (tokens : list string) (current f : finding) :
  In (fst current) rule_outcomes ->
  percentage_loop price_change_pct tokens current = inr f ->
  In (fst f) rule_outcomes.
Proof.
  revert current. induction tokens as [|tok tokens IH]; intros current Hc;
    simpl.
  - now intros [= <-].
  - destruct (float tok) as [e|v]; simpl; [discriminate|].
    repeat match goal with
           | |- (if ?b then _ else _) = _ -> _ => destruct b
           end.
    + intros [= <-]. in_list.
    + intros [= <-]. in_list.
    + apply IH. in_list.
Qed.

Lemma date_loop_outcome (start_date end_date : string) (dates : list string)
    (current : finding) :
  In (fst current) rule_outcomes ->
  In (fst (date_loop start_date end_date dates current)) rule_outcomes.
Proof.
  revert current. induction dates as [|d dates IH]; intros current Hc; simpl.
  - exact Hc.
  - destruct (String.leb start_date d && String.leb d end_date).
    + in_list.
    + apply IH. in_list.
Qed.

Lemma apply_rules_outcomes (sia : analyzer) (claim_text claim_type : string)
    (m : Metrics) (f : finding) :
  apply_rules sia claim_text claim_type m = inr f ->
  In (fst f) rule_outcomes.
Proof.
  assert (In (fst default_finding) rule_outcomes) as Hd by in_list.
  unfold apply_rules. cbv zeta.
  repeat match goal with
         | |- (if ?b then _ else _) = _ -> _ => destruct b
         end.
  - now apply price_loop_outcome.
  - now apply percentage_loop_outcome.
  - intros [= <-]. now apply date_loop_outcome.
  - intros [= <-]. unfold trend_rule. cbv zeta.
    match goal with |- context [if ?b then _ else _] => destruct b end;
      in_list.
  - intros [= <-]. unfold volatility_rule. cbv zeta.
    destruct (volatility m); [|exact Hd].
    match goal with |- context [if ?b then _ else _] => destruct b end;
      in_list.
  - intros [= <-]. unfold comparison_rule. cbv zeta.
    match goal with |- context [if ?b then _ else _] => destruct b end;
      in_list.
  - now intros [= <-].
Qed.

(** The rules never raise: the tokens [float] is given are numerals. *)
Lemma apply_rules_total (sia : analyzer) (claim_text claim_type : string)
    (m : Metrics) :
  exists f, apply_rules sia claim_text claim_type m = inr f.
Proof.
  unfold apply_rules. cbv zeta.
  repeat match goal with
         | |- exists f, (if ?b then _ else _) = _ => destruct b
         end; eauto.
  - destruct (tokens_values (findall numbers_regex claim_text))
      as [values Hvalues]; [intros tok; apply extracted_numbers_float|].
    destruct (price_loop_verdict (price_min m) (price_max m) _ _
                default_finding Hvalues) as [f [Hf _]].
    eauto.
  - destruct (tokens_values (findall percentages_regex claim_text))
      as [values Hvalues]; [intros tok; apply extracted_percentages_float|].
    destruct (percentage_loop_verdict (price_change_pct m) _ _
                default_finding Hvalues) as [f [Hf _]].
    eauto.
Qed.

(** The two cases of [verify_claim_against_data]. *)
Lemma verify_cases (claim : Claim) (df : DataFrame) (out : stdout) :
  match preamble SentimentIntensityAnalyzer df with
  | inl e =>
      verify_claim_against_data SentimentIntensityAnalyzer claim df out =
      (error_result claim e, out ++ [ErrorVerifying e])
  | inr _ =>
      snd (verify_claim_against_data SentimentIntensityAnalyzer claim df out)
      = out /\
      In (outcome (fst (verify_claim_against_data SentimentIntensityAnalyzer
                          claim df out)))
         rule_outcomes
  end.
Proof.
  destruct (preamble SentimentIntensityAnalyzer df) as [e|[sia summary]]
    eqn:Hp.
  - now apply verify_raises.
  - unfold preamble in Hp. bind_inv Hp. injection Hp as -> ->.
    match goal with
    | Ha : SentimentIntensityAnalyzer = inr _,
      Hs : create_financial_summary df = inr _ |- _ =>
        destruct (summary_gives_metrics df summary Hs) as [m Hm];
        destruct (apply_rules_total sia (claim_text claim)
                    (claim_type claim) m) as [f Hf];
        rewrite (verify_finding SentimentIntensityAnalyzer claim df out
                   sia summary m f Ha Hs Hm Hf)
    end.
    split; [reflexivity|].
    unfold outcome. cbn [fst consistency_score verification_result].
    rewrite <- surjective_pairing.
    eapply apply_rules_outcomes, Hf.
Qed.

Lemma verify_outcome (claim : Claim) (df : DataFrame) (out : stdout) :
  In (outcome (fst (verify_claim_against_data SentimentIntensityAnalyzer
                      claim df out)))
     all_outcomes.
Proof.
  pose proof (verify_cases claim df out) as H.
  destruct (preamble SentimentIntensityAnalyzer df) as [e|p].
  - rewrite H. unfold all_outcomes. apply in_or_app. right. now left.
  - destruct H as [_ H]. unfold all_outcomes. apply in_or_app. now left.
Qed.

End RuleOutcomes.

(** ** The exceptions of the summary *)

Section SummaryExceptions.

Lemma well_formed_Date (df : DataFrame) (dates : list (option date)) :
  well_formed df = true -> df_Date df = Some dates ->
  length dates = df_len df.
Proof.
  unfold well_formed. intros H Hd. rewrite Hd in H.
  apply andb_true_iff in H. destruct H as [H _]. now apply Nat.eqb_eq in H.
Qed.

Lemma well_formed_column (df : DataFrame) (name : string) (c : list binary64) :
  well_formed df = true -> df_columns df !! name = Some c ->
  length c = df_len df.
Proof.
  unfold well_formed. intros H Hc.
  apply andb_true_iff in H. destruct H as [_ H].
  rewrite forallb_forall in H.
  specialize (H (name, c)). apply Nat.eqb_eq, H.
  apply list_elem_of_In. now apply elem_of_map_to_list.
Qed.

Lemma dates_max_of_min (l : list (option date)) (d : date) :
  dates_min l = Some d -> exists d', dates_max l = Some d' /\ In (Some d') l.
Proof.
  revert d. induction l as [|[x|] l IH]; intros d; simpl; [discriminate| |].
  - intros _. destruct (dates_min l) as [m|] eqn:Hm.
    + destruct (IH m eq_refl) as (d' & -> & Hin).
      destruct (date_leb d' x); eauto.
    + assert (dates_max l = None) as ->; [|eauto].
      clear IH. induction l as [|[y|] l IH]; simpl in *; auto.
      destruct (dates_min l); discriminate.
  - intros H. destruct (IH d H) as (d' & -> & Hin). eauto.
Qed.

Lemma date_eqb_refl (d : date) : date_eqb d d = true.
Proof. unfold date_eqb. now rewrite !Nat.eqb_refl. Qed.

Lemma select_latest_nonempty (dates : list (option date)) (d : date)
    (close : list binary64) :
  In (Some d) dates -> length close = length dates ->
  exists v, iloc_first (select (map (date_is (Some d)) dates) close) = inr v.
Proof.
  revert close. induction dates as [|x dates IH]; intros close; [intros []|].
  destruct close as [|c close]; [discriminate|]. cbn [map select length].
  intros [->|Hin] [= Hlen].
  - cbn [date_is]. rewrite date_eqb_refl. simpl. eauto.
  - destruct (date_is (Some d) x); simpl; eauto.
Qed.

(** A column of a frame with rows can be read at both ends. *)
Lemma column_ready (df : DataFrame) (name : string) :
  well_formed df = true -> (0 < df_len df)%nat ->
  has_column df name = true ->
  exists c u v,
    getitem df name = inr c /\ df_columns df !! name = Some c /\
    iloc_first c = inr u /\ iloc_last c = inr v.
Proof.
  intros Hwf Hlen. unfold has_column, getitem.
  destruct (df_columns df !! name) as [c|] eqn:Hc; [|discriminate].
  intros _. pose proof (well_formed_column df name c Hwf Hc) as Hl.
  destruct (iloc_nonempty c) as [[u Hu] [v Hv]].
  { intros ->. simpl in Hl. lia. }
  exists c, u, v. auto.
Qed.

Lemma column_missing (df : DataFrame) (name : string) :
  has_column df name = false ->
  getitem df name = inl (KeyError name).
Proof.
  unfold has_column, getitem.
  now destruct (df_columns df !! name).
Qed.

(** Evaluates [create_financial_summary] on a frame whose columns are
    known to be present or missing. *)
Ltac run_summary df Hwf Hlen :=
  repeat
    match goal with
    | Hg : ?a = inr _ |- context [mbind _ ?a] =>
        rewrite Hg; cbn [mbind result_bind mret result_ret]
    | Hh : has_column df ?n = false |- context [getitem df ?n] =>
        rewrite (column_missing df n Hh);
        cbn [mbind result_bind mret result_ret]
    | Hh : has_column df ?n = true |- context [getitem df ?n] =>
        let c := fresh "c" in
        let Hg := fresh "Hg" in
        destruct (column_ready df n Hwf Hlen Hh)
          as (c & ? & ? & Hg & _ & ? & ?);
        rewrite Hg; cbn [mbind result_bind mret result_ret]
    | |- context [if has_column df ?n && has_column df ?n' then _ else _] =>
        destruct (has_column df n) eqn:?, (has_column df n') eqn:?;
        cbn [andb mbind result_bind mret result_ret]
    | |- context [if has_column df ?n then _ else _] =>
        destruct (has_column df n) eqn:?;
        cbn [mbind result_bind mret result_ret]
    | |- context [if negb (isna ?v) && negb (isna ?w) then _ else _] =>
        destruct (negb (isna v) && negb (isna w));
        cbn [mbind result_bind mret result_ret]
    | |- context [if negb (isna ?v) then _ else _] =>
        destruct (negb (isna v)); cbn [mbind result_bind mret result_ret]
    | |- context [if (1 <? df_len df)%nat then _ else _] =>
        destruct (1 <? df_len df)%nat;
        cbn [mbind result_bind mret result_ret]
    end.

Lemma summary_cases (df : DataFrame) :
  well_formed df = true ->
  match df_Date df with
  | None => create_financial_summary df = inl (KeyError "Date")
  | Some dates =>
      match dates_min dates with
      | None => create_financial_summary df = inl ValueError
      | Some _ =>
          match first_missing df with
          | Some name => create_financial_summary df = inl (KeyError name)
          | None => exists summary, create_financial_summary df = inr summary
          end
      end
  end.
Proof.
  intros Hwf. unfold create_financial_summary, getitem_Date.
  destruct (df_Date df) as [dates|] eqn:HD; [|reflexivity].
  cbn [mbind result_bind mret result_ret].
  destruct (dates_min dates) as [d|] eqn:Hmin; [|reflexivity].
  destruct (dates_max_of_min dates d Hmin) as (d' & Hmax & Hin).
  rewrite Hmax. cbn [strftime mbind result_bind mret result_ret].
  assert (0 < df_len df)%nat as Hlen.
  { rewrite <- (well_formed_Date df dates Hwf HD).
    destruct dates; [destruct Hin | simpl; lia]. }
  unfold first_missing. cbn [List.find].
  destruct (has_column df "Low") eqn:HLow; cbn [negb];
    [|run_summary df Hwf Hlen; reflexivity].
  destruct (has_column df "High") eqn:HHigh; cbn [negb];
    [|run_summary df Hwf Hlen; reflexivity].
  destruct (has_column df "Close") eqn:HClose; cbn [negb];
    [|run_summary df Hwf Hlen; reflexivity].
  assert (exists close v,
             getitem df "Close" = inr close /\
             iloc_first (select (map (date_is (Some d')) dates) close)
             = inr v) as (close & v & Hgc & Hsel).
  { destruct (column_ready df "Close" Hwf Hlen HClose)
      as (close & _ & _ & Hg & Hl & _ & _).
    destruct (select_latest_nonempty dates d' close Hin) as [v Hv].
    { rewrite (well_formed_column df "Close" close Hwf Hl).
      symmetry. now apply well_formed_Date. }
    eauto. }
  assert (exists u w, iloc_first close = inr u /\ iloc_last close = inr w)
    as (u & w & Hu & Hw).
  { destruct (iloc_nonempty close) as [[u Hu] [w Hw]]; [|eauto].
    eapply select_source_nonempty, Hsel. }
  destruct (has_column df "Volume") eqn:HVolume; cbn [negb];
    run_summary df Hwf Hlen; try reflexivity; eauto.
Qed.

End SummaryExceptions.

(** ** Scores and verdicts *)

(** ** Scores and their sums *)

Section ScoreFacts.

Variable sent_tokenize : string -> result (list string).
Variable SentimentIntensityAnalyzer : result analyzer.

Lemma is_zero_spec (x : binary64) : is_zero x = true <-> x = 0%float.
Proof. apply FloatAxioms.Leibniz.eqb_spec. Qed.

Lemma outcome_score (o : binary64 * string) :
  In o all_outcomes -> In (fst o) all_scores.
Proof.
  unfold all_outcomes, rule_outcomes, all_scores. simpl. intros H.
  repeat (destruct H as [<-|H]; [simpl; auto 10|]). destruct H.
Qed.


Lemma extract_at_most_15 (narrative : string) (out : stdout) :
  length (fst (extract_factual_claims sent_tokenize narrative out)) <= 15.
Proof.
  unfold extract_factual_claims, extract_body.
  destruct (sent_tokenize narrative); simpl; [lia|].
  apply firstn_le_length.
Qed.

(** What [check_narrative_consistency] returns, in terms of the checks. *)
Lemma check_returns (narrative : string) (df : DataFrame) (out : stdout) :
  let claims := fst (extract_factual_claims sent_tokenize narrative out) in
  let checks :=
    map (fun claim =>
           fst (verify_claim_against_data SentimentIntensityAnalyzer claim
                  df []))
        claims in
  let score :=
    match checks with
    | [] => 0%float
    | _ => (sum_scores checks / of_nat (length checks))%float
    end in
  fst (check_narrative_consistency sent_tokenize SentimentIntensityAnalyzer
         narrative df out) =
  inr (<["overall_score" := Float score]>
         (<["checked_claims" := Int (Z.of_nat (length checks))]>
            (<["claim_checks" := Checks checks]> ∅)), score).
Proof.
  cbv zeta. unfold check_narrative_consistency. cbv zeta.
  rewrite verify_claims_map. reflexivity.
Qed.

(** What the checks on the sums say. *)
Lemma mean_ok_facts (n : nat) (d s : binary64) :
  n <> 0 -> mean_ok n d s = true ->
  (0 <=? s / d)%float = true /\ (s / d <=? 1)%float = true /\
  (0 <=? s / d * 100)%float = true /\ (s / d * 100 <=? 100)%float = true /\
  ((s / d)%float = 0%float <-> s = 0%float).
Proof.
  intros Hn. unfold mean_ok. destruct n as [|n]; [congruence|]. cbv zeta.
  intros H. apply andb_true_iff in H. destruct H as [H _].
  repeat (let H' := fresh in
          apply andb_true_iff in H; destruct H as [H H']).
  repeat split; try assumption; intros Hz.
  - apply is_zero_spec. apply is_zero_spec in Hz.
    match goal with
    | Hi : implb (is_zero (s / d)) _ = true |- _ =>
        rewrite Hz in Hi; exact Hi
    end.
  - apply is_zero_spec. apply is_zero_spec in Hz.
    match goal with
    | Hi : implb (is_zero s) _ = true |- _ => rewrite Hz in Hi; exact Hi
    end.
Qed.

Lemma mean_ok_step (n : nat) (d s x : binary64) :
  mean_ok n d s = true -> In x all_scores -> (s + x)%float = 0%float ->
  s = 0%float /\ x = 0%float.
Proof.
  unfold mean_ok. intros H Hx Hz.
  apply andb_true_iff in H. destruct H as [_ H].
  rewrite List.forallb_forall in H. specialize (H x Hx).
  apply is_zero_spec in Hz. rewrite Hz in H. cbn [implb] in H.
  apply andb_true_iff in H. destruct H as [Hs Hx0].
  split; now apply is_zero_spec.
Qed.

Lemma sum_of_zeros (l : list binary64) :
  List.Forall (fun x => x = 0%float) l ->
  fold_left PrimFloat.add l 0%float = 0%float.
Proof.
  induction 1 as [|x l Hx _ IH]; [reflexivity|].
  cbn [fold_left]. rewrite Hx. exact IH.
Qed.

(** A sum of at most fifteen scores is zero only when every score is. *)
Lemma sum_zero (l : list binary64) :
  List.Forall (fun x => In x all_scores) l -> length l <= 15 ->
  fold_left PrimFloat.add l 0%float = 0%float ->
  List.Forall (fun x => x = 0%float) l.
Proof.
  induction l as [|x l IH] using rev_ind; intros Hl Hn Hz; [constructor|].
  apply List.Forall_app in Hl. destruct Hl as [Hl Hx].
  rewrite length_app in Hn. cbn [length] in Hn.
  rewrite fold_left_app in Hz. cbn [fold_left] in Hz.
  destruct (mean_ok_step (length l) (of_nat (length l))
              (fold_left PrimFloat.add l 0%float) x) as [Hs Hx0].
  - apply (sum_checked all_scores mean_ok);
      [exact all_sums_checked | exact Hl | lia].
  - now inversion Hx.
  - exact Hz.
  - apply List.Forall_app. split; [apply IH; [exact Hl | lia | exact Hs]|].
    now repeat constructor.
Qed.

(** The checks of a report: at most fifteen, each with a score of the
    list. *)
Lemma checks_scores (claims : list Claim) (df : DataFrame) :
  List.Forall (fun x => In x all_scores)
    (map consistency_score
       (map (fun claim =>
               fst (verify_claim_against_data SentimentIntensityAnalyzer
                      claim df []))
            claims)).
Proof.
  apply List.Forall_forall. intros x Hx. rewrite map_map in Hx.
  apply in_map_iff in Hx. destruct Hx as [c [<- _]].
  apply (outcome_score (outcome _)), verify_outcome.
Qed.

Lemma report_mean_checked (narrative : string) (df : DataFrame)
    (out : stdout) :
  let checks :=
    map (fun claim =>
           fst (verify_claim_against_data SentimentIntensityAnalyzer claim
                  df []))
        (fst (extract_factual_claims sent_tokenize narrative out)) in
  mean_ok (length checks) (of_nat (length checks)) (sum_scores checks)
  = true.
Proof.
  cbv zeta. unfold sum_scores.
  rewrite <- (length_map consistency_score) at 1 2.
  apply (sum_checked all_scores mean_ok);
    [exact all_sums_checked | apply checks_scores|].
  rewrite !length_map. apply extract_at_most_15.
Qed.

(** Splits a hypothesis [In x l], for a literal list [l] of outcomes,
    into the equations of the score and of the verdict. *)
Ltac outcome_cases H :=
  unfold all_outcomes, rule_outcomes, outcome in H; simpl in H;
  repeat (let H' := fresh in
          let Hs := fresh in
          let Hv := fresh in
          destruct H as [H'|H];
          [injection H' as Hs Hv; rewrite <- ?Hs, <- ?Hv|]);
  [..|destruct H].

(** Decides a statement on literal scores and verdicts. *)
Ltac literal_scores :=
  repeat match goal with
         | |- _ /\ _ => split
         | |- _ <-> _ => split
         | |- _ -> _ => intro
         end;
  try discriminate; try reflexivity;
  try match goal with
      | H : @eq PrimFloat.float _ _ |- _ =>
          apply FloatAxioms.Leibniz.eqb_spec in H; vm_compute in H;
          discriminate
      | H : @eq bool _ _ |- _ => vm_compute in H; discriminate
      | H : _ \/ _ |- _ => destruct H; discriminate
      end.

Lemma verify_zero_iff_error (claim : Claim) (df : DataFrame) (out : stdout) :
  let r := fst (verify_claim_against_data SentimentIntensityAnalyzer claim
                  df out) in
  consistency_score r = 0%float <-> verification_result r = "error".
Proof.
  cbv zeta.
  pose proof (verify_outcome SentimentIntensityAnalyzer claim df out) as H.
  outcome_cases H; literal_scores.
Qed.

Lemma verify_score (claim : Claim) (df : DataFrame) (out : stdout) :
  let r := fst (verify_claim_against_data SentimentIntensityAnalyzer claim
                  df out) in
  (0 <=? consistency_score r)%float = true /\
  (consistency_score r <=? 1)%float = true.
Proof.
  cbv zeta.
  pose proof (verify_outcome SentimentIntensityAnalyzer claim df out) as H.
  outcome_cases H; literal_scores.
Qed.

End ScoreFacts.

(** ** The claims *)

Section Claims.

Variable sent_tokenize : string -> result (list string).
Variable SentimentIntensityAnalyzer : result analyzer.


(** C2, as amended: for a claim of type price or price_trend, when the
    analyzer is built and the summary and the metrics are computed
    without an exception, the numeric tokens are processed in order until
    the first one that lies in [price_min*0.9, price_max*1.1] or in
    [price_min*0.7, price_max*1.3], the bounds being the binary64
    products; that token decides: score 0.9 and "verified" in the first
    case, score 0.7 and "partially verified" otherwise.  When no token
    lies in either band the result is score 0.2 and "contradicted" if the
    claim has a numeric token, and the default (0.5, "unverified") if it
    has none. *)
Theorem price_rule_first_accepted
    (claim : Claim) (df : DataFrame) (out : stdout) (sia : analyzer)
    (summary : list SummaryLine) (m : Metrics) :
  claim_type claim = "price_claim" \/ claim_type claim = "price_trend_claim" ->
  SentimentIntensityAnalyzer = inr sia ->
  create_financial_summary df = inr summary ->
  key_metrics df = inr m ->
  exists values,
    Forall2 (fun tok v => float tok = inr v)
            (findall numbers_regex (claim_text claim)) values /\
    outcome (fst (verify_claim_against_data SentimentIntensityAnalyzer claim
                    df out)) =
    price_verdict (price_min m) (price_max m) values.
Proof.
  intros Htype Ha Hs Hm.
  destruct (tokens_values (findall numbers_regex (claim_text claim)))
    as [values Hvalues].
  { intros tok. apply extracted_numbers_float. }
  exists values. split; [exact Hvalues|].
  destruct (price_loop_verdict (price_min m) (price_max m) _ _
              default_finding Hvalues) as [f [Hf Hout]].
  rewrite (verify_finding SentimentIntensityAnalyzer claim df out sia
             summary m f Ha Hs Hm).
  2:{ now rewrite apply_rules_price. }
  unfold outcome, price_verdict. simpl. rewrite <- surjective_pairing.
  exact Hout.
Qed.

(** C8, as amended: for a claim of type percentage or percentage_trend,
    when the analyzer is built and the summary and the metrics are
    computed without an exception, the percentage tokens are processed in
    order until the first one whose distance to the absolute value of
    price_change_pct, as binary64 computes it, is at most 5 points; that
    token decides: score 0.95 and "verified" if the distance is at most 2
    points, score 0.7 and "partially verified" otherwise.  When no token
    is within 5 points the result is score 0.3 and "contradicted" if the
    claim has a percentage token, and the default (0.5, "unverified") if
    it has none. *)
Theorem percentage_rule_first_accepted
    (claim : Claim) (df : DataFrame) (out : stdout) (sia : analyzer)
    (summary : list SummaryLine) (m : Metrics) :
  claim_type claim = "percentage_claim"
  \/ claim_type claim = "percentage_trend_claim" ->
  SentimentIntensityAnalyzer = inr sia ->
  create_financial_summary df = inr summary ->
  key_metrics df = inr m ->
  exists values,
    Forall2 (fun tok v => float tok = inr v)
            (findall percentages_regex (claim_text claim)) values /\
    outcome (fst (verify_claim_against_data SentimentIntensityAnalyzer claim
                    df out)) =
    percentage_verdict (price_change_pct m) values.
Proof.
  intros Htype Ha Hs Hm.
  destruct (tokens_values (findall percentages_regex (claim_text claim)))
    as [values Hvalues].
  { intros tok. apply extracted_percentages_float. }
  exists values. split; [exact Hvalues|].
  destruct (percentage_loop_verdict (price_change_pct m) _ _
              default_finding Hvalues) as [f [Hf Hout]].
  rewrite (verify_finding SentimentIntensityAnalyzer claim df out sia
             summary m f Ha Hs Hm).
  2:{ now rewrite apply_rules_percentage. }
  unfold outcome, percentage_verdict. simpl. rewrite <- surjective_pairing.
  exact Hout.
Qed.

(** C7, as amended: for a claim of type date_specific, when the analyzer
    is built and the summary and the metrics are computed without an
    exception, the ISO date tokens of the claim text are compared as
    strings with the start and the end of the date range of the frame, as
    [strftime] writes them, in order, until one lies in the range: if
    some token lies in [start, end] the result is score 0.9 and
    "verified"; if the claim has date tokens and none lies in the range
    it is score 0.1 and "contradicted"; without a date token it is the
    default (0.5, "unverified"). *)
Theorem date_rule_some_date_in_period
    (claim : Claim) (df : DataFrame) (out : stdout) (sia : analyzer)
    (summary : list SummaryLine) (m : Metrics) :
  claim_type claim = "date_specific_claim" ->
  SentimentIntensityAnalyzer = inr sia ->
  create_financial_summary df = inr summary ->
  key_metrics df = inr m ->
  outcome (fst (verify_claim_against_data SentimentIntensityAnalyzer claim
                  df out)) =
  date_verdict (start_date m) (end_date m)
    (findall date_pattern (claim_text claim)).
Proof.
  intros Htype Ha Hs Hm.
  rewrite (verify_finding SentimentIntensityAnalyzer claim df out sia
             summary m
             (date_loop (start_date m) (end_date m)
                (findall date_pattern (claim_text claim)) default_finding)
             Ha Hs Hm).
  2:{ rewrite Htype. apply apply_rules_date. }
  unfold outcome, date_verdict. simpl. rewrite <- surjective_pairing.
  apply date_loop_verdict.
Qed.

(** C4, as amended: for a claim of type trend, when the analyzer is built
    and the summary and the metrics are computed without an exception,
    the claimed direction comes from the uptrend and downtrend keyword
    lists (substring match on the lower-cased text) and is compared with
    the first and the last close: a claimed rise with last_close >
    first_close, or a claimed fall with last_close not above first_close,
    gives score 0.9 and "verified"; anything else gives score 0.1 and
    "contradicted".  In particular a claim with a downward keyword and
    last_close < first_close is verified with score 0.9. *)
Theorem trend_rule_direction
    (claim : Claim) (df : DataFrame) (out : stdout) (sia : analyzer)
    (summary : list SummaryLine) (m : Metrics) :
  claim_type claim = "trend_claim" ->
  SentimentIntensityAnalyzer = inr sia ->
  create_financial_summary df = inr summary ->
  key_metrics df = inr m ->
  outcome (fst (verify_claim_against_data SentimentIntensityAnalyzer claim
                  df out)) =
    trend_verdict (claim_text claim) (first_close m) (last_close m) /\
  (any_in downtrend_words (lower (claim_text claim)) = true ->
   (last_close m <? first_close m)%float = true ->
   outcome (fst (verify_claim_against_data SentimentIntensityAnalyzer claim
                   df out)) =
   (0.9%float, "verified")).
Proof.
  intros Htype Ha Hs Hm.
  assert (outcome (fst (verify_claim_against_data
                          SentimentIntensityAnalyzer claim df out)) =
          trend_verdict (claim_text claim) (first_close m) (last_close m))
    as Hout.
  { rewrite (verify_finding SentimentIntensityAnalyzer claim df out sia
               summary m (trend_rule (claim_text claim) m) Ha Hs Hm).
    2:{ rewrite Htype. apply apply_rules_trend. }
    unfold outcome. cbn [fst snd consistency_score verification_result].
    rewrite <- surjective_pairing.
    unfold trend_verdict, trend_rule. cbv zeta.
    rewrite (key_metrics_price_change df m Hm), sub_positive.
    now destruct (_ || _). }
  split; [exact Hout|].
  intros Hdown Hfall. rewrite Hout. unfold trend_verdict. cbv zeta.
  rewrite Hdown.
  assert ((first_close m <? last_close m)%float = false) as ->.
  { apply ltb_leb_false in Hfall.
    destruct (first_close m <? last_close m)%float eqn:Hup; [|reflexivity].
    apply ltb_leb in Hup. congruence. }
  now rewrite andb_false_r.
Qed.

(** C3: a sentence in which [percentage_pattern] finds a token is one in
    which [price_pattern] finds a token, and no claim that
    [extract_factual_claims] returns has the type percentage_claim or
    percentage_trend_claim. *)
Theorem percentage_branch_unreachable :
  (forall sentence,
      search percentage_pattern sentence = true ->
      search price_pattern sentence = true) /\
  (forall narrative out claim,
      In claim (fst (extract_factual_claims sent_tokenize narrative out)) ->
      claim_type claim <> "percentage_claim" /\
      claim_type claim <> "percentage_trend_claim").
Proof.
  split; [exact search_percentage_price|].
  intros narrative out claim. unfold extract_factual_claims, extract_body.
  destruct (sent_tokenize narrative) as [e|sentences]; simpl; [intros []|].
  rewrite collect_claims_omap. simpl. intros H.
  apply firstn_keeps, omap_claims_in in H. destruct H as (s & _ & Hs).
  apply claim_of_sentence_spec in Hs.
  destruct Hs as (_ & _ & Hp & Ht & _). now split.
Qed.

(** C6: for every narrative, extraction returns at most 15 claims, their
    texts are sentences of the narrative in the order of the sentences,
    each claim has a non-empty text and a type of the fixed enumeration,
    and no returned claim starts with [#] or contains "disclaimer" or
    "note:" once lower-cased.  When the tokenizer raises, no claim is
    returned. *)
Theorem extraction_contract (narrative : string) (out : stdout) :
  let claims := fst (extract_factual_claims sent_tokenize narrative out) in
  length claims <= 15 /\
  (forall sentences,
      sent_tokenize narrative = inr sentences ->
      sublist (map claim_text claims) sentences) /\
  (forall e, sent_tokenize narrative = inl e -> claims = []) /\
  List.Forall
    (fun claim =>
       claim_text claim <> "" /\
       In (claim_type claim) claim_types /\
       startswith (claim_text claim) "#" = false /\
       str_in "disclaimer" (lower (claim_text claim)) = false /\
       str_in "note:" (lower (claim_text claim)) = false)
    claims.
Proof.
  cbv zeta. unfold extract_factual_claims, extract_body.
  destruct (sent_tokenize narrative) as [e|sentences]; simpl.
  { repeat split; try lia; try discriminate; auto. }
  rewrite collect_claims_omap. simpl.
  split; [apply firstn_le_length|].
  split.
  { intros ? [= <-]. rewrite <- firstn_map.
    etransitivity; [apply firstn_sublist | apply omap_claims_sublist]. }
  split; [discriminate|].
  apply List.Forall_forall. intros claim H.
  apply firstn_keeps, omap_claims_in in H. destruct H as (s & _ & Hs).
  apply claim_of_sentence_spec in Hs.
  destruct Hs as (-> & Htype & _ & _ & Hex & Hne).
  unfold excluded in Hex.
  apply orb_false_iff in Hex. destruct Hex as [Hex Hnote].
  apply orb_false_iff in Hex. destruct Hex as [Hhash Hdis].
  auto.
Qed.


(** C9: every result of [verify_claim_against_data] has a score between 0
    and 1, and every report of [check_narrative_consistency] has an
    overall_score between 0 and 1 and a checked_claims equal to the
    length of its claim_checks. *)
Theorem scores_in_unit_interval :
  (forall claim df out,
      let r := fst (verify_claim_against_data SentimentIntensityAnalyzer
                      claim df out) in
      (0 <=? consistency_score r)%float = true /\
      (consistency_score r <=? 1)%float = true) /\
  (forall narrative df out,
      exists report score checks,
        fst (check_narrative_consistency sent_tokenize
               SentimentIntensityAnalyzer narrative df out)
        = inr (report, score) /\
        report !! "overall_score" = Some (Float score) /\
        ((0 <=? score)%float = true /\ (score <=? 1)%float = true) /\
        report !! "claim_checks" = Some (Checks checks) /\
        report !! "checked_claims" = Some (Int (Z.of_nat (length checks)))).
Proof.
  split; [apply verify_score|].
  intros narrative df out.
  pose proof (check_returns sent_tokenize SentimentIntensityAnalyzer
                narrative df out) as Hc.
  pose proof (report_mean_checked sent_tokenize SentimentIntensityAnalyzer
                narrative df out) as Hok.
  cbv zeta in Hc, Hok.
  set (checks :=
         map (fun claim =>
                fst (verify_claim_against_data SentimentIntensityAnalyzer
                       claim df []))
             (fst (extract_factual_claims sent_tokenize narrative out)))
    in *.
  eexists _, _, checks. split; [exact Hc|].
  rewrite_report_lookups.
  split; [reflexivity|].
  split; [|split; reflexivity].
  destruct checks as [|c l] eqn:Hl; [split; reflexivity|].
  rewrite <- Hl in *.
  apply mean_ok_facts in Hok; [|rewrite Hl; discriminate].
  split; apply Hok.
Qed.

End Claims.

(** ** The claims on concrete inputs *)

Section Scenarios.

(** The frames of the scenarios are frames pandas can hold. *)
Lemma frames_well_formed :
  forallb (fun df => well_formed df && valid_dates df)
    [frame_2022; frame_2023; frame_rise; frame_fall; frame_flat;
     frame_999; frame_low_13; frame_seven; frame_without_volume] = true.
Proof. vm_compute. reflexivity. Qed.

(** Replaces the summary and the metrics of a concrete frame by their
    values, keeping the equations. *)
Ltac frame_facts df summary m Hs Hm :=
  destruct (create_financial_summary df) as [?|summary] eqn:Hs;
    [vm_compute in Hs; discriminate|];
  destruct (key_metrics df) as [?|m] eqn:Hm;
    [vm_compute in Hm; discriminate|];
  let Hm' := fresh in
  pose proof Hm as Hm'; vm_compute in Hm'; injection Hm' as <-.



(** C2 fails as stated: the first numeric token, 1000, lies outside both
    bands of the range 140 to 160, and the claim is verified all the same
    by its second token. *)
Lemma later_price_decides :
  findall numbers_regex two_prices_sentence = ["1000"; "150"] /\
  float "1000" = inr 1000%float /\
  narrow_band 140 160 1000 = false /\
  wide_band 140 160 1000 = false /\
  verify_claim_against_data lexicon_installed
    (mkclaim two_prices_sentence "price_claim") frame_2022 [] =
  (mkresult two_prices_sentence "price_claim" 0.9 "verified"
     (PriceWithin 150 140 160), []).
Proof. repeat (split; [vm_compute; reflexivity|]). vm_compute. reflexivity. Qed.

(** Scenario 1, by [price_rule_first_accepted]. *)
Lemma recorded_price_verified :
  findall numbers_regex price_sentence = ["150.00"] /\
  outcome (fst (verify_claim_against_data lexicon_installed
                  (mkclaim price_sentence "price_claim") frame_2022 [])) =
  (0.9%float, "verified").
Proof.
  assert (findall numbers_regex price_sentence = ["150.00"]) as Htokens
    by (vm_compute; reflexivity).
  split; [exact Htokens|].
  frame_facts frame_2022 summary m Hs Hm.
  destruct (price_rule_first_accepted lexicon_installed
              (mkclaim price_sentence "price_claim") frame_2022 []
              neutral summary _ (or_introl eq_refl) eq_refl Hs Hm)
    as (values & Hvalues & ->).
  cbn [claim_text] in Hvalues. rewrite Htokens in Hvalues.
  inversion Hvalues as [|tok v toks vs Hv Hrest]; subst.
  inversion Hrest; subst.
  vm_compute in Hv. injection Hv as <-.
  vm_compute. reflexivity.
Defined.

(** C8 fails as stated: the first percentage token, 40, is 29.5 points
    from the change of 10.5 percent, and the claim is verified all the
    same by its second token. *)
Lemma later_percentage_decides :
  findall percentages_regex two_percentages_sentence = ["40"; "12"] /\
  (m ← key_metrics frame_rise;
   mret (pct_gap (price_change_pct m) 40 <=? 5)%float) = inr false /\
  outcome (fst (verify_claim_against_data lexicon_installed
                  (mkclaim two_percentages_sentence "percentage_claim")
                  frame_rise [])) =
  (0.95%float, "verified").
Proof. repeat (split; [vm_compute; reflexivity|]). vm_compute. reflexivity. Qed.

(** Scenario 2, by [percentage_rule_first_accepted]. *)
Lemma twelve_percent_verified :
  findall percentages_regex percentage_sentence = ["12"] /\
  outcome (fst (verify_claim_against_data lexicon_installed
                  (mkclaim percentage_sentence "percentage_trend_claim")
                  frame_rise [])) =
  (0.95%float, "verified").
Proof.
  assert (findall percentages_regex percentage_sentence = ["12"]) as Htokens
    by (vm_compute; reflexivity).
  split; [exact Htokens|].
  frame_facts frame_rise summary m Hs Hm.
  destruct (percentage_rule_first_accepted lexicon_installed
              (mkclaim percentage_sentence "percentage_trend_claim")
              frame_rise [] neutral summary _ (or_intror eq_refl) eq_refl
              Hs Hm)
    as (values & Hvalues & ->).
  cbn [claim_text] in Hvalues. rewrite Htokens in Hvalues.
  inversion Hvalues as [|tok v toks vs Hv Hrest]; subst.
  inversion Hrest; subst.
  vm_compute in Hv. injection Hv as <-.
  vm_compute. reflexivity.
Defined.

(** C7 fails as stated: the date 2021-12-31 of the claim lies outside the
    range of the frame, and the claim is verified by its other date. *)
Lemma date_outside_yet_verified :
  findall date_pattern two_dates_sentence = ["2021-12-31"; "2022-06-15"] /\
  (m ← key_metrics frame_2022; mret (start_date m, end_date m)) =
    inr ("2022-01-01", "2022-12-31") /\
  in_period "2022-01-01" "2022-12-31" "2021-12-31" = false /\
  outcome (fst (verify_claim_against_data lexicon_installed
                  (mkclaim two_dates_sentence "date_specific_claim")
                  frame_2022 [])) =
  (0.9%float, "verified").
Proof. repeat (split; [vm_compute; reflexivity|]). vm_compute. reflexivity. Qed.

(** Scenario 3, by [date_rule_some_date_in_period]. *)
Lemma dated_claim_in_and_out_of_period :
  outcome (fst (verify_claim_against_data lexicon_installed
                  (mkclaim date_sentence "date_specific_claim")
                  frame_2022 [])) =
  (0.9%float, "verified") /\
  outcome (fst (verify_claim_against_data lexicon_installed
                  (mkclaim date_sentence "date_specific_claim")
                  frame_2023 [])) =
  (0.1%float, "contradicted").
Proof.
  split.
  - frame_facts frame_2022 summary m Hs Hm.
    rewrite (date_rule_some_date_in_period lexicon_installed
               (mkclaim date_sentence "date_specific_claim") frame_2022 []
               neutral summary _ eq_refl eq_refl Hs Hm).
    vm_compute. reflexivity.
  - frame_facts frame_2023 summary m Hs Hm.
    rewrite (date_rule_some_date_in_period lexicon_installed
               (mkclaim date_sentence "date_specific_claim") frame_2023 []
               neutral summary _ eq_refl eq_refl Hs Hm).
    vm_compute. reflexivity.
Defined.

(** C4 fails as stated: the close ends where it started, so there is no
    fall, and the claim of a downward trend is verified all the same. *)
Lemma flat_close_verifies_fall :
  (m ← key_metrics frame_flat; mret (first_close m, last_close m)) =
    inr (150%float, 150%float) /\
  (150 <? 150)%float = false /\
  any_in uptrend_words (lower downward_sentence) = false /\
  any_in downtrend_words (lower downward_sentence) = true /\
  outcome (fst (verify_claim_against_data lexicon_installed
                  (mkclaim downward_sentence "trend_claim") frame_flat [])) =
  (0.9%float, "verified").
Proof. repeat (split; [vm_compute; reflexivity|]). vm_compute. reflexivity. Qed.

(** Scenario 4, by [trend_rule_direction]. *)
Lemma falling_close_verifies_downward :
  any_in downtrend_words (lower downward_sentence) = true /\
  (m ← key_metrics frame_fall; mret (last_close m <? first_close m)%float) =
    inr true /\
  outcome (fst (verify_claim_against_data lexicon_installed
                  (mkclaim downward_sentence "trend_claim") frame_fall [])) =
  (0.9%float, "verified").
Proof.
  split; [vm_compute; reflexivity|].
  split; [vm_compute; reflexivity|].
  frame_facts frame_fall summary m Hs Hm.
  apply (trend_rule_direction lexicon_installed
           (mkclaim downward_sentence "trend_claim") frame_fall []
           neutral summary _ eq_refl eq_refl Hs Hm); vm_compute; reflexivity.
Defined.

(** [percentage_branch_unreachable] on the sentence of scenario 2: it has
    a percentage token, hence a number token, and it is extracted as a
    price_trend claim. *)
Lemma percentage_sentence_is_price_claim :
  search percentage_pattern percentage_sentence = true /\
  search price_pattern percentage_sentence = true /\
  fst (extract_factual_claims one_sentence percentage_sentence []) =
  [mkclaim percentage_sentence "price_trend_claim"].
Proof.
  split; [vm_compute; reflexivity|].
  split; [|vm_compute; reflexivity].
  apply (proj1 (percentage_branch_unreachable one_sentence)).
  vm_compute. reflexivity.
Defined.


(** The rounding of binary64 decides: 13 * 0.9 is the value above 11.7,
    so the token 11.7 is outside the narrow band of a lowest price of 13;
    and a close from 100 to 107 is a change of 7.000000000000001 percent,
    more than 2 points from a claimed 5. *)
Lemma rounding_decides :
  float "11.7" = inr 11.7%float /\
  (13 * 0.9)%float = 11.700000000000001%float /\
  outcome (fst (verify_claim_against_data lexicon_installed
                  (mkclaim low_price_sentence "price_claim")
                  frame_low_13 [])) =
  (0.7%float, "partially verified") /\
  (m ← key_metrics frame_seven;
   mret (price_change_pct m, pct_gap (price_change_pct m) 5)) =
    inr (7.000000000000001%float, 2.000000000000001%float) /\
  outcome (fst (verify_claim_against_data lexicon_installed
                  (mkclaim five_percent_sentence "percentage_claim")
                  frame_seven [])) =
  (0.7%float, "partially verified").
Proof. repeat (split; [vm_compute; reflexivity|]). vm_compute. reflexivity. Qed.

(** The dates are compared as text: the year 999 is written with three
    digits, so the date 0999-06-15 of a claim, a day of the period, is
    not between the bounds. *)
Lemma early_year_compared_as_text :
  (m ← key_metrics frame_999; mret (start_date m, end_date m)) =
    inr ("999-01-01", "999-12-31") /\
  findall date_pattern early_date_sentence = ["0999-06-15"] /\
  in_period "999-01-01" "999-12-31" "0999-06-15" = false /\
  outcome (fst (verify_claim_against_data lexicon_installed
                  (mkclaim early_date_sentence "date_specific_claim")
                  frame_999 [])) =
  (0.1%float, "contradicted").
Proof. repeat (split; [vm_compute; reflexivity|]). vm_compute. reflexivity. Qed.

End Scenarios.

(** ** When verification gives the error result *)

Section ErrorOrOutcome.

Variable SentimentIntensityAnalyzer : result analyzer.

(** X1: [verify_claim_against_data] gives the error result exactly when
    the analyzer cannot be built or [create_financial_summary] raises:
    then the result is the error result for the first of these
    exceptions and one line is printed; otherwise nothing is printed and
    the outcome is one of the eight outcomes of the rules, none of which
    is the error outcome. *)
Theorem error_result_exactly_when_preamble_raises
    (claim : Claim) (df : DataFrame) (out : stdout) :
  match preamble SentimentIntensityAnalyzer df with
  | inl e =>
      verify_claim_against_data SentimentIntensityAnalyzer claim df out =
      (error_result claim e, out ++ [ErrorVerifying e])
  | inr _ =>
      snd (verify_claim_against_data SentimentIntensityAnalyzer claim df out)
      = out /\
      In (outcome (fst (verify_claim_against_data SentimentIntensityAnalyzer
                          claim df out)))
         rule_outcomes /\
      verification_result
        (fst (verify_claim_against_data SentimentIntensityAnalyzer claim df
                out)) <> "error"
  end.
Proof.
  pose proof (verify_cases SentimentIntensityAnalyzer claim df out) as H.
  destruct (preamble SentimentIntensityAnalyzer df) as [e|p]; [exact H|].
  destruct H as [Hout Hin]. split; [exact Hout|]. split; [exact Hin|].
  unfold rule_outcomes, outcome in Hin. simpl in Hin.
  repeat (destruct Hin as [Hin|Hin];
          [injection Hin as _ <-; discriminate|]).
  destruct Hin.
Qed.

End ErrorOrOutcome.

(** ** Scores and verdicts *)

Section ScoresAndVerdicts.

Variable sent_tokenize : string -> result (list string).
Variable SentimentIntensityAnalyzer : result analyzer.

(** What each of the nine outcomes says on its score. *)
Lemma outcome_ranges (score : binary64) (verdict : string) :
  In (score, verdict) all_outcomes ->
  (score = 0%float <-> verdict = "error") /\
  ((0.9 <=? score)%float = true <-> verdict = "verified") /\
  (verdict = "contradicted" \/ verdict = "partially contradicted" ->
   (0.1 <=? score)%float = true /\ (score <=? 0.3)%float = true) /\
  (verdict = "partially verified" -> score = 0.7%float) /\
  (verdict = "unverified" -> score = 0.5%float).
Proof.
  intros H. unfold all_outcomes, rule_outcomes in H. simpl in H.
  repeat (destruct H as [H|H]; [injection H as <- <-|]); [..|destruct H].
  all: repeat match goal with
              | |- _ /\ _ => split
              | |- _ <-> _ => split
              | |- _ \/ _ -> _ => intros [H|H]
              | |- _ -> _ => intros H
              end.
  all: try discriminate; try reflexivity.
  all: try (apply FloatAxioms.Leibniz.eqb_spec in H; vm_compute in H;
            discriminate).
  all: vm_compute in H; discriminate.
Qed.

(** X3: the verdict of a verification result fixes the range of its
    score: the score is 0 exactly for the verdict "error", at least 0.9
    exactly for "verified", between 0.1 and 0.3 for "contradicted" and
    for "partially contradicted", 0.7 for "partially verified" and 0.5
    for "unverified". *)
Theorem verdict_fixes_score_range
    (claim : Claim) (df : DataFrame) (out : stdout) :
  let r := fst (verify_claim_against_data SentimentIntensityAnalyzer claim
                  df out) in
  In (outcome r) all_outcomes /\
  (consistency_score r = 0%float <-> verification_result r = "error") /\
  ((0.9 <=? consistency_score r)%float = true
   <-> verification_result r = "verified") /\
  (verification_result r = "contradicted" \/
   verification_result r = "partially contradicted" ->
   (0.1 <=? consistency_score r)%float = true /\
   (consistency_score r <=? 0.3)%float = true) /\
  (verification_result r = "partially verified" ->
   consistency_score r = 0.7%float) /\
  (verification_result r = "unverified" ->
   consistency_score r = 0.5%float).
Proof.
  cbv zeta.
  pose proof (verify_outcome SentimentIntensityAnalyzer claim df out) as H.
  split; [exact H|].
  now apply outcome_ranges.
Qed.


(** X4: the overall score of a report is 0 exactly when every claim check
    of the report is an error result (in particular when there is
    none). *)
Theorem overall_zero_iff_all_errors
    (narrative : string) (df : DataFrame) (out : stdout) :
  exists report score checks,
    fst (check_narrative_consistency sent_tokenize
           SentimentIntensityAnalyzer narrative df out)
    = inr (report, score) /\
    report !! "claim_checks" = Some (Checks checks) /\
    report !! "overall_score" = Some (Float score) /\
    (score = 0%float <->
     List.Forall (fun r => verification_result r = "error") checks).
Proof.
  pose proof (check_returns sent_tokenize SentimentIntensityAnalyzer
                narrative df out) as Hc.
  pose proof (report_mean_checked sent_tokenize SentimentIntensityAnalyzer
                narrative df out) as Hok.
  pose proof (extract_at_most_15 sent_tokenize narrative out) as Hlen.
  cbv zeta in Hc, Hok.
  set (claims := fst (extract_factual_claims sent_tokenize narrative out))
    in *.
  pose proof (checks_scores SentimentIntensityAnalyzer claims df) as Hsc.
  set (checks :=
         map (fun claim =>
                fst (verify_claim_against_data SentimentIntensityAnalyzer
                       claim df []))
             claims) in *.
  eexists _, _, checks. split; [exact Hc|].
  rewrite_lookups.
  split; [reflexivity|]. split; [reflexivity|].
  assert (List.Forall
            (fun r => consistency_score r = 0%float <->
                      verification_result r = "error") checks) as Hall.
  { apply List.Forall_forall. intros r Hr. subst checks.
    apply in_map_iff in Hr. destruct Hr as [c [<- _]].
    apply verify_zero_iff_error. }
  assert (sum_scores checks = 0%float <->
          List.Forall (fun r => verification_result r = "error") checks)
    as Hsum.
  { unfold sum_scores. split.
    - intros Hz. apply sum_zero in Hz; [|exact Hsc|].
      + rewrite List.Forall_forall in *. intros r Hr.
        apply Hall; [exact Hr|]. apply Hz. now apply in_map.
      + unfold checks. now rewrite !length_map.
    - intros Herr. apply sum_of_zeros.
      rewrite List.Forall_forall in *. intros x Hx.
      apply in_map_iff in Hx. destruct Hx as [r [<- Hr]].
      apply Hall; auto. }
  destruct checks as [|c l] eqn:Hl.
  { split; [constructor | reflexivity]. }
  rewrite <- Hl in *.
  apply mean_ok_facts in Hok; [|rewrite Hl; discriminate].
  destruct Hok as (_ & _ & _ & _ & Hzero).
  now rewrite Hzero.
Qed.


End ScoresAndVerdicts.

Section SummaryOrder.

(** X2: on a frame whose columns all have the length of the frame,
    [create_financial_summary] raises KeyError for Date when there is no
    Date column, else ValueError when the Date column has no valid date
    (as in a frame without rows), else KeyError for the first of Low,
    High, Close and Volume that is missing; with a valid date and the
    four columns it raises nothing. *)
Theorem summary_exception_order (df : DataFrame) :
  well_formed df = true ->
  match df_Date df with
  | None => create_financial_summary df = inl (KeyError "Date")
  | Some dates =>
      match dates_min dates with
      | None => create_financial_summary df = inl ValueError
      | Some _ =>
          match first_missing df with
          | Some name => create_financial_summary df = inl (KeyError name)
          | None => exists summary, create_financial_summary df = inr summary
          end
      end
  end.
Proof. apply summary_cases. Qed.

End SummaryOrder.

(** ** More on extraction *)

Section DigitsAndDates.

Lemma has_digit_append (a b : string) :
  has_digit (a ++ b)%string = has_digit a || has_digit b.
Proof.
  induction a as [|c a IH]; simpl; [reflexivity|].
  now rewrite IH, orb_assoc.
Qed.

(** A match of [date_pattern] starts with a digit. *)
Lemma date_pattern_starts (s : string) (a : alt) :
  match_at date_pattern s = Some a ->
  exists c rest, s = String c rest /\ is_digit c = true.
Proof.
  intros H. apply match_at_in, run_sound in H.
  destruct H as (pre & -> & u & v & -> & (Hlen & Hu) & _).
  destruct u as [|c u]; [discriminate|]. simpl in Hu.
  apply andb_true_iff in Hu. destruct Hu as [Hc _].
  simpl. eauto.
Qed.

Lemma search_date_price (s : string) :
  search date_pattern s = true -> search price_pattern s = true.
Proof.
  induction s as [|c s IH]; simpl.
  - destruct (match_at date_pattern "") as [a|] eqn:Hp; [|discriminate].
    apply date_pattern_starts in Hp.
    now destruct Hp as (c & rest & [=] & _).
  - destruct (match_at date_pattern (String c s)) as [a|] eqn:Hp.
    + intros _. apply date_pattern_starts in Hp.
      destruct Hp as (c' & rest & [= <- <-] & Hc).
      pose proof (price_pattern_at_digit c s Hc) as Hm.
      now destruct (match_at price_pattern (String c s)).
    + intros H. destruct (match_at price_pattern (String c s)); auto.
Qed.

(** [price_pattern] finds a token exactly in the texts with a digit. *)
Lemma search_price_has_digit (s : string) :
  search price_pattern s = has_digit s.
Proof.
  induction s as [|c s IH]; [reflexivity|].
  cbn [search].
  destruct (match_at price_pattern (String c s)) as [a|] eqn:Hm.
  - apply match_at_in, run_sound in Hm.
    destruct Hm as (pre & Hs & u & v & -> & _ & Hv).
    destruct Hv as (v1 & v2 & -> & (w1 & w2 & -> & (d & -> & Hd) & _) & _).
    rewrite Hs, !has_digit_append. simpl. rewrite Hd.
    now rewrite !orb_true_r.
  - rewrite IH. cbn [has_digit]. destruct (is_digit c) eqn:Hc; [|reflexivity].
    now destruct (price_pattern_at_digit c s Hc).
Qed.

Lemma flat_map_length_ext {A B C : Type} (f : A -> list B) (g : A -> list C)
    (l : list A) :
  (forall a, length (f a) = length (g a)) ->
  length (flat_map f l) = length (flat_map g l).
Proof.
  intros H. induction l as [|a l IH]; [reflexivity|].
  cbn [flat_map]. now rewrite !length_app, IH, H.
Qed.

Lemma run_cat_group_length (r0 r1 : regex) (s : string) :
  length (run (Cat r0 (Group r1)) s) = length (run (Cat r0 r1) s).
Proof.
  cbn [run]. apply flat_map_length_ext. intros a.
  now rewrite !length_map.
Qed.

(** Where [price_pattern] finds a token, [findall] with the pattern of
    the numbers lists one. *)
Lemma findall_numbers_nonempty (s : string) :
  search price_pattern s = true -> findall numbers_regex s <> [].
Proof.
  unfold findall. induction s as [|c s IH]; cbn [search findall_from].
  - destruct (match_at numbers_regex "") eqn:Hn; [discriminate|].
    destruct (match_at price_pattern "") eqn:Hp; [|discriminate].
    unfold match_at in *.
    pose proof (run_cat_group_length (Opt (Cls (is_char "$"))) number_body "")
      as Hlen.
    fold numbers_regex price_pattern in Hlen.
    destruct (run numbers_regex ""), (run price_pattern "");
      simpl in *; congruence.
  - destruct (match_at numbers_regex (String c s)) eqn:Hn; [discriminate|].
    destruct (match_at price_pattern (String c s)) eqn:Hp; [|exact IH].
    unfold match_at in *.
    pose proof (run_cat_group_length (Opt (Cls (is_char "$"))) number_body
                  (String c s)) as Hlen.
    fold numbers_regex price_pattern in Hlen.
    destruct (run numbers_regex (String c s)),
      (run price_pattern (String c s)); simpl in *; congruence.
Qed.

Lemma header_test (sentence : string) :
  startswith sentence "#" || startswith sentence "##"
  || startswith sentence "###" = startswith sentence "#".
Proof.
  unfold startswith. destruct sentence as [|c s]; [reflexivity|].
  cbn [String.prefix]. destruct (ascii_dec "#" c); [|reflexivity].
  assert (String.prefix "" s = true) as -> by now destruct s.
  reflexivity.
Qed.

(** A sentence with a digit that is not left out is a price claim. *)
Lemma claim_of_sentence_digit (sentence : string) :
  excluded sentence = false -> has_digit sentence = true ->
  claim_of_sentence sentence =
  Some (mkclaim sentence
          (if any_in trend_keywords (lower sentence)
           then "price_trend_claim" else "price_claim")).
Proof.
  unfold excluded, claim_of_sentence. intros Hex Hd.
  rewrite header_test.
  apply orb_false_iff in Hex. destruct Hex as [Hex Hnote].
  apply orb_false_iff in Hex. destruct Hex as [-> ->]. rewrite Hnote.
  cbn [orb]. now rewrite search_price_has_digit, Hd.
Qed.

(** The types a sentence can get, and which sentences get a price type. *)
Lemma claim_of_sentence_types (sentence : string) (claim : Claim) :
  claim_of_sentence sentence = Some claim ->
  In (claim_type claim) extracted_types /\
  (claim_type claim = "price_claim" \/ claim_type claim = "price_trend_claim"
   <-> has_digit (claim_text claim) = true).
Proof.
  intros H. unfold claim_of_sentence in H.
  destruct (startswith sentence "#" || startswith sentence "##"
            || startswith sentence "###"); [discriminate|].
  destruct (str_in "disclaimer" (lower sentence)
            || str_in "note:" (lower sentence)); [discriminate|].
  rewrite search_price_has_digit in H.
  destruct (has_digit sentence) eqn:Hd.
  { destruct (any_in trend_keywords (lower sentence));
      injection H as <-; cbn [claim_text claim_type]; rewrite Hd;
      unfold extracted_types; simpl; intuition. }
  destruct (search percentage_pattern sentence) eqn:Hpct.
  { apply search_percentage_price in Hpct.
    rewrite search_price_has_digit in Hpct. congruence. }
  destruct (search date_pattern sentence) eqn:Hdate.
  { apply search_date_price in Hdate.
    rewrite search_price_has_digit in Hdate. congruence. }
  repeat match type of H with
         | (if ?b then _ else _) = Some _ =>
             destruct b;
             [injection H as <-; cbn [claim_text claim_type]; rewrite Hd;
              unfold extracted_types; simpl;
              split; [auto 10 | split; [intros [?|?]|]; discriminate]|]
         end.
  discriminate.
Qed.

Lemma omap_claims_texts (sentences : list string) :
  map claim_text (omap claim_of_sentence sentences) = qualifying sentences.
Proof.
  unfold qualifying.
  induction sentences as [|s sentences IH]; simpl; [reflexivity|].
  destruct (claim_of_sentence s) as [c|] eqn:Hc; simpl; [|exact IH].
  apply claim_of_sentence_spec in Hc. destruct Hc as [-> _].
  f_equal. exact IH.
Qed.

End DigitsAndDates.

Section MoreOnClaims.

Variable sent_tokenize : string -> result (list string).
Variable SentimentIntensityAnalyzer : result analyzer.

(** X6: every claim the extractor returns has one of five types, never
    date_specific (nor a percentage type): a sentence with an ISO date
    has a digit, and the returned claims with a price type are exactly
    those whose text has a digit, whatever the digit stands for. *)
Theorem extracted_types_and_digits
    (narrative : string) (out : stdout) (claim : Claim) :
  In claim (fst (extract_factual_claims sent_tokenize narrative out)) ->
  In (claim_type claim) extracted_types /\
  (claim_type claim = "price_claim" \/ claim_type claim = "price_trend_claim"
   <-> has_digit (claim_text claim) = true).
Proof.
  unfold extract_factual_claims, extract_body.
  destruct (sent_tokenize narrative) as [e|sentences]; simpl; [intros []|].
  rewrite collect_claims_omap. simpl. intros H.
  apply firstn_keeps, omap_claims_in in H. destruct H as (s & _ & Hs).
  now apply claim_of_sentence_types in Hs.
Qed.

(** X7: when the tokenizer raises, extraction returns no claim and prints
    one line; otherwise it prints nothing and the texts of the claims are
    the first fifteen of the sentences that give a claim, so that later
    ones are dropped. *)
Theorem extraction_first_fifteen (narrative : string) (out : stdout) :
  match sent_tokenize narrative with
  | inl e =>
      extract_factual_claims sent_tokenize narrative out =
      ([], out ++ [ErrorExtracting e])
  | inr sentences =>
      snd (extract_factual_claims sent_tokenize narrative out) = out /\
      map claim_text
          (fst (extract_factual_claims sent_tokenize narrative out)) =
      firstn 15 (qualifying sentences)
  end.
Proof.
  unfold extract_factual_claims, extract_body.
  destruct (sent_tokenize narrative) as [e|sentences]; simpl;
    [reflexivity|].
  split; [reflexivity|].
  rewrite collect_claims_omap. simpl.
  now rewrite <- firstn_map, omap_claims_texts.
Qed.
(** X8: a claim the extractor returns whose text has a digit is never
    left unverified when the analyzer is built and the summary of the
    frame too: its outcome is (0.9, verified), (0.7, partially verified)
    or (0.2, contradicted). *)
Theorem extracted_price_claim_decided
    (narrative : string) (out out' : stdout) (claim : Claim)
    (df : DataFrame) (sia : analyzer) (summary : list SummaryLine) :
  In claim (fst (extract_factual_claims sent_tokenize narrative out)) ->
  has_digit (claim_text claim) = true ->
  SentimentIntensityAnalyzer = inr sia ->
  create_financial_summary df = inr summary ->
  In (outcome (fst (verify_claim_against_data SentimentIntensityAnalyzer
                      claim df out')))
     price_outcomes.
Proof.
  intros Hin Hd Ha Hs.
  assert (claim_type claim = "price_claim"
          \/ claim_type claim = "price_trend_claim") as Htype.
  { unfold extract_factual_claims, extract_body in Hin.
    destruct (sent_tokenize narrative) as [e|sentences]; simpl in Hin;
      [destruct Hin|].
    rewrite collect_claims_omap in Hin. simpl in Hin.
    apply firstn_keeps, omap_claims_in in Hin. destruct Hin as (s & _ & Hc).
    apply claim_of_sentence_types in Hc. now apply Hc. }
  destruct (summary_gives_metrics df summary Hs) as [m Hm].
  destruct (tokens_values (findall numbers_regex (claim_text claim)))
    as [values Hvalues]; [intros tok; apply extracted_numbers_float|].
  assert (values <> []) as Hne.
  { intros ->. inversion Hvalues as [Htok|]; subst.
    apply (findall_numbers_nonempty (claim_text claim)); [|congruence].
    now rewrite search_price_has_digit. }
  destruct (price_loop_verdict (price_min m) (price_max m) _ _
              default_finding Hvalues) as [f [Hf Hout]].
  rewrite (verify_finding SentimentIntensityAnalyzer claim df out' sia
             summary m f Ha Hs Hm).
  2:{ now rewrite apply_rules_price. }
  unfold outcome. cbn [fst consistency_score verification_result].
  rewrite <- surjective_pairing, Hout.
  unfold price_outcomes.
  destruct (List.find _ values) as [v|].
  - destruct (narrow_band _ _ v); simpl; auto.
  - destruct values; [congruence|]. simpl. auto.
Qed.

Lemma key_metrics_volatility (df : DataFrame) (m : Metrics) :
  key_metrics df = inr m -> volatility m = last_volatility df.
Proof.
  unfold key_metrics. intros H. bind_inv H. injection H as <-.
  cbn [volatility]. unfold last_volatility.
  match goal with
  | Hv : (if has_column df "Volatility_20d" then _ else _) = inr _ |- _ =>
      unfold has_column, getitem, last_unless_na, iloc_last in Hv;
      destruct (df_columns df !! "Volatility_20d") as [col|];
      [|now injection Hv as <-];
      cbn [mbind result_bind mret result_ret] in Hv;
      destruct (List.rev col) as [|v l];
      cbn [mbind result_bind mret result_ret raise] in Hv;
      [discriminate|];
      destruct (isna v); cbn [negb mbind result_bind mret result_ret] in Hv;
      now injection Hv as <-
  end.
Qed.

(** X9: for a claim of type volatility, when the analyzer is built and
    the summary of the frame too, the claim stays unverified when the
    frame has no column Volatility_20d or when the last value of the
    column is NaN; otherwise the last value, in percent, is compared with
    2: a claimed high volatility above 2, or a claimed low volatility at
    most 2, gives (0.9, verified), anything else (0.2, contradicted). *)
Theorem volatility_rule_on_frame
    (claim : Claim) (df : DataFrame) (out : stdout) (sia : analyzer)
    (summary : list SummaryLine) :
  claim_type claim = "volatility_claim" ->
  SentimentIntensityAnalyzer = inr sia ->
  create_financial_summary df = inr summary ->
  outcome (fst (verify_claim_against_data SentimentIntensityAnalyzer claim
                  df out)) =
  volatility_verdict (claim_text claim) (last_volatility df).
Proof.
  intros Htype Ha Hs.
  destruct (summary_gives_metrics df summary Hs) as [m Hm].
  rewrite (verify_finding SentimentIntensityAnalyzer claim df out sia
             summary m (volatility_rule (claim_text claim) m) Ha Hs Hm).
  2:{ now rewrite Htype. }
  unfold outcome. cbn [fst consistency_score verification_result].
  rewrite <- surjective_pairing.
  unfold volatility_rule, volatility_verdict. cbv zeta.
  rewrite (key_metrics_volatility df m Hm).
  destruct (last_volatility df) as [v|]; [|reflexivity].
  now destruct (_ || _).
Qed.

(** X10: for a claim of type comparison, when the analyzer is built and
    the summary of the frame too, the outcome is (0.7, partially
    verified) or (0.3, partially contradicted), and it is (0.3, partially
    contradicted) whenever the compound sentiment of the text lies
    between -0.1 and 0.1, whatever the prices. *)
Theorem comparison_rule_outcomes
    (claim : Claim) (df : DataFrame) (out : stdout) (sia : analyzer)
    (summary : list SummaryLine) :
  claim_type claim = "comparison_claim" ->
  SentimentIntensityAnalyzer = inr sia ->
  create_financial_summary df = inr summary ->
  In (outcome (fst (verify_claim_against_data SentimentIntensityAnalyzer
                      claim df out)))
     comparison_outcomes /\
  ((- 0.1 <=? sia (claim_text claim))%float = true ->
   (sia (claim_text claim) <=? 0.1)%float = true ->
   outcome (fst (verify_claim_against_data SentimentIntensityAnalyzer claim
                   df out)) =
   (0.3%float, "partially contradicted")).
Proof.
  intros Htype Ha Hs.
  destruct (summary_gives_metrics df summary Hs) as [m Hm].
  rewrite (verify_finding SentimentIntensityAnalyzer claim df out sia
             summary m
             (comparison_rule (sia (claim_text claim)) m) Ha Hs Hm).
  2:{ now rewrite Htype. }
  unfold outcome. cbn [fst consistency_score verification_result].
  rewrite <- surjective_pairing.
  unfold comparison_rule, comparison_outcomes. cbv zeta.
  split.
  - destruct (_ || _); simpl; auto.
  - intros Hlo Hhi.
    apply leb_ltb_false in Hlo. apply leb_ltb_false in Hhi.
    now rewrite Hlo, Hhi.
Qed.

(** X11: for a claim of type trend, when the analyzer is built and the
    summary of the frame too, a text with both an uptrend and a downtrend
    keyword is verified whatever the prices, and a text with neither is
    contradicted whatever the prices. *)
Theorem trend_rule_both_or_neither
    (claim : Claim) (df : DataFrame) (out : stdout) (sia : analyzer)
    (summary : list SummaryLine) :
  claim_type claim = "trend_claim" ->
  SentimentIntensityAnalyzer = inr sia ->
  create_financial_summary df = inr summary ->
  (any_in uptrend_words (lower (claim_text claim)) = true ->
   any_in downtrend_words (lower (claim_text claim)) = true ->
   outcome (fst (verify_claim_against_data SentimentIntensityAnalyzer claim
                   df out)) =
   (0.9%float, "verified")) /\
  (any_in uptrend_words (lower (claim_text claim)) = false ->
   any_in downtrend_words (lower (claim_text claim)) = false ->
   outcome (fst (verify_claim_against_data SentimentIntensityAnalyzer claim
                   df out)) =
   (0.1%float, "contradicted")).
Proof.
  intros Htype Ha Hs.
  destruct (summary_gives_metrics df summary Hs) as [m Hm].
  rewrite (verify_finding SentimentIntensityAnalyzer claim df out sia
             summary m (trend_rule (claim_text claim) m) Ha Hs Hm).
  2:{ now rewrite Htype. }
  unfold outcome. cbn [fst consistency_score verification_result].
  rewrite <- surjective_pairing.
  unfold trend_rule. cbv zeta.
  split; intros -> ->.
  - now destruct (0 <? price_change m)%float.
  - reflexivity.
Qed.

End MoreOnClaims.

(** ** The gauge *)

Section GaugeFacts.

Variable sent_tokenize : string -> result (list string).
Variable SentimentIntensityAnalyzer : result analyzer.

(** X12: the gauge is yellow, with the level Acceptable, exactly for a
    score from the threshold up to 0.75 excluded; with a threshold of
    0.75 or more, the default 0.85 included, it never is, and a score
    from 0.75 up to 0.9 excluded is shown as Good even below the
    threshold. *)
Theorem gauge_acceptable_level (consistency_score threshold : binary64) :
  let g := create_consistency_gauge consistency_score threshold in
  (bar_color g = "yellow" <->
   (threshold <=? consistency_score)%float = true /\
   (consistency_score <? 0.75)%float = true) /\
  (annotation g = "Level: Acceptable" <-> bar_color g = "yellow") /\
  ((0.75 <=? threshold)%float = true -> bar_color g <> "yellow") /\
  ((0.75 <=? consistency_score)%float = true /\
   (consistency_score <? 0.9)%float = true ->
   annotation g = "Level: Good").
Proof.
  cbv zeta. unfold create_consistency_gauge, gauge_level.
  cbn [bar_color annotation].
  assert ((0.75 <=? 0.75)%float = true) as Hrefl by reflexivity.
  assert ((0.75 <=? 0.9)%float = true) as H79 by reflexivity.
  destruct (0.9 <=? consistency_score)%float eqn:H9.
  { pose proof (leb_trans 0.75 0.9 consistency_score H79 H9) as H75.
    rewrite H75.
    apply (leb_ltb_false 0.75) in H75.
    apply (leb_ltb_false 0.9) in H9.
    cbn [fst snd]. rewrite H75, H9.
    repeat split; try discriminate; intros []; discriminate. }
  destruct (0.75 <=? consistency_score)%float eqn:H75.
  { pose proof (leb_ltb_false 0.75 consistency_score H75) as Hlt.
    rewrite Hlt.
    cbn [fst snd].
    repeat split; try discriminate; intros []; discriminate. }
  destruct (threshold <=? consistency_score)%float eqn:Ht.
  { destruct (leb_defined threshold consistency_score Ht) as [_ Hs].
    pose proof (leb_total 0.75 consistency_score Hrefl Hs H75) as Hlt.
    rewrite Hlt.
    cbn [fst snd]. split; [now split|]. split; [now split|]. split.
    - intros H7 _.
      pose proof (leb_trans 0.75 threshold consistency_score H7 Ht).
      congruence.
    - intros [H _]. discriminate. }
  destruct (0.5 <=? consistency_score)%float; cbn [fst snd];
    repeat split; try discriminate; intros []; discriminate.
Qed.

(** The percentage of the overall score of a report lies between 0 and
    100. *)
Lemma overall_percentage_range
    (narrative : string) (df : DataFrame) (out : stdout) :
  exists report score,
    fst (check_narrative_consistency sent_tokenize
           SentimentIntensityAnalyzer narrative df out)
    = inr (report, score) /\
    (0 <=? score * 100)%float = true /\ (score * 100 <=? 100)%float = true.
Proof.
  pose proof (check_returns sent_tokenize SentimentIntensityAnalyzer
                narrative df out) as Hc.
  pose proof (report_mean_checked sent_tokenize SentimentIntensityAnalyzer
                narrative df out) as Hok.
  cbv zeta in Hc, Hok.
  set (checks :=
         map (fun claim =>
                fst (verify_claim_against_data SentimentIntensityAnalyzer
                       claim df []))
             (fst (extract_factual_claims sent_tokenize narrative out)))
    in *.
  eexists _, _. split; [exact Hc|].
  destruct checks as [|c l] eqn:Hl; [split; reflexivity|].
  rewrite <- Hl in *.
  apply mean_ok_facts in Hok; [|rewrite Hl; discriminate].
  destruct Hok as (_ & _ & Hlow & Hhigh & _).
  now split.
Qed.

(** X13: the gauge drawn for the score of a report shows a value between
    0 and 100, the range of its axis, whatever the narrative, the frame
    and the threshold. *)
Theorem gauge_value_on_axis
    (narrative : string) (df : DataFrame) (out : stdout)
    (threshold : binary64) :
  exists report score,
    fst (check_narrative_consistency sent_tokenize
           SentimentIntensityAnalyzer narrative df out)
    = inr (report, score) /\
    (0 <=? gauge_value (create_consistency_gauge score threshold))%float
    = true /\
    (gauge_value (create_consistency_gauge score threshold) <=? 100)%float
    = true.
Proof.
  destruct (overall_percentage_range narrative df out)
    as (report & score & Hc & Hrange).
  exists report, score. split; [exact Hc|].
  cbn [create_consistency_gauge gauge_value]. exact Hrange.
Qed.

End GaugeFacts.

(** ** Highlighting *)

Section Highlighting.

Variable sent_tokenize : string -> result (list string).
Variable SentimentIntensityAnalyzer : result analyzer.
Variable format_2f : binary64 -> string.
Variable explanation_text : Explanation -> string.

Lemma insert_by_score_Forall (P : VerificationResult -> Prop)
    (r : VerificationResult) (l : list VerificationResult) :
  P r -> List.Forall P l -> List.Forall P (insert_by_score r l).
Proof.
  intros Hr. induction 1 as [|x l Hx Hl IH]; simpl.
  - now repeat constructor.
  - destruct (_ <? _)%float; now repeat constructor.
Qed.

Lemma sorted_by_score_Forall (P : VerificationResult -> Prop)
    (l : list VerificationResult) :
  List.Forall P l -> List.Forall P (sorted_by_score l).
Proof.
  induction 1 as [|x l Hx Hl IH]; simpl; [constructor|].
  now apply insert_by_score_Forall.
Qed.

Lemma highlight_claim_skips (narrative : string) (r : VerificationResult) :
  (0.9 <=? consistency_score r)%float = true ->
  highlight_claim format_2f explanation_text narrative r = narrative.
Proof.
  intros H. unfold highlight_claim. cbv zeta.
  apply (leb_ltb_false 0.9) in H. rewrite H. now rewrite andb_false_r.
Qed.

(** X14: without the key claim_checks in the report, the narrative is
    returned as it is, without paragraph tags; with a value that is not
    a list the call raises; with a list of checks that all have a score
    of at least 0.9, the result is the narrative between paragraph tags,
    with nothing highlighted. *)
Theorem highlight_report_cases
    (narrative : string) (report : gmap string value) :
  match report !! "claim_checks" with
  | None =>
      highlight_inconsistencies format_2f explanation_text narrative
        (Some report) = inr narrative
  | Some (Checks checks) =>
      List.Forall (fun r => (0.9 <=? consistency_score r)%float = true)
        checks ->
      highlight_inconsistencies format_2f explanation_text narrative
        (Some report) = inr ("<p>" ++ narrative ++ "</p>")%string
  | Some _ =>
      highlight_inconsistencies format_2f explanation_text narrative
        (Some report) = inl NotIterable
  end.
Proof.
  unfold highlight_inconsistencies.
  destruct (report !! "claim_checks") as [v|] eqn:Hl.
  - rewrite bool_decide_false.
    2:{ intros ->. now rewrite lookup_empty in Hl. }
    destruct v as [x|n|checks]; try reflexivity.
    intros Hall. cbv zeta. do 2 f_equal.
    apply sorted_by_score_Forall in Hall.
    induction Hall as [|r l Hr _ IH]; simpl; [reflexivity|].
    now rewrite highlight_claim_skips.
  - now destruct (bool_decide _).
Qed.

(** What the loop of [highlight_inconsistencies] does with a check that
    has one of the nine outcomes. *)
Lemma highlight_claim_of_outcome
    (narrative : string) (r : VerificationResult) :
  In (outcome r) all_outcomes ->
  highlight_claim format_2f explanation_text narrative r =
  match colour_of_verdict (verification_result r) with
  | None => narrative
  | Some colour =>
      if (checked_text r =? "")%string then narrative
      else replace (checked_text r)
             (span format_2f explanation_text colour r) narrative
  end /\
  ((consistency_score r <? 0.9)%float = true ->
   get_highlight_color (consistency_score r) <> "#CCFFCC").
Proof.
  destruct r as [text type score verdict e].
  unfold outcome. cbn [consistency_score verification_result].
  intros H. unfold all_outcomes, rule_outcomes in H. simpl in H.
  repeat (destruct H as [H|H]; [injection H as <- <-|]); [..|destruct H].
  all: split; [|intros Hlt; try discriminate Hlt; discriminate].
  all: unfold highlight_claim, span, tooltip;
    cbn [checked_text consistency_score verification_result explanation];
    destruct (text =? "")%string; reflexivity.
Qed.

(** X15: what [highlight_inconsistencies] does with a result of
    [verify_claim_against_data] follows from its verdict: a verified
    result, or one without text, leaves the narrative as it is; for the
    other results every occurrence of the text is put in a span with the
    tooltip of the check, yellow for unverified and partially verified
    results and red for the others (contradicted, partially
    contradicted, error); the green of [get_highlight_color] is never
    used. *)
Theorem highlight_colour_by_verdict
    (claim : Claim) (df : DataFrame) (out : stdout) (narrative : string) :
  let r := fst (verify_claim_against_data SentimentIntensityAnalyzer claim
                  df out) in
  highlight_claim format_2f explanation_text narrative r =
  match colour_of_verdict (verification_result r) with
  | None => narrative
  | Some colour =>
      if (checked_text r =? "")%string then narrative
      else replace (checked_text r)
             (span format_2f explanation_text colour r) narrative
  end /\
  ((consistency_score r <? 0.9)%float = true ->
   get_highlight_color (consistency_score r) <> "#CCFFCC").
Proof.
  cbv zeta. apply highlight_claim_of_outcome, verify_outcome.
Qed.

Lemma str_in_tail (old : string) (c : ascii) (s : string) :
  str_in old (String c s) = false ->
  String.prefix old (String c s) = false /\ str_in old s = false.
Proof.
  cbn [str_in]. intros H. now apply orb_false_iff in H.
Qed.

Lemma replace_absent (old new s : string) :
  str_in old s = false -> replace old new s = s.
Proof.
  destruct old as [|a old].
  { destruct s; discriminate. }
  unfold replace. induction s as [|c s IH]; [reflexivity|].
  intros H. apply str_in_tail in H. destruct H as [Hp Hs].
  cbn [replace_from]. rewrite Hp. now rewrite IH.
Qed.

(** X16: a check whose text does not occur in the narrative, character
    for character, changes nothing, whatever its score. *)
Theorem highlight_claim_absent_text
    (narrative : string) (r : VerificationResult) :
  str_in (checked_text r) narrative = false ->
  highlight_claim format_2f explanation_text narrative r = narrative.
Proof.
  intros H. unfold highlight_claim. cbv zeta.
  destruct (_ && _); [|reflexivity].
  now apply replace_absent.
Qed.

Lemma verified_score (claim : Claim) (df : DataFrame) (out : stdout) :
  let r := fst (verify_claim_against_data SentimentIntensityAnalyzer claim
                  df out) in
  verification_result r = "verified" ->
  (0.9 <=? consistency_score r)%float = true.
Proof.
  cbv zeta.
  pose proof (verify_outcome SentimentIntensityAnalyzer claim df out) as H.
  apply outcome_ranges in H. now apply H.
Qed.

(** X18: the report of [check_narrative_consistency] is always rendered
    by [highlight_inconsistencies] as a paragraph, without an exception,
    also when no claim was checked; when every check is verified the
    paragraph holds the narrative unchanged. *)
Theorem report_rendered_as_paragraph
    (narrative : string) (df : DataFrame) (out : stdout) :
  exists report score checks body,
    fst (check_narrative_consistency sent_tokenize
           SentimentIntensityAnalyzer narrative df out)
    = inr (report, score) /\
    report !! "claim_checks" = Some (Checks checks) /\
    highlight_inconsistencies format_2f explanation_text narrative
      (Some report) = inr ("<p>" ++ body ++ "</p>")%string /\
    (List.Forall (fun r => verification_result r = "verified") checks ->
     body = narrative).
Proof.
  pose proof (check_returns sent_tokenize SentimentIntensityAnalyzer
                narrative df out) as Hc.
  cbv zeta in Hc.
  set (checks :=
         map (fun claim =>
                fst (verify_claim_against_data SentimentIntensityAnalyzer
                       claim df []))
             (fst (extract_factual_claims sent_tokenize narrative out)))
    in *.
  eexists _, _, checks,
    (fold_left (highlight_claim format_2f explanation_text)
       (sorted_by_score checks) narrative).
  split; [exact Hc|].
  unfold highlight_inconsistencies. rewrite_lookups.
  split; [reflexivity|]. split.
  - rewrite bool_decide_false; [reflexivity | apply insert_non_empty].
  - intros Hall.
    assert (List.Forall
              (fun r => (0.9 <=? consistency_score r)%float = true)
              (sorted_by_score checks)) as Hhigh.
    { apply sorted_by_score_Forall.
      rewrite List.Forall_forall in *. intros r Hr.
      pose proof (Hall r Hr) as Hver. subst checks.
      apply in_map_iff in Hr. destruct Hr as [c [<- _]].
      now apply verified_score. }
    clear Hall. revert Hhigh. generalize (sorted_by_score checks).
    intros l Hhigh.
    induction Hhigh as [|r l' Hr _ IH]; simpl; [reflexivity|].
    now rewrite highlight_claim_skips.
Qed.

End Highlighting.

(** ** Truncation *)

Section Truncation.

Lemma length_take_str (n : nat) (s : string) :
  String.length (take_str n s) = Nat.min n (String.length s).
Proof.
  revert s. induction n as [|n IH]; intros [|c s]; simpl; auto.
Qed.

Lemma take_str_prefix (n : nat) (s rest : string) :
  (n <= String.length s)%nat ->
  take_str n (take_str n s ++ rest)%string = take_str n s.
Proof.
  revert s. induction n as [|n IH]; intros [|c s]; simpl; try lia; auto.
  intros H. rewrite IH; [reflexivity | lia].
Qed.

(** X17: for a maximum length that is not negative, [truncate_text]
    returns a short text as it is and otherwise the first [max_length]
    characters followed by three dots, so that the result has up to
    [max_length + 3] characters; truncating the result again changes
    nothing. *)
Theorem truncate_text_length (text : string) (max_length : Z) :
  (0 <= max_length)%Z ->
  let result := truncate_text text max_length in
  ((Z.of_nat (String.length text) <= max_length)%Z -> result = text) /\
  ((max_length < Z.of_nat (String.length text))%Z ->
   result = (take_str (Z.to_nat max_length) text ++ "...")%string /\
   Z.of_nat (String.length result) = (max_length + 3)%Z) /\
  (Z.of_nat (String.length result) <= max_length + 3)%Z /\
  truncate_text result max_length = result.
Proof.
  intros Hmax. cbv zeta.
  assert (forall t : string,
             (max_length < Z.of_nat (String.length t))%Z ->
             truncate_text t max_length =
             (take_str (Z.to_nat max_length) t ++ "...")%string /\
             Z.of_nat (String.length (truncate_text t max_length)) =
             (max_length + 3)%Z) as Hlong.
  { intros t Ht. unfold truncate_text, slice_to.
    destruct (Z.leb_spec (Z.of_nat (String.length t)) max_length); [lia|].
    destruct (Z.leb_spec 0 max_length); [|lia].
    split; [reflexivity|].
    rewrite length_append, length_take_str. simpl. lia. }
  assert (forall t : string,
             (Z.of_nat (String.length t) <= max_length)%Z ->
             truncate_text t max_length = t) as Hshort.
  { intros t Ht. unfold truncate_text.
    destruct (Z.leb_spec (Z.of_nat (String.length t)) max_length);
      [reflexivity | lia]. }
  split; [apply Hshort|]. split; [apply Hlong|].
  destruct (Z.le_gt_cases (Z.of_nat (String.length text)) max_length)
    as [Hle|Hgt].
  - rewrite (Hshort text Hle). split; [lia | now apply Hshort].
  - destruct (Hlong text Hgt) as [Hr Hlen]. split; [lia|].
    destruct (Hlong (truncate_text text max_length)) as [Hr' _]; [lia|].
    rewrite Hr'. rewrite Hr at 1 2.
    rewrite take_str_prefix; [reflexivity | lia].
Qed.

End Truncation.

(** ** The further properties on concrete inputs *)

Section MoreScenarios.

Lemma more_frames_well_formed :
  forallb (fun df => well_formed df && valid_dates df)
    [frame_empty; frame_calm] = true.
Proof. vm_compute. reflexivity. Qed.

(** The summary of a concrete frame, with its equation. *)
Ltac summary_of df summary Hs :=
  destruct (create_financial_summary df) as [?|summary] eqn:Hs;
    [vm_compute in Hs; discriminate|].

(** The exception of the summary without Volume, and without rows. *)
Lemma exceptions_of_two_frames :
  well_formed frame_without_volume = true /\
  create_financial_summary frame_without_volume = inl (KeyError "Volume") /\
  create_financial_summary frame_empty = inl ValueError.
Proof.
  split; [reflexivity|]. split.
  - exact (summary_exception_order frame_without_volume eq_refl).
  - exact (summary_exception_order frame_empty eq_refl).
Defined.


(** A sentence that names a year is extracted as a price claim. *)
Lemma year_is_a_price_claim :
  In (mkclaim year_sentence "price_claim")
     (fst (extract_factual_claims one_sentence year_sentence [])) /\
  has_digit year_sentence = true /\
  In "price_claim" extracted_types.
Proof.
  assert (In (mkclaim year_sentence "price_claim")
             (fst (extract_factual_claims one_sentence year_sentence [])))
    as Hin by (vm_compute; now left).
  destruct (extracted_types_and_digits one_sentence year_sentence [] _ Hin)
    as [Htypes Hdigit].
  split; [exact Hin|]. split; [|exact Htypes].
  apply Hdigit. now left.
Defined.

(** That claim is decided, as a price, on the frame of 2022. *)
Lemma year_claim_decided :
  has_digit year_sentence = true /\
  In (outcome (fst (verify_claim_against_data lexicon_installed
                      (mkclaim year_sentence "price_claim") frame_2022 [])))
     price_outcomes.
Proof.
  split; [reflexivity|].
  summary_of frame_2022 summary Hs.
  apply (extracted_price_claim_decided one_sentence lexicon_installed
           year_sentence [] [] (mkclaim year_sentence "price_claim")
           frame_2022 neutral summary);
    [vm_compute; now left | reflexivity | reflexivity | exact Hs].
Defined.

(** A claim of low volatility on a frame whose last volatility is 1.5
    percent. *)
Lemma calm_frame_low_volatility :
  well_formed frame_calm = true /\
  outcome (fst (verify_claim_against_data lexicon_installed
                  (mkclaim volatility_sentence "volatility_claim")
                  frame_calm [])) =
  (0.9%float, "verified").
Proof.
  split; [reflexivity|].
  summary_of frame_calm summary Hs.
  rewrite (volatility_rule_on_frame lexicon_installed
             (mkclaim volatility_sentence "volatility_claim") frame_calm []
             neutral summary eq_refl eq_refl Hs).
  vm_compute. reflexivity.
Defined.

(** A comparison under an analyzer that finds the text neutral. *)
Lemma neutral_comparison_contradicted :
  (- 0.1 <=? neutral comparison_sentence)%float = true /\
  (neutral comparison_sentence <=? 0.1)%float = true /\
  outcome (fst (verify_claim_against_data lexicon_installed
                  (mkclaim comparison_sentence "comparison_claim")
                  frame_2022 [])) =
  (0.3%float, "partially contradicted").
Proof.
  split; [reflexivity|]. split; [reflexivity|].
  summary_of frame_2022 summary Hs.
  exact (proj2 (comparison_rule_outcomes lexicon_installed
                  (mkclaim comparison_sentence "comparison_claim")
                  frame_2022 [] neutral summary eq_refl eq_refl Hs)
           eq_refl eq_refl).
Defined.

(** A text with "higher" and "lower", on a rising and on a falling
    close. *)
Lemma both_directions_verified :
  any_in uptrend_words (lower mixed_trend_sentence) = true /\
  any_in downtrend_words (lower mixed_trend_sentence) = true /\
  outcome (fst (verify_claim_against_data lexicon_installed
                  (mkclaim mixed_trend_sentence "trend_claim")
                  frame_2022 [])) = (0.9%float, "verified") /\
  outcome (fst (verify_claim_against_data lexicon_installed
                  (mkclaim mixed_trend_sentence "trend_claim")
                  frame_fall [])) = (0.9%float, "verified").
Proof.
  split; [reflexivity|]. split; [reflexivity|]. split.
  - summary_of frame_2022 summary Hs.
    exact (proj1 (trend_rule_both_or_neither lexicon_installed
                    (mkclaim mixed_trend_sentence "trend_claim")
                    frame_2022 [] neutral summary eq_refl eq_refl Hs)
             eq_refl eq_refl).
  - summary_of frame_fall summary Hs.
    exact (proj1 (trend_rule_both_or_neither lexicon_installed
                    (mkclaim mixed_trend_sentence "trend_claim")
                    frame_fall [] neutral summary eq_refl eq_refl Hs)
             eq_refl eq_refl).
Defined.

(** A check for a sentence the narrative does not have. *)
Lemma stray_check_changes_nothing :
  str_in (checked_text stray_check) price_sentence = false /\
  highlight_claim plain_score plain_explanation price_sentence stray_check =
  price_sentence.
Proof.
  split; [reflexivity|].
  exact (highlight_claim_absent_text plain_score plain_explanation
           price_sentence stray_check eq_refl).
Defined.

(** A report whose only check is verified. *)
Lemma verified_report_only_wrapped :
  verified_report !! "claim_checks" =
    Some (Checks [mkresult price_sentence "price_claim" 0.9 "verified"
                    (PriceWithin 150 140 160)]) /\
  highlight_inconsistencies plain_score plain_explanation price_sentence
    (Some verified_report) =
  inr ("<p>" ++ price_sentence ++ "</p>")%string.
Proof.
  assert (verified_report !! "claim_checks" =
            Some (Checks [mkresult price_sentence "price_claim" 0.9
                            "verified" (PriceWithin 150 140 160)]))
    as Hchecks by reflexivity.
  split; [exact Hchecks|].
  pose proof (highlight_report_cases plain_score plain_explanation
                price_sentence verified_report) as Hcases.
  rewrite Hchecks in Hcases. apply Hcases.
  repeat constructor.
Defined.

(** Eight characters truncated to five. *)
Lemma truncate_to_five :
  (0 <= 5)%Z /\
  truncate_text "abcdefgh" 5 = "abcde..." /\
  truncate_text "abcde..." 5 = "abcde...".
Proof.
  assert (0 <= 5)%Z as H5 by lia.
  split; [exact H5|].
  destruct (truncate_text_length "abcdefgh" 5 H5)
    as (_ & Hlong & _ & Hagain).
  destruct Hlong as [Hresult _]; [reflexivity|].
  split; [exact Hresult|]. exact Hagain.
Defined.

End MoreScenarios.
